(** * return-to-work-cost: the financial rules engine

    A shallow embedding of the calculation library of the repository
    (src/utils/taxCalculations.ts, subsidyCalculations.ts,
    advocacyCalculator.ts, graphData.ts, hoursGraphData.ts) and the
    properties its specification states about it.

    Number model.  A JavaScript [number] that is finite is modelled by an
    exact rational ([Q]); arithmetic is exact, so rounding of binary
    floating point is idealised away.  The one thing of IEEE arithmetic the
    library can observe on finite inputs is a division by zero: a division
    whose divisor is not a non-zero constant and whose quotient is handed
    back to the caller is modelled by [js_div], which yields [NaN] or an
    infinity as JavaScript does.  Equality of rationals is [Qeq] ([==]). *)

From Stdlib Require Import QArith Qabs Qminmax Qround ZArith List Bool Lia Lqa.
Import ListNotations.

Local Open Scope Q_scope.

(** ** JavaScript numbers and the [Math] functions the library calls *)

Module JS.

Inductive number : Type :=
| Fin (q : Q)
| PosInfinity
| NegInfinity
| NaN.

Definition isFinite (n : number) : bool :=
  match n with Fin _ => true | _ => false end.

(** [a < b], [a <= b], [a > b], [a >= b] and [a === b] on finite numbers. *)
Definition ltb (a b : Q) : bool := negb (Qle_bool b a).
Definition leb (a b : Q) : bool := Qle_bool a b.
Definition gtb (a b : Q) : bool := ltb b a.
Definition geb (a b : Q) : bool := leb b a.
Definition eqb (a b : Q) : bool := Qeq_bool a b.

(** [a / b] on finite numbers: IEEE 754 gives [NaN] for 0/0 and a signed
    infinity for a non-zero dividend over zero. *)
Definition js_div (a b : Q) : number :=
  if eqb b 0 then
    if eqb a 0 then NaN
    else if ltb 0 a then PosInfinity else NegInfinity
  else Fin (a / b).

(** [n * k] for a finite [k]. *)
Definition js_mul (n : number) (k : Q) : number :=
  match n with
  | Fin a => Fin (a * k)
  | PosInfinity =>
      if eqb k 0 then NaN else if ltb 0 k then PosInfinity else NegInfinity
  | NegInfinity =>
      if eqb k 0 then NaN else if ltb 0 k then NegInfinity else PosInfinity
  | NaN => NaN
  end.

Definition Math_min (a b : Q) : Q := Qmin a b.
Definition Math_max (a b : Q) : Q := Qmax a b.
Definition Math_abs (a : Q) : Q := Qabs a.
Definition Math_floor (a : Q) : Q := inject_Z (Qfloor a).
(** [Math.round] rounds to the nearest integer, halves towards +infinity. *)
Definition Math_round (a : Q) : Q := inject_Z (Qfloor (a + (1 # 2))).

(** [k + n] for a finite [k]. *)
Definition js_add (k : Q) (n : number) : number :=
  match n with
  | Fin a => Fin (k + a)
  | PosInfinity => PosInfinity
  | NegInfinity => NegInfinity
  | NaN => NaN
  end.

Definition Math_ceil (a : Q) : Q := inject_Z (Qceiling a).

End JS.

Import JS.

(** ** src/utils/taxCalculations.ts *)

Module TaxCalculations.

Definition calculateLowIncomeTaxOffset (income : Q) : Q :=
  if leb income 37000 then 700
  else if leb income 45000 then 700 - 0.05 * (income - 37000)
  else if leb income 66667 then 325 - 0.015 * (income - 45000)
  else 0.

Definition calculateIncomeTax (income : Q) : Q :=
  let tax := 0 in
  if leb income 18200 then 0
  else
    let firstBracket := Math_min (income - 18200) 26800 in
    let tax := tax + firstBracket * 0.16 in
    let tax :=
      if gtb income 45000 then
        let secondBracket := Math_min (income - 45000) 90000 in
        tax + secondBracket * 0.30
      else tax in
    let tax :=
      if gtb income 135000 then
        let thirdBracket := Math_min (income - 135000) 55000 in
        tax + thirdBracket * 0.37
      else tax in
    let tax :=
      if gtb income 190000 then tax + (income - 190000) * 0.45
      else tax in
    let lito := calculateLowIncomeTaxOffset income in
    Math_max 0 (tax - lito).

Definition SINGLE_THRESHOLD : Q := 24276.
Definition SINGLE_SHADE_IN_END : Q := 30345.

Definition calculateMedicareLevy (income : Q) : Q :=
  if leb income SINGLE_THRESHOLD then 0
  else if leb income SINGLE_SHADE_IN_END then
    let excess := income - SINGLE_THRESHOLD in
    let shadeInRange := SINGLE_SHADE_IN_END - SINGLE_THRESHOLD in
    let levyPercent := (excess / shadeInRange) * 0.02 in
    income * levyPercent
  else income * 0.02.

Definition calculateAfterTaxIncome (income : Q) : Q :=
  let incomeTax := calculateIncomeTax income in
  let medicareLevy := calculateMedicareLevy income in
  income - incomeTax - medicareLevy.

End TaxCalculations.

(** ** src/utils/subsidyCalculations.ts *)

Module SubsidyCalculations.

Definition BASE_INCOME : Q := 85279.
Definition BASE_SUBSIDY_PERCENT : Q := 90.

Definition SECOND_CHILD_BASE_INCOME : Q := 143273.
Definition SECOND_CHILD_SUBSIDY_PERCENT : Q := 95.
Definition SECOND_CHILD_INCOME_STEP : Q := 3000.
Definition SECOND_CHILD_FIRST_BRACKET_END : Q := 188273.
Definition SECOND_CHILD_FLAT_80_END : Q := 267563.
Definition SECOND_CHILD_SECOND_BRACKET_END : Q := 357563.
Definition SECOND_CHILD_MIN_SUBSIDY_PERCENT : Q := 50.

Definition INCOME_STEP : Q := 5000.
Definition SUBSIDY_DECREASE_PER_STEP : Q := 1.
Definition MAX_INCOME : Q := 535279.

Definition HOURLY_RATE_CAP_UNDER_SCHOOL_AGE : Q := 14.63.
Definition HOURLY_RATE_CAP_SCHOOL_AGE : Q := 12.81.

Definition MIN_SUBSIDISED_HOURS : Q := 72.
Definition MAX_SUBSIDISED_HOURS : Q := 100.
Definition ACTIVITY_THRESHOLD_FOR_MAX_HOURS : Q := 48.

Inductive Age : Type := under_school | school_age.

Module Child.
Record t : Type := mk {
  age : Age;
  hoursPerDay : Q;
  daysPerWeek : Q;
  hourlyRate : Q;
  isSecondOrLater : bool
}.
End Child.

Definition calculateSubsidyPercent (income : Q) (isSecondOrLater : bool) : Q :=
  if isSecondOrLater then
    if leb income SECOND_CHILD_BASE_INCOME then SECOND_CHILD_SUBSIDY_PERCENT
    else if leb income SECOND_CHILD_FIRST_BRACKET_END then
      let incomeOverBase := income - SECOND_CHILD_BASE_INCOME in
      let steps := Math_floor (incomeOverBase / SECOND_CHILD_INCOME_STEP) in
      let subsidyPercent :=
        SECOND_CHILD_SUBSIDY_PERCENT - steps * SUBSIDY_DECREASE_PER_STEP in
      Math_max 80 subsidyPercent
    else if leb income SECOND_CHILD_FLAT_80_END then 80
    else if leb income SECOND_CHILD_SECOND_BRACKET_END then
      let incomeOverBase := income - SECOND_CHILD_FLAT_80_END in
      let steps := Math_floor (incomeOverBase / SECOND_CHILD_INCOME_STEP) in
      let subsidyPercent := 80 - steps * SUBSIDY_DECREASE_PER_STEP in
      Math_max SECOND_CHILD_MIN_SUBSIDY_PERCENT subsidyPercent
    else SECOND_CHILD_MIN_SUBSIDY_PERCENT
  else
    if leb income BASE_INCOME then BASE_SUBSIDY_PERCENT
    else if geb income MAX_INCOME then 0
    else
      let incomeOverBase := income - BASE_INCOME in
      let steps := Math_floor (incomeOverBase / INCOME_STEP) in
      let subsidyPercent :=
        BASE_SUBSIDY_PERCENT - steps * SUBSIDY_DECREASE_PER_STEP in
      Math_max 0 subsidyPercent.

Definition calculateSubsidisedHours (activityHoursPerFortnight : Q) : Q :=
  if geb activityHoursPerFortnight ACTIVITY_THRESHOLD_FOR_MAX_HOURS
  then MAX_SUBSIDISED_HOURS
  else MIN_SUBSIDISED_HOURS.

(** The record [calculateChildSubsidy] returns. *)
Module ChildSubsidy.
Record t : Type := mk {
  subsidyPercent : Q;
  hourlyRateCap : Q;
  subsidisedHoursPerFortnight : Q;
  subsidyPerHour : Q;
  hoursPerDay : Q;
  daysPerWeek : Q
}.
End ChildSubsidy.

Definition calculateChildSubsidy
    (child : Child.t) (income activityHoursPerFortnight : Q) : ChildSubsidy.t :=
  let subsidyPercent :=
    calculateSubsidyPercent income (Child.isSecondOrLater child) in
  let hourlyRateCap :=
    match Child.age child with
    | under_school => HOURLY_RATE_CAP_UNDER_SCHOOL_AGE
    | school_age => HOURLY_RATE_CAP_SCHOOL_AGE
    end in
  let subsidisedHoursPerFortnight :=
    calculateSubsidisedHours activityHoursPerFortnight in
  let rateForSubsidy := Math_min (Child.hourlyRate child) hourlyRateCap in
  let subsidyPerHour := rateForSubsidy * (subsidyPercent / 100) in
  {| ChildSubsidy.subsidyPercent := subsidyPercent;
     ChildSubsidy.hourlyRateCap := hourlyRateCap;
     ChildSubsidy.subsidisedHoursPerFortnight := subsidisedHoursPerFortnight;
     ChildSubsidy.subsidyPerHour := subsidyPerHour;
     ChildSubsidy.hoursPerDay := Child.hoursPerDay child;
     ChildSubsidy.daysPerWeek := Child.daysPerWeek child |}.

(** One element of [childDetails]: the spread of the [calculateChildSubsidy]
    record ([details]) followed by the five cost fields. *)
Module ChildDetail.
Record t : Type := mk {
  details : ChildSubsidy.t;
  subsidyAmount : Q;
  totalCost : Q;
  outOfPocket : Q;
  subsidisedHours : Q;
  unsubsidisedHours : Q
}.
Definition subsidyPercent (d : t) := ChildSubsidy.subsidyPercent (details d).
Definition hourlyRateCap (d : t) := ChildSubsidy.hourlyRateCap (details d).
Definition subsidisedHoursPerFortnight (d : t) :=
  ChildSubsidy.subsidisedHoursPerFortnight (details d).
Definition subsidyPerHour (d : t) := ChildSubsidy.subsidyPerHour (details d).
Definition hoursPerDay (d : t) := ChildSubsidy.hoursPerDay (details d).
Definition daysPerWeek (d : t) := ChildSubsidy.daysPerWeek (details d).
End ChildDetail.

Module TotalCosts.
Record t : Type := mk {
  childDetails : list ChildDetail.t;
  totalChildcareSubsidy : Q;
  totalChildcareCost : Q;
  totalChildcareOutOfPocket : Q;
  childcarePerDay : number
}.
End TotalCosts.

(** The body of the [children.map] callback, without the two running
    totals it also updates. *)
Definition childDetail (income activityHoursPerFortnight : Q)
    (child : Child.t) : ChildDetail.t :=
  let details := calculateChildSubsidy child income activityHoursPerFortnight in
  let hoursPerFortnight := Child.hoursPerDay child * Child.daysPerWeek child * 2 in
  let subsidisedHours :=
    Math_min hoursPerFortnight (ChildSubsidy.subsidisedHoursPerFortnight details) in
  let unsubsidisedHours := Math_max 0 (hoursPerFortnight - subsidisedHours) in
  let subsidyAmount := subsidisedHours * ChildSubsidy.subsidyPerHour details in
  let totalCost := hoursPerFortnight * Child.hourlyRate child in
  let outOfPocket := totalCost - subsidyAmount in
  {| ChildDetail.details := details;
     ChildDetail.subsidyAmount := subsidyAmount;
     ChildDetail.totalCost := totalCost;
     ChildDetail.outOfPocket := outOfPocket;
     ChildDetail.subsidisedHours := subsidisedHours;
     ChildDetail.unsubsidisedHours := unsubsidisedHours |}.

(** [totalDaysPerFortnight > 0 ? totalChildcareOutOfPocket / totalDaysPerFortnight : 0] *)
Definition perDay (totalChildcareOutOfPocket totalDaysPerFortnight : Q) : number :=
  if gtb totalDaysPerFortnight 0
  then js_div totalChildcareOutOfPocket totalDaysPerFortnight
  else Fin 0.

Definition calculateTotalCosts
    (children : list Child.t) (income activityHoursPerFortnight : Q) : TotalCosts.t :=
  let childDetails := map (childDetail income activityHoursPerFortnight) children in
  (* the two [let] accumulators, updated once per child in list order *)
  let totalChildcareSubsidy :=
    fold_left (fun acc d => acc + ChildDetail.subsidyAmount d) childDetails 0 in
  let totalChildcareCost :=
    fold_left (fun acc d => acc + ChildDetail.totalCost d) childDetails 0 in
  let totalChildcareOutOfPocket := totalChildcareCost - totalChildcareSubsidy in
  let totalDaysPerFortnight :=
    fold_left (fun sum child => sum + Child.daysPerWeek child * 2) children 0 in
  let childcarePerDay := perDay totalChildcareOutOfPocket totalDaysPerFortnight in
  {| TotalCosts.childDetails := childDetails;
     TotalCosts.totalChildcareSubsidy := totalChildcareSubsidy;
     TotalCosts.totalChildcareCost := totalChildcareCost;
     TotalCosts.totalChildcareOutOfPocket := totalChildcareOutOfPocket;
     TotalCosts.childcarePerDay := childcarePerDay |}.

End SubsidyCalculations.

Import SubsidyCalculations.
Import TaxCalculations.

(** ** src/utils/advocacyCalculator.ts *)

Module AdvocacyCalculator.

Module SecondParentScenario.
Record t : Type := mk {
  secondParentIncome : Q;
  firstParentIncome : Q;
  children : list Child.t;
  activityHoursPerFortnight : Q;
  (* optional in the source: [None] is an absent (undefined) field *)
  secondParentHoursPerFortnight : option Q
}.
End SecondParentScenario.

Module ChildBreakdown.
Record t : Type := mk {
  subsidyPercent : Q;
  subsidyAmount : Q;
  totalCost : Q;
  outOfPocket : Q;
  isSecondOrLater : bool;
  subsidisedHours : Q;
  unsubsidisedHours : Q;
  hoursPerDay : Q;
  daysPerWeek : Q
}.
End ChildBreakdown.

Module ChildcareCosts.
Record t : Type := mk {
  totalAnnual : Q;
  totalSubsidy : Q;
  outOfPocketAnnual : Q;
  outOfPocketPerDay : number;
  childDetails : list ChildBreakdown.t
}.
End ChildcareCosts.

Module FinancialBreakdown.
Record t : Type := mk {
  secondParentGrossIncome : Q;
  secondParentAfterTax : Q;
  childcareCosts : ChildcareCosts.t;
  netIncomeAfterChildcare : Q;
  effectiveHourlyRate : number;
  percentageOfIncomeLost : number
}.
End FinancialBreakdown.

(** [Array.prototype.map] with the element's index passed to the callback. *)
Fixpoint mapi_from {A B : Type} (f : A -> nat -> B) (index : nat) (l : list A) : list B :=
  match l with
  | [] => []
  | x :: l' => f x index :: mapi_from f (S index) l'
  end.

Definition calculateSecondParentScenario
    (scenario : SecondParentScenario.t) : FinancialBreakdown.t :=
  let combinedIncome :=
    SecondParentScenario.firstParentIncome scenario
    + SecondParentScenario.secondParentIncome scenario in
  let costs :=
    calculateTotalCosts (SecondParentScenario.children scenario) combinedIncome
      (SecondParentScenario.activityHoursPerFortnight scenario) in
  let secondParentAfterTax :=
    calculateAfterTaxIncome (SecondParentScenario.secondParentIncome scenario) in
  let childcareOutOfPocketAnnual := TotalCosts.totalChildcareOutOfPocket costs * 26 in
  let netIncomeAfterChildcare := secondParentAfterTax - childcareOutOfPocketAnnual in
  (* [??] falls back only when the field is absent; a supplied 0 is kept *)
  let hoursPerFortnightForRate :=
    match SecondParentScenario.secondParentHoursPerFortnight scenario with
    | Some h => h
    | None => SecondParentScenario.activityHoursPerFortnight scenario
    end in
  let annualWorkingHours := hoursPerFortnightForRate * 26 in
  let effectiveHourlyRate :=
    if gtb annualWorkingHours 0
    then js_div netIncomeAfterChildcare annualWorkingHours
    else Fin 0 in
  let percentageOfIncomeLost :=
    js_mul
      (js_div
         (SecondParentScenario.secondParentIncome scenario - netIncomeAfterChildcare)
         (SecondParentScenario.secondParentIncome scenario))
      100 in
  {| FinancialBreakdown.secondParentGrossIncome :=
       SecondParentScenario.secondParentIncome scenario;
     FinancialBreakdown.secondParentAfterTax := secondParentAfterTax;
     FinancialBreakdown.childcareCosts :=
       {| ChildcareCosts.totalAnnual := TotalCosts.totalChildcareCost costs * 26;
          ChildcareCosts.totalSubsidy := TotalCosts.totalChildcareSubsidy costs * 26;
          ChildcareCosts.outOfPocketAnnual := childcareOutOfPocketAnnual;
          ChildcareCosts.outOfPocketPerDay := TotalCosts.childcarePerDay costs;
          ChildcareCosts.childDetails :=
            mapi_from
              (fun detail index =>
                 {| ChildBreakdown.subsidyPercent := ChildDetail.subsidyPercent detail;
                    ChildBreakdown.subsidyAmount := ChildDetail.subsidyAmount detail * 26;
                    ChildBreakdown.totalCost := ChildDetail.totalCost detail * 26;
                    ChildBreakdown.outOfPocket := ChildDetail.outOfPocket detail * 26;
                    ChildBreakdown.isSecondOrLater :=
                      match nth_error (SecondParentScenario.children scenario) index with
                      | Some child => Child.isSecondOrLater child || false
                      | None => false
                      end;
                    ChildBreakdown.subsidisedHours := ChildDetail.subsidisedHours detail;
                    ChildBreakdown.unsubsidisedHours := ChildDetail.unsubsidisedHours detail;
                    ChildBreakdown.hoursPerDay := ChildDetail.hoursPerDay detail;
                    ChildBreakdown.daysPerWeek := ChildDetail.daysPerWeek detail |})
              O (TotalCosts.childDetails costs) |};
     FinancialBreakdown.netIncomeAfterChildcare := netIncomeAfterChildcare;
     FinancialBreakdown.effectiveHourlyRate := effectiveHourlyRate;
     FinancialBreakdown.percentageOfIncomeLost := percentageOfIncomeLost |}.

End AdvocacyCalculator.

(** ** src/utils/graphData.ts *)

Module GraphData.

Module GraphDataPoint.
Record t : Type := mk {
  grossIncome : Q;
  netIncome : Q;
  afterTax : Q;
  childcareCost : Q
}.
End GraphDataPoint.

Module BreakEvenPoint.
Record t : Type := mk {
  income : Q;
  netIncome : Q
}.
End BreakEvenPoint.

(** The body of the sampling loop: the point pushed for one value of
    [secondParentIncome]. *)
Definition graphPoint (firstParentIncome : Q) (children : list Child.t)
    (activityHoursPerFortnight : Q) (isSingleParent : bool)
    (secondParentIncome : Q) : GraphDataPoint.t :=
  let incomeForSubsidy :=
    if isSingleParent then secondParentIncome
    else firstParentIncome + secondParentIncome in
  let costs := calculateTotalCosts children incomeForSubsidy activityHoursPerFortnight in
  let afterTax := calculateAfterTaxIncome secondParentIncome in
  let childcareOutOfPocketAnnual := TotalCosts.totalChildcareOutOfPocket costs * 26 in
  let netIncome := afterTax - childcareOutOfPocketAnnual in
  {| GraphDataPoint.grossIncome := secondParentIncome;
     GraphDataPoint.netIncome := netIncome;
     GraphDataPoint.afterTax := afterTax;
     GraphDataPoint.childcareCost := childcareOutOfPocketAnnual |}.

(** [for (x = minIncome; x <= maxIncome; x += step) dataPoints.push(point x)].
    The loop need not terminate (a step that is not positive), so it runs
    on fuel: [None] means the fuel ran out before the loop condition failed. *)
Fixpoint graphLoop (fuel : nat) (point : Q -> GraphDataPoint.t) (maxIncome step : Q)
    (secondParentIncome : Q) (dataPoints : list GraphDataPoint.t)
    : option (list GraphDataPoint.t) :=
  match fuel with
  | O => None
  | S fuel' =>
      if leb secondParentIncome maxIncome
      then graphLoop fuel' point maxIncome step (secondParentIncome + step)
             (dataPoints ++ [point secondParentIncome])
      else Some dataPoints
  end.

Definition calculateGraphData (fuel : nat) (firstParentIncome : Q)
    (children : list Child.t) (activityHoursPerFortnight : Q)
    (minIncome maxIncome step : Q) (isSingleParent : bool)
    : option (list GraphDataPoint.t) :=
  graphLoop fuel
    (graphPoint firstParentIncome children activityHoursPerFortnight isSingleParent)
    maxIncome step minIncome [].

(** The point both branches of [findBreakEvenPoint] build. *)
Definition breakEvenBetween (current next : GraphDataPoint.t) : BreakEvenPoint.t :=
  let ratio :=
    Math_abs (GraphDataPoint.netIncome current)
    / (Math_abs (GraphDataPoint.netIncome current)
       + Math_abs (GraphDataPoint.netIncome next)) in
  let breakEvenIncome :=
    GraphDataPoint.grossIncome current
    + (GraphDataPoint.grossIncome next - GraphDataPoint.grossIncome current) * ratio in
  {| BreakEvenPoint.income := breakEvenIncome; BreakEvenPoint.netIncome := 0 |}.

(** The loop over [i] reads [dataPoints[i]] and [dataPoints[i + 1]]: a
    recursion on the suffix that starts at index [i]. *)
Fixpoint findBreakEvenPoint (dataPoints : list GraphDataPoint.t)
    : option BreakEvenPoint.t :=
  match dataPoints with
  | current :: ((next :: _) as rest) =>
      if geb (GraphDataPoint.netIncome current) 0
         && ltb (GraphDataPoint.netIncome next) 0
      then Some (breakEvenBetween current next)
      else if leb (GraphDataPoint.netIncome current) 0
              && gtb (GraphDataPoint.netIncome next) 0
      then Some (breakEvenBetween current next)
      else findBreakEvenPoint rest
  | _ => None
  end.

Definition interpolateAt (current next : GraphDataPoint.t) (targetIncome : Q)
    : GraphDataPoint.t :=
  let ratio :=
    (targetIncome - GraphDataPoint.grossIncome current)
    / (GraphDataPoint.grossIncome next - GraphDataPoint.grossIncome current) in
  let netIncome :=
    GraphDataPoint.netIncome current
    + (GraphDataPoint.netIncome next - GraphDataPoint.netIncome current) * ratio in
  let afterTax :=
    GraphDataPoint.afterTax current
    + (GraphDataPoint.afterTax next - GraphDataPoint.afterTax current) * ratio in
  let childcareCost :=
    GraphDataPoint.childcareCost current
    + (GraphDataPoint.childcareCost next - GraphDataPoint.childcareCost current) * ratio in
  {| GraphDataPoint.grossIncome := targetIncome;
     GraphDataPoint.netIncome := netIncome;
     GraphDataPoint.afterTax := afterTax;
     GraphDataPoint.childcareCost := childcareCost |}.

Fixpoint findPointLoop (dataPoints : list GraphDataPoint.t) (targetIncome : Q)
    : option GraphDataPoint.t :=
  match dataPoints with
  | current :: ((next :: _) as rest) =>
      if leb (GraphDataPoint.grossIncome current) targetIncome
         && geb (GraphDataPoint.grossIncome next) targetIncome
      then
        if eqb (GraphDataPoint.grossIncome current) targetIncome then Some current
        else if eqb (GraphDataPoint.grossIncome next) targetIncome then Some next
        else Some (interpolateAt current next targetIncome)
      else findPointLoop rest targetIncome
  | _ => None
  end.

Definition findPointForIncome (dataPoints : list GraphDataPoint.t) (targetIncome : Q)
    : option GraphDataPoint.t :=
  if Nat.eqb (length dataPoints) 0 then None
  else findPointLoop dataPoints targetIncome.

Definition AUSTRALIAN_MINIMUM_WAGE_PER_HOUR : Q := 24.95.
Definition WORKING_DAYS_PER_YEAR : Q := 260.
Definition HOURS_PER_DAY : Q := 7.6.
Definition TOTAL_WORKING_HOURS_PER_YEAR : Q := WORKING_DAYS_PER_YEAR * HOURS_PER_DAY.
Definition MINIMUM_WAGE_GROSS_ANNUAL : Q :=
  AUSTRALIAN_MINIMUM_WAGE_PER_HOUR * HOURS_PER_DAY * WORKING_DAYS_PER_YEAR.
Definition MINIMUM_WAGE_AFTER_TAX : Q := calculateAfterTaxIncome MINIMUM_WAGE_GROSS_ANNUAL.
Definition MINIMUM_WAGE_POST_TAX_HOURLY_RATE : Q :=
  MINIMUM_WAGE_AFTER_TAX / TOTAL_WORKING_HOURS_PER_YEAR.

Definition calculateMinimumWageAfterTaxForHours (hoursPerWeek : Q) : Q :=
  let annualHours := hoursPerWeek * 52 in
  let minimumWageGrossAnnual := AUSTRALIAN_MINIMUM_WAGE_PER_HOUR * annualHours in
  calculateAfterTaxIncome minimumWageGrossAnnual.

(** What [findMinimumWageEquivalentPoint] returns: the shape of a
    [BreakEvenPoint] whose [income] may be the quotient of a division by
    zero. *)
Module EquivalentPoint.
Record t : Type := mk {
  income : number;
  netIncome : Q
}.
End EquivalentPoint.

(** [dataPoints.reduce(f)] without an initial value, on a non-empty array. *)
Definition reduce1 {A : Type} (f : A -> A -> A) (first : A) (rest : list A) : A :=
  fold_left f rest first.

(** The crossing search of [findMinimumWageEquivalentPoint]; [None] when the
    loop ends without a [return]. *)
Fixpoint minimumWageCrossing (minimumWageAfterTaxForHours : Q)
    (dataPoints : list GraphDataPoint.t) : option EquivalentPoint.t :=
  match dataPoints with
  | current :: ((next :: _) as rest) =>
      if leb (GraphDataPoint.netIncome current) minimumWageAfterTaxForHours
         && geb (GraphDataPoint.netIncome next) minimumWageAfterTaxForHours
      then
        let ratio :=
          js_div (minimumWageAfterTaxForHours - GraphDataPoint.netIncome current)
            (GraphDataPoint.netIncome next - GraphDataPoint.netIncome current) in
        let minWageIncome :=
          js_add (GraphDataPoint.grossIncome current)
            (js_mul ratio
               (GraphDataPoint.grossIncome next - GraphDataPoint.grossIncome current)) in
        Some {| EquivalentPoint.income := minWageIncome;
                EquivalentPoint.netIncome := minimumWageAfterTaxForHours |}
      else if geb (GraphDataPoint.netIncome current) minimumWageAfterTaxForHours
              && leb (GraphDataPoint.netIncome next) minimumWageAfterTaxForHours
      then
        let ratio :=
          js_div (minimumWageAfterTaxForHours - GraphDataPoint.netIncome next)
            (GraphDataPoint.netIncome current - GraphDataPoint.netIncome next) in
        let minWageIncome :=
          js_add (GraphDataPoint.grossIncome next)
            (js_mul ratio
               (GraphDataPoint.grossIncome current - GraphDataPoint.grossIncome next)) in
        Some {| EquivalentPoint.income := minWageIncome;
                EquivalentPoint.netIncome := minimumWageAfterTaxForHours |}
      else minimumWageCrossing minimumWageAfterTaxForHours rest
  | _ => None
  end.

(** The closing loop: the sample nearest to the minimum wage, the earliest
    one on a tie. *)
Definition closestPointTo (minimumWageAfterTaxForHours : Q)
    (first : GraphDataPoint.t) (dataPoints : list GraphDataPoint.t) : GraphDataPoint.t :=
  fst
    (fold_left
       (fun (state : GraphDataPoint.t * Q) point =>
          let (closestPoint, closestDistance) := state in
          let distance :=
            Math_abs (GraphDataPoint.netIncome point - minimumWageAfterTaxForHours) in
          if ltb distance closestDistance then (point, distance)
          else (closestPoint, closestDistance))
       dataPoints
       (first, Math_abs (GraphDataPoint.netIncome first - minimumWageAfterTaxForHours))).

Definition findMinimumWageEquivalentPoint (dataPoints : list GraphDataPoint.t)
    (hoursPerFortnight : option Q) : option EquivalentPoint.t :=
  let actualHoursPerFortnight :=
    match hoursPerFortnight with Some h => h | None => 76 end in
  let annualHours := actualHoursPerFortnight * 26 in
  let minimumWageGrossAnnual := AUSTRALIAN_MINIMUM_WAGE_PER_HOUR * annualHours in
  let minimumWageAfterTaxForHours := calculateAfterTaxIncome minimumWageGrossAnnual in
  match dataPoints with
  | [] => None
  | first :: rest =>
      let minNetIncome :=
        fold_left (fun min d => Math_min min (GraphDataPoint.netIncome d)) dataPoints
          (GraphDataPoint.netIncome first) in
      let maxNetIncome :=
        fold_left (fun max d => Math_max max (GraphDataPoint.netIncome d)) dataPoints
          (GraphDataPoint.netIncome first) in
      if ltb minimumWageAfterTaxForHours minNetIncome then
        let lowestPoint :=
          reduce1
            (fun prev curr =>
               if ltb (GraphDataPoint.netIncome curr) (GraphDataPoint.netIncome prev)
               then curr else prev)
            first rest in
        Some {| EquivalentPoint.income := Fin (GraphDataPoint.grossIncome lowestPoint);
                EquivalentPoint.netIncome := GraphDataPoint.netIncome lowestPoint |}
      else if gtb minimumWageAfterTaxForHours maxNetIncome then
        let highestPoint :=
          reduce1
            (fun prev curr =>
               if gtb (GraphDataPoint.netIncome curr) (GraphDataPoint.netIncome prev)
               then curr else prev)
            first rest in
        Some {| EquivalentPoint.income := Fin (GraphDataPoint.grossIncome highestPoint);
                EquivalentPoint.netIncome := GraphDataPoint.netIncome highestPoint |}
      else
        match minimumWageCrossing minimumWageAfterTaxForHours dataPoints with
        | Some crossing => Some crossing
        | None =>
            let closestPoint := closestPointTo minimumWageAfterTaxForHours first dataPoints in
            Some {| EquivalentPoint.income := Fin (GraphDataPoint.grossIncome closestPoint);
                    EquivalentPoint.netIncome := GraphDataPoint.netIncome closestPoint |}
        end
  end.

End GraphData.

(** ** src/utils/hoursGraphData.ts *)

Module HoursGraphData.

Module HoursGraphDataPoint.
Record t : Type := mk {
  hoursPerWeek : Q;
  daysPerWeek : Q;
  netIncome : Q;
  grossIncome : Q;
  afterTax : Q;
  childcareCost : Q
}.
End HoursGraphDataPoint.

Definition calculateDaysPerWeekFromHours (hoursPerWeek : Q) : Q :=
  let hoursPerDay := 7.6 in
  Math_round ((hoursPerWeek / hoursPerDay) * 10) / 10.

Definition childDetailWithWorkDays (income subsidisedHoursPerFortnight : Q)
    (child : Child.t) : ChildDetail.t :=
  let details := calculateChildSubsidy child income 0 in
  let hoursPerFortnight := Child.hoursPerDay child * Child.daysPerWeek child * 2 in
  let subsidisedHours := Math_min hoursPerFortnight subsidisedHoursPerFortnight in
  let unsubsidisedHours := Math_max 0 (hoursPerFortnight - subsidisedHours) in
  let subsidyAmount := subsidisedHours * ChildSubsidy.subsidyPerHour details in
  let totalCost := hoursPerFortnight * Child.hourlyRate child in
  let outOfPocket := totalCost - subsidyAmount in
  {| ChildDetail.details := details;
     ChildDetail.subsidyAmount := subsidyAmount;
     ChildDetail.totalCost := totalCost;
     ChildDetail.outOfPocket := outOfPocket;
     ChildDetail.subsidisedHours := subsidisedHours;
     ChildDetail.unsubsidisedHours := unsubsidisedHours |}.

Definition calculateTotalCostsWithWorkDays
    (children : list Child.t) (income subsidisedHoursPerFortnight : Q) : TotalCosts.t :=
  let childDetails :=
    map (childDetailWithWorkDays income subsidisedHoursPerFortnight) children in
  let totalChildcareSubsidy :=
    fold_left (fun acc d => acc + ChildDetail.subsidyAmount d) childDetails 0 in
  let totalChildcareCost :=
    fold_left (fun acc d => acc + ChildDetail.totalCost d) childDetails 0 in
  let totalChildcareOutOfPocket := totalChildcareCost - totalChildcareSubsidy in
  let totalDaysPerFortnight :=
    fold_left (fun sum child => sum + Child.daysPerWeek child * 2) children 0 in
  let childcarePerDay := perDay totalChildcareOutOfPocket totalDaysPerFortnight in
  {| TotalCosts.childDetails := childDetails;
     TotalCosts.totalChildcareSubsidy := totalChildcareSubsidy;
     TotalCosts.totalChildcareCost := totalChildcareCost;
     TotalCosts.totalChildcareOutOfPocket := totalChildcareOutOfPocket;
     TotalCosts.childcarePerDay := childcarePerDay |}.

(** The interpolation of [findBreakEvenHours] between two samples. *)
Definition breakEvenRatio (current next : HoursGraphDataPoint.t) : Q :=
  Math_abs (HoursGraphDataPoint.netIncome current)
  / (Math_abs (HoursGraphDataPoint.netIncome current)
     + HoursGraphDataPoint.netIncome next).

Definition breakEvenHoursBetween (current next : HoursGraphDataPoint.t) : Q :=
  HoursGraphDataPoint.hoursPerWeek current
  + (HoursGraphDataPoint.hoursPerWeek next - HoursGraphDataPoint.hoursPerWeek current)
    * breakEvenRatio current next.

Definition breakEvenPointBetween (current next : HoursGraphDataPoint.t)
    : HoursGraphDataPoint.t :=
  let ratio := breakEvenRatio current next in
  let breakEvenHours := breakEvenHoursBetween current next in
  let breakEvenDays := calculateDaysPerWeekFromHours breakEvenHours in
  {| HoursGraphDataPoint.hoursPerWeek := breakEvenHours;
     HoursGraphDataPoint.daysPerWeek := breakEvenDays;
     HoursGraphDataPoint.netIncome := 0;
     HoursGraphDataPoint.grossIncome :=
       HoursGraphDataPoint.grossIncome current
       + (HoursGraphDataPoint.grossIncome next - HoursGraphDataPoint.grossIncome current)
         * ratio;
     HoursGraphDataPoint.afterTax :=
       HoursGraphDataPoint.afterTax current
       + (HoursGraphDataPoint.afterTax next - HoursGraphDataPoint.afterTax current)
         * ratio;
     HoursGraphDataPoint.childcareCost :=
       HoursGraphDataPoint.childcareCost current
       + (HoursGraphDataPoint.childcareCost next - HoursGraphDataPoint.childcareCost current)
         * ratio |}.

Fixpoint findBreakEvenHours (dataPoints : list HoursGraphDataPoint.t)
    : option HoursGraphDataPoint.t :=
  match dataPoints with
  | current :: ((next :: _) as rest) =>
      if leb (HoursGraphDataPoint.netIncome current) 0
         && gtb (HoursGraphDataPoint.netIncome next) 0
      then
        if ltb (breakEvenHoursBetween current next) 0.5 then None
        else Some (breakEvenPointBetween current next)
      else findBreakEvenHours rest
  | _ => None
  end.

Inductive FamilyType : Type := two_parent | single_parent.

(** The point pushed for one value of [hoursPerWeek]. *)
Definition hoursGraphPoint (hourlyRate firstParentIncome : Q) (children : list Child.t)
    (familyType : FamilyType) (hoursPerWeek : Q) : HoursGraphDataPoint.t :=
  let grossIncome := hourlyRate * hoursPerWeek * 52 in
  let daysPerWeek := calculateDaysPerWeekFromHours hoursPerWeek in
  let childrenForScenario :=
    map (fun child =>
           {| Child.age := Child.age child;
              Child.hoursPerDay := Child.hoursPerDay child;
              Child.daysPerWeek := daysPerWeek;
              Child.hourlyRate := Child.hourlyRate child;
              Child.isSecondOrLater := Child.isSecondOrLater child |})
      children in
  let incomeForSubsidy :=
    match familyType with
    | single_parent => grossIncome
    | two_parent => firstParentIncome + grossIncome
    end in
  let subsidisedHoursPerFortnightFromWorkDays :=
    Math_min (Math_max (daysPerWeek * 22) MIN_SUBSIDISED_HOURS) MAX_SUBSIDISED_HOURS in
  let costs :=
    calculateTotalCostsWithWorkDays childrenForScenario incomeForSubsidy
      subsidisedHoursPerFortnightFromWorkDays in
  let afterTax := calculateAfterTaxIncome grossIncome in
  let childcareOutOfPocketAnnual := TotalCosts.totalChildcareOutOfPocket costs * 26 in
  let netIncome := afterTax - childcareOutOfPocketAnnual in
  {| HoursGraphDataPoint.hoursPerWeek := hoursPerWeek;
     HoursGraphDataPoint.daysPerWeek := daysPerWeek;
     HoursGraphDataPoint.netIncome := netIncome;
     HoursGraphDataPoint.grossIncome := grossIncome;
     HoursGraphDataPoint.afterTax := afterTax;
     HoursGraphDataPoint.childcareCost := childcareOutOfPocketAnnual |}.

(** [for (h = 0; h <= maxHoursForGraph; h += 0.5) dataPoints.push(point h)],
    on fuel as the income sweep. *)
Fixpoint hoursLoop (fuel : nat) (point : Q -> HoursGraphDataPoint.t)
    (maxHoursForGraph : Q) (hoursPerWeek : Q) (dataPoints : list HoursGraphDataPoint.t)
    : option (list HoursGraphDataPoint.t) :=
  match fuel with
  | O => None
  | S fuel' =>
      if leb hoursPerWeek maxHoursForGraph
      then hoursLoop fuel' point maxHoursForGraph (hoursPerWeek + 0.5)
             (dataPoints ++ [point hoursPerWeek])
      else Some dataPoints
  end.

(** [maxHours ? Math.ceil(maxHours / 0.5) * 0.5 : 38]: an absent or zero
    [maxHours] is falsy. *)
Definition maxHoursForGraphOf (maxHours : option Q) : Q :=
  match maxHours with
  | Some m => if eqb m 0 then 38 else Math_ceil (m / 0.5) * 0.5
  | None => 38
  end.

Definition calculateHoursGraphData (fuel : nat) (fullTimeIncome fullTimeHoursPerWeek : Q)
    (firstParentIncome : Q) (children : list Child.t) (_firstParentHoursPerWeek : Q)
    (familyType : FamilyType) (maxHours : option Q)
    : option (list HoursGraphDataPoint.t) :=
  let hourlyRate :=
    if gtb fullTimeHoursPerWeek 0
    then fullTimeIncome / (fullTimeHoursPerWeek * 52)
    else 0 in
  let maxHoursForGraph := maxHoursForGraphOf maxHours in
  hoursLoop fuel (hoursGraphPoint hourlyRate firstParentIncome children familyType)
    maxHoursForGraph 0 [].

Definition interpolateHoursAt (current next : HoursGraphDataPoint.t) (targetHours : Q)
    : HoursGraphDataPoint.t :=
  let ratio :=
    (targetHours - HoursGraphDataPoint.hoursPerWeek current)
    / (HoursGraphDataPoint.hoursPerWeek next - HoursGraphDataPoint.hoursPerWeek current) in
  {| HoursGraphDataPoint.hoursPerWeek := targetHours;
     HoursGraphDataPoint.daysPerWeek := calculateDaysPerWeekFromHours targetHours;
     HoursGraphDataPoint.netIncome :=
       HoursGraphDataPoint.netIncome current
       + (HoursGraphDataPoint.netIncome next - HoursGraphDataPoint.netIncome current) * ratio;
     HoursGraphDataPoint.grossIncome :=
       HoursGraphDataPoint.grossIncome current
       + (HoursGraphDataPoint.grossIncome next - HoursGraphDataPoint.grossIncome current)
         * ratio;
     HoursGraphDataPoint.afterTax :=
       HoursGraphDataPoint.afterTax current
       + (HoursGraphDataPoint.afterTax next - HoursGraphDataPoint.afterTax current) * ratio;
     HoursGraphDataPoint.childcareCost :=
       HoursGraphDataPoint.childcareCost current
       + (HoursGraphDataPoint.childcareCost next - HoursGraphDataPoint.childcareCost current)
         * ratio |}.

Fixpoint findPointForHoursLoop (dataPoints : list HoursGraphDataPoint.t) (targetHours : Q)
    : option HoursGraphDataPoint.t :=
  match dataPoints with
  | current :: ((next :: _) as rest) =>
      if leb (HoursGraphDataPoint.hoursPerWeek current) targetHours
         && geb (HoursGraphDataPoint.hoursPerWeek next) targetHours
      then
        if eqb (HoursGraphDataPoint.hoursPerWeek current) targetHours then Some current
        else if eqb (HoursGraphDataPoint.hoursPerWeek next) targetHours then Some next
        else Some (interpolateHoursAt current next targetHours)
      else findPointForHoursLoop rest targetHours
  | _ => None
  end.

Definition findPointForHours (dataPoints : list HoursGraphDataPoint.t) (targetHours : Q)
    : option HoursGraphDataPoint.t :=
  if Nat.eqb (length dataPoints) 0 then None
  else findPointForHoursLoop dataPoints targetHours.

Module MinimumWageIntersection.
Record t : Type := mk {
  hoursPerWeek : Q;
  daysPerWeek : Q;
  netIncome : Q
}.
End MinimumWageIntersection.

(** The loop of [findMinimumWageIntersection] from index [i] on, given the
    samples from that index. *)
Fixpoint intersectionLoop (calculateMinWageForHours : Q -> Q)
    (dataPoints : list HoursGraphDataPoint.t) : option MinimumWageIntersection.t :=
  match dataPoints with
  | current :: ((next :: _) as rest) =>
      let currentMinWage :=
        calculateMinWageForHours (HoursGraphDataPoint.hoursPerWeek current) in
      let nextMinWage := calculateMinWageForHours (HoursGraphDataPoint.hoursPerWeek next) in
      let netIncomeDiff :=
        HoursGraphDataPoint.netIncome next - HoursGraphDataPoint.netIncome current in
      let minWageDiff := nextMinWage - currentMinWage in
      let currentAbove := gtb (HoursGraphDataPoint.netIncome current) currentMinWage in
      let nextAbove := gtb (HoursGraphDataPoint.netIncome next) nextMinWage in
      if negb (Bool.eqb currentAbove nextAbove) then
        let denominator := netIncomeDiff - minWageDiff in
        if gtb (Math_abs denominator) 0.001 then
          let t := (currentMinWage - HoursGraphDataPoint.netIncome current) / denominator in
          let intersectionHours :=
            HoursGraphDataPoint.hoursPerWeek current
            + t * (HoursGraphDataPoint.hoursPerWeek next
                   - HoursGraphDataPoint.hoursPerWeek current) in
          if gtb intersectionHours 0.1 && leb intersectionHours 50 then
            let intersectionNetIncome :=
              HoursGraphDataPoint.netIncome current + t * netIncomeDiff in
            Some {| MinimumWageIntersection.hoursPerWeek := intersectionHours;
                    MinimumWageIntersection.daysPerWeek :=
                      calculateDaysPerWeekFromHours intersectionHours;
                    MinimumWageIntersection.netIncome := intersectionNetIncome |}
          else intersectionLoop calculateMinWageForHours rest
        else intersectionLoop calculateMinWageForHours rest
      else intersectionLoop calculateMinWageForHours rest
  | _ => None
  end.

(** The loop starts at index 1: the pair of the first two samples is never
    looked at. *)
Definition findMinimumWageIntersection (dataPoints : list HoursGraphDataPoint.t)
    (calculateMinWageForHours : Q -> Q) : option MinimumWageIntersection.t :=
  match dataPoints with
  | [] => None
  | _ :: fromIndex1 => intersectionLoop calculateMinWageForHours fromIndex1
  end.

Definition findMaxIncomePoint (dataPoints : list HoursGraphDataPoint.t)
    : option HoursGraphDataPoint.t :=
  match dataPoints with
  | [] => None
  | first :: rest =>
      Some
        (fold_left
           (fun max current =>
              if gtb (HoursGraphDataPoint.netIncome current)
                     (HoursGraphDataPoint.netIncome max)
              then current else max)
           rest first)
  end.

End HoursGraphData.

Import AdvocacyCalculator GraphData HoursGraphData.

(** * Vocabulary of the specification *)

(** ** Declining segments of the subsidy tables *)

(** A declining segment of a bracket table, in the specification's words:
    where it starts and ends, the percent at its start, the dollar increment
    per 1-point step, the floor it is clamped at, and the table it is in. *)
Record DecliningSegment : Type := {
  segmentStart : Q;
  segmentEnd : Q;
  basePercentAtSegment : Q;
  stepSize : Q;
  segmentFloor : Q;
  segmentPriority : bool
}.

Definition standardSegment : DecliningSegment :=
  {| segmentStart := BASE_INCOME; segmentEnd := MAX_INCOME;
     basePercentAtSegment := BASE_SUBSIDY_PERCENT; stepSize := INCOME_STEP;
     segmentFloor := 0; segmentPriority := false |}.

Definition priorityFirstSegment : DecliningSegment :=
  {| segmentStart := SECOND_CHILD_BASE_INCOME;
     segmentEnd := SECOND_CHILD_FIRST_BRACKET_END;
     basePercentAtSegment := SECOND_CHILD_SUBSIDY_PERCENT;
     stepSize := SECOND_CHILD_INCOME_STEP;
     segmentFloor := 80; segmentPriority := true |}.

Definition prioritySecondSegment : DecliningSegment :=
  {| segmentStart := SECOND_CHILD_FLAT_80_END;
     segmentEnd := SECOND_CHILD_SECOND_BRACKET_END;
     basePercentAtSegment := 80;
     stepSize := SECOND_CHILD_INCOME_STEP;
     segmentFloor := SECOND_CHILD_MIN_SUBSIDY_PERCENT; segmentPriority := true |}.

Definition decliningSegments : list DecliningSegment :=
  [standardSegment; priorityFirstSegment; prioritySecondSegment].

(** The specification's formula: [steps = floor((income - segmentStart) / stepSize)],
    [percent = basePercentAtSegment - steps * 1], clamped at the floor. *)
Definition specSegmentPercent (seg : DecliningSegment) (income : Q) : Q :=
  let steps := inject_Z (Qfloor ((income - segmentStart seg) / stepSize seg)) in
  Qmax (segmentFloor seg) (basePercentAtSegment seg - steps * 1).

(** ** Sample inputs *)

(** The child of the repository's test suite: ten hours a day, five days a
    week, at $18 an hour. *)
Definition baseChild : Child.t :=
  {| Child.age := under_school; Child.hoursPerDay := 10; Child.daysPerWeek := 5;
     Child.hourlyRate := 18; Child.isSecondOrLater := false |}.

(** A household whose returning parent has no income yet, without and with
    a child in care. *)
Definition zeroIncomeScenario : SecondParentScenario.t :=
  {| SecondParentScenario.secondParentIncome := 0;
     SecondParentScenario.firstParentIncome := 90000;
     SecondParentScenario.children := [];
     SecondParentScenario.activityHoursPerFortnight := 80;
     SecondParentScenario.secondParentHoursPerFortnight := None |}.

Definition zeroIncomeScenarioWithChild : SecondParentScenario.t :=
  {| SecondParentScenario.secondParentIncome := 0;
     SecondParentScenario.firstParentIncome := 90000;
     SecondParentScenario.children := [baseChild];
     SecondParentScenario.activityHoursPerFortnight := 80;
     SecondParentScenario.secondParentHoursPerFortnight := None |}.

(** The hours figure the effective hourly rate is computed from. *)
Definition hoursForRate (scenario : SecondParentScenario.t) : Q :=
  match SecondParentScenario.secondParentHoursPerFortnight scenario with
  | Some h => h
  | None => SecondParentScenario.activityHoursPerFortnight scenario
  end.

(** The cost fields of a child's detail record that the two aggregation
    variants are compared on. *)
Definition costFields (d : ChildDetail.t) : Q * Q * Q * Q * Q :=
  (ChildDetail.subsidyAmount d, ChildDetail.totalCost d, ChildDetail.outOfPocket d,
   ChildDetail.subsidisedHours d, ChildDetail.unsubsidisedHours d).

(** ** Sampled curves *)

(** What the sampling loop pushes in [n] iterations started at [x]. *)
Fixpoint samplesFrom (point : Q -> GraphDataPoint.t) (step x : Q) (n : nat)
    : list GraphDataPoint.t :=
  match n with
  | O => []
  | S n' => point x :: samplesFrom point step (x + step) n'
  end.

(** The number of whole steps from [minIncome] that do not pass [maxIncome]. *)
Definition wholeSteps (minIncome maxIncome step : Q) : Z :=
  Qfloor ((maxIncome - minIncome) / step).

(** A sweep whose upper bound is not a whole number of steps from its start. *)
Definition offStepSweep : option (list GraphDataPoint.t) :=
  calculateGraphData 10 90000 [baseChild] 80 0 12000 5000 false.

(** The adjacent pairs [(l[i], l[i+1])] of a sequence, in order. *)
Definition adjacentPairs {A : Type} (l : list A) : list (A * A) :=
  combine l (tl l).

(** Net income crosses zero between two samples, downwards or upwards. *)
Definition crossesDown (current next : GraphDataPoint.t) : Prop :=
  0 <= GraphDataPoint.netIncome current /\ GraphDataPoint.netIncome next < 0.

Definition crossesUp (current next : GraphDataPoint.t) : Prop :=
  GraphDataPoint.netIncome current <= 0 /\ 0 < GraphDataPoint.netIncome next.

Definition crosses (current next : GraphDataPoint.t) : Prop :=
  crossesDown current next \/ crossesUp current next.

(** The samples of the specification's break-even example and of the
    repository's test of it. *)
Definition breakEvenExample : list GraphDataPoint.t :=
  [ {| GraphDataPoint.grossIncome := 50000; GraphDataPoint.netIncome := -10000;
       GraphDataPoint.afterTax := 40000; GraphDataPoint.childcareCost := 50000 |};
    {| GraphDataPoint.grossIncome := 60000; GraphDataPoint.netIncome := -5000;
       GraphDataPoint.afterTax := 50000; GraphDataPoint.childcareCost := 55000 |};
    {| GraphDataPoint.grossIncome := 70000; GraphDataPoint.netIncome := 5000;
       GraphDataPoint.afterTax := 60000; GraphDataPoint.childcareCost := 55000 |};
    {| GraphDataPoint.grossIncome := 80000; GraphDataPoint.netIncome := 15000;
       GraphDataPoint.afterTax := 70000; GraphDataPoint.childcareCost := 55000 |} ].

(** ** Sampled hours curves *)

(** Net income rises through zero between two samples of an hours sweep. *)
Definition risesThroughZero (current next : HoursGraphDataPoint.t) : Prop :=
  HoursGraphDataPoint.netIncome current <= 0 /\ 0 < HoursGraphDataPoint.netIncome next.

(** Net income falls from a positive value to a negative one. *)
Definition fallsThroughZero (current next : HoursGraphDataPoint.t) : Prop :=
  0 < HoursGraphDataPoint.netIncome current /\ HoursGraphDataPoint.netIncome next < 0.

Definition hoursSample (hoursPerWeek netIncome : Q) : HoursGraphDataPoint.t :=
  {| HoursGraphDataPoint.hoursPerWeek := hoursPerWeek;
     HoursGraphDataPoint.daysPerWeek := calculateDaysPerWeekFromHours hoursPerWeek;
     HoursGraphDataPoint.netIncome := netIncome;
     HoursGraphDataPoint.grossIncome := 0;
     HoursGraphDataPoint.afterTax := 0;
     HoursGraphDataPoint.childcareCost := 0 |}.

(** Net income is 0 at no hours and positive after half an hour, dips below
    zero at 8 hours and recovers at 16: a crossing at 0 hours, then a
    genuine one between 8 and 16 hours. *)
Definition dipAfterStart : list HoursGraphDataPoint.t :=
  [hoursSample 0 0; hoursSample 0.5 300; hoursSample 8 (-2000); hoursSample 16 6000].

(** Net income only falls through zero. *)
Definition fallingCurve : list HoursGraphDataPoint.t :=
  [hoursSample 10 500; hoursSample 20 (-500); hoursSample 30 (-900)].

(** ** Point lookup *)

(** A sequence is ascending when no sample lies left of its predecessor. *)
Definition ascending (l : list GraphDataPoint.t) : Prop :=
  Forall (fun ab => GraphDataPoint.grossIncome (fst ab) <= GraphDataPoint.grossIncome (snd ab))
    (adjacentPairs l).

(** The sweep of the repository's test with equal bounds: one sample. *)
Definition singleSampleSweep : option (list GraphDataPoint.t) :=
  calculateGraphData 5 90000 [baseChild] 80 80000 80000 1000 false.

(** The last sample of the non-empty sequence [first :: rest]. *)
Fixpoint lastFrom (first : GraphDataPoint.t) (rest : list GraphDataPoint.t)
    : GraphDataPoint.t :=
  match rest with
  | [] => first
  | next :: rest' => lastFrom next rest'
  end.

(** The target lies between two samples, ends included. *)
Definition brackets (targetIncome : Q) (current next : GraphDataPoint.t) : Prop :=
  GraphDataPoint.grossIncome current <= targetIncome
  /\ targetIncome <= GraphDataPoint.grossIncome next.

(** ** Sums and well-formed children *)

Definition sumQ (l : list Q) : Q := fold_right Qplus 0 l.

(** A child record as the interface means it: no negative hours, days or
    rate. *)
Definition nonNegativeChild (child : Child.t) : Prop :=
  0 <= Child.hoursPerDay child /\ 0 <= Child.daysPerWeek child
  /\ 0 <= Child.hourlyRate child.

Definition hoursPerFortnightOf (child : Child.t) : Q :=
  Child.hoursPerDay child * Child.daysPerWeek child * 2.

(** ** Hours sweep *)

(** What the hours loop pushes in [n] iterations started at [x]. *)
Fixpoint hoursSamplesFrom (point : Q -> HoursGraphDataPoint.t) (x : Q) (n : nat)
    : list HoursGraphDataPoint.t :=
  match n with
  | O => []
  | S n' => point x :: hoursSamplesFrom point (x + 0.5) n'
  end.

(** The number of samples of a sweep up to [maxHoursForGraph]. *)
Definition hoursSampleCount (maxHoursForGraph : Q) : nat :=
  if ltb maxHoursForGraph 0 then O
  else S (Z.to_nat (Qfloor (maxHoursForGraph / 0.5))).

(** ** Minimum-wage comparison *)

(** The side of the minimum-wage line a sample is on differs between two
    samples. *)
Definition sidesDiffer (calculateMinWageForHours : Q -> Q)
    (current next : HoursGraphDataPoint.t) : Prop :=
  gtb (HoursGraphDataPoint.netIncome current)
      (calculateMinWageForHours (HoursGraphDataPoint.hoursPerWeek current))
  <> gtb (HoursGraphDataPoint.netIncome next)
         (calculateMinWageForHours (HoursGraphDataPoint.hoursPerWeek next)).

(** The after-tax minimum wage [findMinimumWageEquivalentPoint] compares
    with, for the hours given or the full-time default. *)
Definition minimumWageAfterTaxFor (hoursPerFortnight : option Q) : Q :=
  calculateAfterTaxIncome
    (AUSTRALIAN_MINIMUM_WAGE_PER_HOUR
     * (match hoursPerFortnight with Some h => h | None => 76 end * 26)).

(** ** Further sample inputs *)

(** The scenario of the repository's tests: incomes of 90000 and 80000, 80
    activity hours, one child in care. *)
Definition baseScenario : SecondParentScenario.t :=
  {| SecondParentScenario.secondParentIncome := 80000;
     SecondParentScenario.firstParentIncome := 90000;
     SecondParentScenario.children := [baseChild];
     SecondParentScenario.activityHoursPerFortnight := 80;
     SecondParentScenario.secondParentHoursPerFortnight := Some 45 |}.

Definition graphSample (grossIncome netIncome : Q) : GraphDataPoint.t :=
  {| GraphDataPoint.grossIncome := grossIncome;
     GraphDataPoint.netIncome := netIncome;
     GraphDataPoint.afterTax := netIncome;
     GraphDataPoint.childcareCost := 0 |}.

(** A short hours sweep of the default household: up to one hour a week. *)
Definition shortHoursSweep : option (list HoursGraphDataPoint.t) :=
  calculateHoursGraphData 10 94103 38 104496 [baseChild] 38 two_parent (Some 1).

(** A curve that rises through the minimum-wage line between 20 and 30
    hours, and a flat reference line at 20000. *)
Definition crossingCurve : list HoursGraphDataPoint.t :=
  [hoursSample 0 0; hoursSample 10 5000; hoursSample 20 15000; hoursSample 30 30000].

Definition flatReference (hours : Q) : Q := 20000.

(** * Properties *)

(** ** Comparisons and rounding: reflection into [Q]'s order *)

Lemma leb_reflect (a b : Q) : reflect (a <= b) (leb a b).
Proof.
  unfold leb. destruct (Qle_bool a b) eqn:E; constructor.
  - now apply Qle_bool_iff.
  - intro H. apply Qle_bool_iff in H. congruence.
Qed.

Lemma ltb_reflect (a b : Q) : reflect (a < b) (ltb a b).
Proof.
  unfold ltb. destruct (Qle_bool b a) eqn:E; constructor.
  - apply Qle_bool_iff in E. lra.
  - apply Qnot_le_lt. intro H. apply Qle_bool_iff in H. congruence.
Qed.

Lemma eqb_reflect (a b : Q) : reflect (a == b) (eqb a b).
Proof.
  unfold eqb. destruct (Qeq_bool a b) eqn:E; constructor.
  - now apply Qeq_bool_iff.
  - intro H. apply Qeq_bool_iff in H. congruence.
Qed.

(** Decide every comparison in the goal, keeping the facts for [lra]. *)
Ltac cmp_cases :=
  unfold gtb, geb in *;
  repeat match goal with
         | |- context [leb ?a ?b] => destruct (leb_reflect a b)
         | |- context [ltb ?a ?b] => destruct (ltb_reflect a b)
         | |- context [eqb ?a ?b] => destruct (eqb_reflect a b)
         end.

Lemma Qfloor_unique (x : Q) (k : Z) :
  inject_Z k <= x -> x < inject_Z (k + 1) -> Qfloor x = k.
Proof.
  intros Hlo Hhi.
  assert (H1 : (k <= Qfloor x)%Z).
  { rewrite <- (Qfloor_Z k). now apply Qfloor_resp_le. }
  assert (H2 : (Qfloor x < k + 1)%Z).
  { rewrite Zlt_Qlt. eapply Qle_lt_trans; [apply Qfloor_le | exact Hhi]. }
  lia.
Qed.

(** ** Tax *)

(** C8: at or below the tax-free threshold no tax and no levy is due, and the
    after-tax income is the income itself. *)
Theorem tax_free_threshold (income : Q) :
  0 <= income -> income <= 18200 ->
  calculateIncomeTax income = 0
  /\ calculateMedicareLevy income = 0
  /\ calculateAfterTaxIncome income == income.
Proof.
  intros Hlo Hhi.
  assert (Htax : calculateIncomeTax income = 0).
  { unfold calculateIncomeTax. destruct (leb_reflect income 18200); [reflexivity | contradiction]. }
  assert (Hlevy : calculateMedicareLevy income = 0).
  { unfold calculateMedicareLevy, SINGLE_THRESHOLD.
    destruct (leb_reflect income 24276); [reflexivity | lra]. }
  repeat split; trivial.
  unfold calculateAfterTaxIncome. rewrite Htax, Hlevy. lra.
Qed.

Lemma tax_free_threshold_witness :
  calculateIncomeTax 18200 = 0
  /\ calculateMedicareLevy 18200 = 0
  /\ calculateAfterTaxIncome 18200 == 18200.
Proof. apply (tax_free_threshold 18200); lra. Defined.

(** ** Subsidy percent *)

Lemma standard_segment_percent (income : Q) :
  BASE_INCOME < income -> income <= MAX_INCOME ->
  calculateSubsidyPercent income false == specSegmentPercent standardSegment income.
Proof.
  unfold specSegmentPercent, calculateSubsidyPercent; cbn [standardSegment
    segmentStart segmentEnd basePercentAtSegment stepSize segmentFloor].
  unfold BASE_INCOME, MAX_INCOME, INCOME_STEP, BASE_SUBSIDY_PERCENT,
    SUBSIDY_DECREASE_PER_STEP, Math_floor, Math_max.
  intros Hlo Hhi. cmp_cases; try lra; try reflexivity.
  (* income >= MAX_INCOME: the early [return 0] agrees with the formula *)
  assert (E : income == 535279) by lra.
  rewrite E.
  replace (Qfloor ((535279 - 85279) / 5000)) with 90%Z by reflexivity.
  reflexivity.
Qed.

Lemma priority_first_segment_percent (income : Q) :
  SECOND_CHILD_BASE_INCOME < income -> income <= SECOND_CHILD_FIRST_BRACKET_END ->
  calculateSubsidyPercent income true == specSegmentPercent priorityFirstSegment income.
Proof.
  unfold specSegmentPercent, calculateSubsidyPercent; cbn [priorityFirstSegment
    segmentStart segmentEnd basePercentAtSegment stepSize segmentFloor].
  unfold SECOND_CHILD_BASE_INCOME, SECOND_CHILD_FIRST_BRACKET_END,
    SECOND_CHILD_INCOME_STEP, SECOND_CHILD_SUBSIDY_PERCENT,
    SUBSIDY_DECREASE_PER_STEP, Math_floor, Math_max.
  intros Hlo Hhi. cmp_cases; try lra; reflexivity.
Qed.

Lemma priority_second_segment_percent (income : Q) :
  SECOND_CHILD_FLAT_80_END < income -> income <= SECOND_CHILD_SECOND_BRACKET_END ->
  calculateSubsidyPercent income true == specSegmentPercent prioritySecondSegment income.
Proof.
  unfold specSegmentPercent, calculateSubsidyPercent; cbn [prioritySecondSegment
    segmentStart segmentEnd basePercentAtSegment stepSize segmentFloor].
  unfold SECOND_CHILD_BASE_INCOME, SECOND_CHILD_FIRST_BRACKET_END,
    SECOND_CHILD_FLAT_80_END, SECOND_CHILD_SECOND_BRACKET_END,
    SECOND_CHILD_INCOME_STEP, SECOND_CHILD_MIN_SUBSIDY_PERCENT,
    SUBSIDY_DECREASE_PER_STEP, Math_floor, Math_max.
  intros Hlo Hhi. cmp_cases; try lra; reflexivity.
Qed.

(** Inside a segment the clamp never binds: the number of whole steps is at
    most the number that brings the base percent down to the floor. *)
Lemma spec_segment_step (seg : DecliningSegment) (income : Q) (k : Z) :
  In seg decliningSegments ->
  income <= segmentEnd seg ->
  segmentStart seg + inject_Z k * stepSize seg <= income ->
  income < segmentStart seg + inject_Z (k + 1) * stepSize seg ->
  specSegmentPercent seg income == basePercentAtSegment seg - inject_Z k.
Proof.
  intros Hin Hend Hlo Hhi. unfold specSegmentPercent.
  assert (Hstep : 0 < stepSize seg).
  { destruct Hin as [<- | [<- | [<- | []]]]; reflexivity. }
  assert (Hk : Qfloor ((income - segmentStart seg) / stepSize seg) = k).
  { apply Qfloor_unique.
    - apply Qle_shift_div_l; [exact Hstep | lra].
    - apply Qlt_shift_div_r; [exact Hstep | lra]. }
  rewrite Hk.
  assert (Hfloor : segmentFloor seg <= basePercentAtSegment seg - inject_Z k * 1).
  { destruct Hin as [<- | [<- | [<- | []]]];
      cbn [standardSegment priorityFirstSegment prioritySecondSegment
           segmentStart segmentEnd basePercentAtSegment stepSize segmentFloor] in *;
      unfold BASE_INCOME, MAX_INCOME, INCOME_STEP, BASE_SUBSIDY_PERCENT,
        SECOND_CHILD_BASE_INCOME, SECOND_CHILD_FIRST_BRACKET_END,
        SECOND_CHILD_FLAT_80_END, SECOND_CHILD_SECOND_BRACKET_END,
        SECOND_CHILD_INCOME_STEP, SECOND_CHILD_MIN_SUBSIDY_PERCENT,
        SECOND_CHILD_SUBSIDY_PERCENT in *; lra. }
  rewrite (Q.max_r _ _ Hfloor). lra.
Qed.

(** C1: inside every declining segment the percent is the specification's
    floor-division formula; it is the base percent less one point per whole
    step, an income on a step boundary already having the lower percent; and
    the three worked examples evaluate to 89, 88 and 93. *)
Theorem subsidy_percent_floor_division (seg : DecliningSegment) (income : Q) :
  In seg decliningSegments ->
  segmentStart seg < income -> income <= segmentEnd seg ->
  calculateSubsidyPercent income (segmentPriority seg) == specSegmentPercent seg income
  /\ (forall k : Z,
        segmentStart seg + inject_Z k * stepSize seg <= income ->
        income < segmentStart seg + inject_Z (k + 1) * stepSize seg ->
        calculateSubsidyPercent income (segmentPriority seg)
        == basePercentAtSegment seg - inject_Z k)
  /\ calculateSubsidyPercent (85279 + 5000) false == 89
  /\ calculateSubsidyPercent (85279 + 10000) false == 88
  /\ calculateSubsidyPercent 150000 true == 93.
Proof.
  intros Hin Hlo Hhi.
  assert (Hspec : calculateSubsidyPercent income (segmentPriority seg)
                  == specSegmentPercent seg income).
  { destruct Hin as [<- | [<- | [<- | []]]]; cbn [segmentPriority
      standardSegment priorityFirstSegment prioritySecondSegment].
    - now apply standard_segment_percent.
    - now apply priority_first_segment_percent.
    - now apply priority_second_segment_percent. }
  split; [exact Hspec |].
  split.
  - intros k Hklo Hkhi. rewrite Hspec. now apply spec_segment_step.
  - repeat split; reflexivity.
Qed.

Lemma subsidy_percent_floor_division_witness :
  calculateSubsidyPercent 95279 false == specSegmentPercent standardSegment 95279
  /\ (forall k : Z,
        85279 + inject_Z k * 5000 <= 95279 ->
        95279 < 85279 + inject_Z (k + 1) * 5000 ->
        calculateSubsidyPercent 95279 false == 90 - inject_Z k)
  /\ calculateSubsidyPercent (85279 + 5000) false == 89
  /\ calculateSubsidyPercent (85279 + 10000) false == 88
  /\ calculateSubsidyPercent 150000 true == 93.
Proof.
  apply (subsidy_percent_floor_division standardSegment 95279).
  - simpl. auto.
  - reflexivity.
  - discriminate.
Defined.

(** C2: from the final priority threshold on the priority percent is 50, and
    from the maximum-income threshold on the standard percent is 0. *)
Theorem subsidy_percent_terminal (income : Q) :
  (SECOND_CHILD_SECOND_BRACKET_END <= income ->
   calculateSubsidyPercent income true == 50)
  /\ (MAX_INCOME <= income -> calculateSubsidyPercent income false == 0).
Proof.
  split; intro H.
  - destruct (Qlt_le_dec SECOND_CHILD_SECOND_BRACKET_END income) as [Hgt | Hle].
    + unfold calculateSubsidyPercent, SECOND_CHILD_BASE_INCOME,
        SECOND_CHILD_FIRST_BRACKET_END, SECOND_CHILD_FLAT_80_END,
        SECOND_CHILD_SECOND_BRACKET_END, SECOND_CHILD_MIN_SUBSIDY_PERCENT in *.
      cmp_cases; try lra; reflexivity.
    + unfold calculateSubsidyPercent, SECOND_CHILD_BASE_INCOME,
        SECOND_CHILD_FIRST_BRACKET_END, SECOND_CHILD_FLAT_80_END,
        SECOND_CHILD_SECOND_BRACKET_END, SECOND_CHILD_MIN_SUBSIDY_PERCENT,
        SECOND_CHILD_INCOME_STEP, SUBSIDY_DECREASE_PER_STEP, Math_floor, Math_max in *.
      assert (E : income == 357563) by lra.
      cmp_cases; try lra; try reflexivity.
      (* exactly on the threshold: 30 whole steps below 80 *)
      rewrite E. reflexivity.
  - unfold calculateSubsidyPercent, BASE_INCOME, MAX_INCOME in *.
    cmp_cases; try lra; reflexivity.
Qed.

Lemma subsidy_percent_terminal_witness :
  calculateSubsidyPercent 1000000 true == 50
  /\ calculateSubsidyPercent 1000000 false == 0.
Proof.
  split.
  - apply (proj1 (subsidy_percent_terminal 1000000)). discriminate.
  - apply (proj2 (subsidy_percent_terminal 1000000)). discriminate.
Defined.

(** ** Cost aggregation *)

Lemma childDetail_costFields (income h : Q) (child : Child.t) :
  costFields (childDetailWithWorkDays income (calculateSubsidisedHours h) child)
  = costFields (childDetail income h child).
Proof. reflexivity. Qed.

Lemma fold_left_map_ext {A B : Type} (f : Q -> B -> Q) (g1 g2 : A -> B) (l : list A) :
  (forall acc x, f acc (g1 x) = f acc (g2 x)) ->
  forall acc, fold_left f (map g1 l) acc = fold_left f (map g2 l) acc.
Proof.
  intro Hext. induction l as [| x l IH]; intro acc; simpl.
  - reflexivity.
  - rewrite Hext. apply IH.
Qed.

Lemma totalChildcareSubsidy_agree (children : list Child.t) (income h : Q) :
  TotalCosts.totalChildcareSubsidy
    (calculateTotalCostsWithWorkDays children income (calculateSubsidisedHours h))
  = TotalCosts.totalChildcareSubsidy (calculateTotalCosts children income h).
Proof.
  unfold calculateTotalCostsWithWorkDays, calculateTotalCosts; simpl.
  apply fold_left_map_ext. reflexivity.
Qed.

Lemma totalChildcareCost_agree (children : list Child.t) (income h : Q) :
  TotalCosts.totalChildcareCost
    (calculateTotalCostsWithWorkDays children income (calculateSubsidisedHours h))
  = TotalCosts.totalChildcareCost (calculateTotalCosts children income h).
Proof.
  unfold calculateTotalCostsWithWorkDays, calculateTotalCosts; simpl.
  apply fold_left_map_ext. reflexivity.
Qed.

(** C6: fed the ceiling that the activity-hours lookup yields, the work-days
    variant returns the same four totals as [calculateTotalCosts], and the
    same five cost fields for every child. *)
Theorem cost_variants_agree (children : list Child.t) (income h : Q) :
  TotalCosts.totalChildcareSubsidy
    (calculateTotalCostsWithWorkDays children income (calculateSubsidisedHours h))
  = TotalCosts.totalChildcareSubsidy (calculateTotalCosts children income h)
  /\ TotalCosts.totalChildcareCost
       (calculateTotalCostsWithWorkDays children income (calculateSubsidisedHours h))
     = TotalCosts.totalChildcareCost (calculateTotalCosts children income h)
  /\ TotalCosts.totalChildcareOutOfPocket
       (calculateTotalCostsWithWorkDays children income (calculateSubsidisedHours h))
     = TotalCosts.totalChildcareOutOfPocket (calculateTotalCosts children income h)
  /\ TotalCosts.childcarePerDay
       (calculateTotalCostsWithWorkDays children income (calculateSubsidisedHours h))
     = TotalCosts.childcarePerDay (calculateTotalCosts children income h)
  /\ map costFields
       (TotalCosts.childDetails
          (calculateTotalCostsWithWorkDays children income (calculateSubsidisedHours h)))
     = map costFields (TotalCosts.childDetails (calculateTotalCosts children income h)).
Proof.
  pose proof (totalChildcareSubsidy_agree children income h) as Hs.
  pose proof (totalChildcareCost_agree children income h) as Hc.
  assert (Ho : TotalCosts.totalChildcareOutOfPocket
                 (calculateTotalCostsWithWorkDays children income
                    (calculateSubsidisedHours h))
               = TotalCosts.totalChildcareOutOfPocket
                   (calculateTotalCosts children income h)).
  { change (TotalCosts.totalChildcareCost
              (calculateTotalCostsWithWorkDays children income
                 (calculateSubsidisedHours h))
            - TotalCosts.totalChildcareSubsidy
                (calculateTotalCostsWithWorkDays children income
                   (calculateSubsidisedHours h))
            = TotalCosts.totalChildcareCost (calculateTotalCosts children income h)
              - TotalCosts.totalChildcareSubsidy (calculateTotalCosts children income h)).
    now rewrite Hs, Hc. }
  repeat split; trivial.
  - change (perDay
              (TotalCosts.totalChildcareOutOfPocket
                 (calculateTotalCostsWithWorkDays children income
                    (calculateSubsidisedHours h)))
              (fold_left (fun sum child => sum + Child.daysPerWeek child * 2) children 0)
            = perDay
                (TotalCosts.totalChildcareOutOfPocket
                   (calculateTotalCosts children income h))
                (fold_left (fun sum child => sum + Child.daysPerWeek child * 2) children 0)).
    now rewrite Ho.
  - unfold calculateTotalCostsWithWorkDays, calculateTotalCosts; simpl.
    rewrite !map_map. apply map_ext. intro child. apply childDetail_costFields.
Qed.

(** C10: the work-days variant reports the ceiling of zero activity hours,
    72, for every child and whatever ceiling it was given; the hours it
    actually subsidises follow the given ceiling instead, so that a child in
    care 100 hours a fortnight is subsidised for 100 hours under a ceiling of
    100 and for 50 under a ceiling of 50, against a reported 72 both times. *)
Theorem work_days_reported_ceiling (children : list Child.t) (income ceiling : Q) :
  Forall (fun d => ChildDetail.subsidisedHoursPerFortnight d = MIN_SUBSIDISED_HOURS)
    (TotalCosts.childDetails (calculateTotalCostsWithWorkDays children income ceiling))
  /\ map (fun d => (ChildDetail.subsidisedHoursPerFortnight d,
                    ChildDetail.subsidisedHours d))
       (TotalCosts.childDetails (calculateTotalCostsWithWorkDays [baseChild] 100000 100))
     = [(72, 100)]
  /\ map (fun d => (ChildDetail.subsidisedHoursPerFortnight d,
                    ChildDetail.subsidisedHours d))
       (TotalCosts.childDetails (calculateTotalCostsWithWorkDays [baseChild] 100000 50))
     = [(72, 50)].
Proof.
  split; [| split; reflexivity].
  unfold calculateTotalCostsWithWorkDays; simpl.
  apply Forall_forall. intros d Hd. apply in_map_iff in Hd.
  destruct Hd as [child [<- _]]. reflexivity.
Qed.

(** ** Scenario evaluation *)

Lemma js_div_by_zero (a b : Q) : b == 0 -> isFinite (js_div a b) = false.
Proof.
  intro Hb. unfold js_div.
  destruct (eqb_reflect b 0) as [_ | Hn]; [| contradiction].
  destruct (eqb a 0); [reflexivity |]. destruct (ltb 0 a); reflexivity.
Qed.

Lemma js_div_by_positive (a b : Q) : 0 < b -> js_div a b = Fin (a / b).
Proof.
  intro Hb. unfold js_div. destruct (eqb_reflect b 0) as [E | _]; [lra | reflexivity].
Qed.

Lemma js_mul_not_finite (n : number) (k : Q) :
  isFinite n = false -> isFinite (js_mul n k) = false.
Proof.
  destruct n; simpl; intro H; try discriminate; trivial;
    destruct (eqb k 0); trivial; destruct (ltb 0 k); trivial.
Qed.

Lemma percentageOfIncomeLost_zero_income (scenario : SecondParentScenario.t) :
  SecondParentScenario.secondParentIncome scenario == 0 ->
  isFinite (FinancialBreakdown.percentageOfIncomeLost
              (calculateSecondParentScenario scenario)) = false.
Proof.
  intro H. unfold calculateSecondParentScenario; simpl.
  apply js_mul_not_finite. now apply js_div_by_zero.
Qed.

Lemma effectiveHourlyRate_guarded (scenario : SecondParentScenario.t) :
  isFinite (FinancialBreakdown.effectiveHourlyRate
              (calculateSecondParentScenario scenario)) = true
  /\ (hoursForRate scenario == 0 ->
      FinancialBreakdown.effectiveHourlyRate (calculateSecondParentScenario scenario)
      = Fin 0).
Proof.
  unfold calculateSecondParentScenario; simpl.
  fold (hoursForRate scenario).
  unfold gtb. destruct (ltb_reflect 0 (hoursForRate scenario * 26)) as [Hpos | Hnpos].
  - split.
    + now rewrite js_div_by_positive.
    + intro H0. rewrite H0 in Hpos. lra.
  - split; reflexivity.
Qed.

(** C3: the effective hourly rate is guarded (always finite, and 0 when the
    hours-for-rate figure is zero), but the percentage of income lost is not:
    with a second-parent income of zero it is never a finite number; it is
    NaN for a household without childcare costs and +Infinity for one with a
    child in care. *)
Theorem percentage_of_income_lost_unguarded :
  FinancialBreakdown.percentageOfIncomeLost
    (calculateSecondParentScenario zeroIncomeScenario) = NaN
  /\ FinancialBreakdown.percentageOfIncomeLost
       (calculateSecondParentScenario zeroIncomeScenarioWithChild) = PosInfinity
  /\ (forall scenario,
        SecondParentScenario.secondParentIncome scenario == 0 ->
        isFinite (FinancialBreakdown.percentageOfIncomeLost
                    (calculateSecondParentScenario scenario)) = false)
  /\ (forall scenario,
        hoursForRate scenario == 0 ->
        FinancialBreakdown.effectiveHourlyRate (calculateSecondParentScenario scenario)
        = Fin 0).
Proof.
  split; [vm_compute; reflexivity |].
  split; [vm_compute; reflexivity |].
  split.
  - exact percentageOfIncomeLost_zero_income.
  - intros scenario. apply effectiveHourlyRate_guarded.
Qed.

(** ** Income sweep *)

Lemma inject_nat_succ (n : nat) :
  inject_Z (Z.of_nat (S n)) == inject_Z (Z.of_nat n) + 1.
Proof. rewrite Nat2Z.inj_succ. unfold Z.succ. rewrite inject_Z_plus. reflexivity. Qed.

Lemma inject_nat_nonneg (n : nat) : 0 <= inject_Z (Z.of_nat n).
Proof. change 0 with (inject_Z 0). rewrite <- Zle_Qle. lia. Qed.

(** The loop leaves after exactly [n] iterations when [n] is the first
    multiple of the step that passes the upper bound, given fuel for it. *)
Lemma graphLoop_run (point : Q -> GraphDataPoint.t) (maxIncome step : Q) :
  0 < step ->
  forall (n fuel : nat) (x : Q) (dataPoints : list GraphDataPoint.t),
    (n < fuel)%nat ->
    maxIncome < x + inject_Z (Z.of_nat n) * step ->
    (forall m, n = S m -> x + inject_Z (Z.of_nat m) * step <= maxIncome) ->
    graphLoop fuel point maxIncome step x dataPoints
    = Some (dataPoints ++ samplesFrom point step x n).
Proof.
  intro Hstep. induction n as [| n IH]; intros fuel x dataPoints Hfuel Hpast Hlast.
  - destruct fuel as [| fuel]; [lia |]. simpl.
    destruct (leb_reflect x maxIncome) as [Hle | _].
    + change (inject_Z (Z.of_nat 0)) with 0 in Hpast. lra.
    + now rewrite app_nil_r.
  - destruct fuel as [| fuel]; [lia |]. simpl.
    pose proof (Hlast n eq_refl) as Hn.
    pose proof (inject_nat_nonneg n) as Hn0.
    destruct (leb_reflect x maxIncome) as [_ | Hgt].
    + rewrite (IH fuel (x + step) (dataPoints ++ [point x])).
      * now rewrite <- app_assoc.
      * lia.
      * rewrite inject_nat_succ in Hpast. lra.
      * intros m ->. rewrite inject_nat_succ in Hn. lra.
    + exfalso. apply Hgt. nra.
Qed.

Lemma samplesFrom_In (point : Q -> GraphDataPoint.t) (step : Q) (n : nat) :
  forall (x : Q) (p : GraphDataPoint.t),
    In p (samplesFrom point step x n) ->
    exists (j : nat) (y : Q),
      (j < n)%nat /\ p = point y /\ y == x + inject_Z (Z.of_nat j) * step.
Proof.
  induction n as [| n IH]; intros x p Hin; simpl in Hin; [contradiction |].
  destruct Hin as [<- | Hin].
  - exists O, x. repeat split; [lia |]. change (inject_Z (Z.of_nat 0)) with 0. lra.
  - destruct (IH _ _ Hin) as [j [y [Hj [Hp Hy]]]].
    exists (S j), y. repeat split; [lia | exact Hp |].
    rewrite inject_nat_succ. lra.
Qed.

Lemma samplesFrom_last (point : Q -> GraphDataPoint.t) (step : Q) (n : nat) :
  forall x : Q,
    exists (pre : list GraphDataPoint.t) (y : Q),
      samplesFrom point step x (S n) = pre ++ [point y]
      /\ y == x + inject_Z (Z.of_nat n) * step.
Proof.
  induction n as [| n IH]; intro x.
  - exists [], x. split; [reflexivity |]. change (inject_Z (Z.of_nat 0)) with 0. lra.
  - destruct (IH (x + step)) as [pre [y [Heq Hy]]].
    exists (point x :: pre), y. split.
    + change (samplesFrom point step x (S (S n)))
        with (point x :: samplesFrom point step (x + step) (S n)).
      now rewrite Heq.
    + rewrite inject_nat_succ. lra.
Qed.

Lemma wholeSteps_bounds (minIncome maxIncome step : Q) :
  minIncome <= maxIncome -> 0 < step ->
  (0 <= wholeSteps minIncome maxIncome step)%Z
  /\ minIncome + inject_Z (wholeSteps minIncome maxIncome step) * step <= maxIncome
  /\ maxIncome < minIncome + inject_Z (wholeSteps minIncome maxIncome step + 1) * step.
Proof.
  intros Hle Hstep. unfold wholeSteps.
  set (r := (maxIncome - minIncome) / step).
  assert (Hr : r * step == maxIncome - minIncome).
  { unfold r. field. lra. }
  assert (Hr0 : 0 <= r).
  { unfold r. apply Qle_shift_div_l; [exact Hstep | lra]. }
  pose proof (Qfloor_le r) as Hlo. pose proof (Qlt_floor r) as Hhi.
  split; [| split].
  - change 0%Z with (Qfloor 0). now apply Qfloor_resp_le.
  - nra.
  - nra.
Qed.

(** C4, as the specification words it, fails on a sweep from 0 to 12000 in
    steps of 5000: the samples are at 0, 5000 and 10000, none at 12000. *)
Lemma sweep_misses_upper_bound :
  exists l : list GraphDataPoint.t,
    offStepSweep = Some l
    /\ map GraphDataPoint.grossIncome l = [0; 5000; 10000]
    /\ ~ (exists p, In p l /\ GraphDataPoint.grossIncome p == 12000).
Proof.
  unfold offStepSweep.
  eexists. split; [vm_compute; reflexivity |]. split; [reflexivity |].
  intros [p [Hin Hp]]. simpl in Hin.
  destruct Hin as [<- | [<- | [<- | []]]]; simpl in Hp; discriminate Hp.
Qed.

Lemma samplesFrom_length (point : Q -> GraphDataPoint.t) (step : Q) (n : nat) :
  forall x, length (samplesFrom point step x n) = n.
Proof. induction n as [| n IH]; intro x; simpl; [reflexivity | now rewrite IH]. Qed.

Lemma samplesFrom_nth (point : Q -> GraphDataPoint.t) (step : Q) (n : nat) :
  forall (x : Q) (i : nat) (p : GraphDataPoint.t),
    nth_error (samplesFrom point step x n) i = Some p ->
    exists y, p = point y /\ y == x + inject_Z (Z.of_nat i) * step.
Proof.
  induction n as [| n IH]; intros x i p H.
  - destruct i; discriminate H.
  - destruct i as [| i]; simpl in H.
    + injection H as <-. exists x. split; [reflexivity |].
      change (inject_Z (Z.of_nat 0)) with 0. lra.
    + destruct (IH _ _ _ H) as [y [Hp Hy]]. exists y. split; [exact Hp |].
      rewrite inject_nat_succ. lra.
Qed.

(** C4, as the code has it: for [minIncome <= maxIncome] and a positive
    step the sweep terminates and returns exactly the samples at
    [minIncome], [minIncome + step], [minIncome + 2 * step], ... in this
    order, one for each whole number of steps that does not pass
    [maxIncome]: there are [wholeSteps + 1] of them, the i-th (from 0) is
    the point computed at [minIncome + i * step]; so the first is at
    [minIncome], none is above [maxIncome], the last is the largest such
    value, and a sample at [maxIncome] itself is present exactly when
    [maxIncome - minIncome] is a whole number of steps. *)
Theorem income_sweep_samples
    (firstParentIncome : Q) (children : list Child.t) (activityHoursPerFortnight : Q)
    (minIncome maxIncome step : Q) (isSingleParent : bool) :
  minIncome <= maxIncome -> 0 < step ->
  exists l : list GraphDataPoint.t,
    (forall fuel : nat,
        (S (Z.to_nat (wholeSteps minIncome maxIncome step)) < fuel)%nat ->
        calculateGraphData fuel firstParentIncome children activityHoursPerFortnight
          minIncome maxIncome step isSingleParent = Some l)
    /\ length l = S (Z.to_nat (wholeSteps minIncome maxIncome step))
    /\ (forall i p, nth_error l i = Some p ->
          p = graphPoint firstParentIncome children activityHoursPerFortnight
                isSingleParent (GraphDataPoint.grossIncome p)
          /\ GraphDataPoint.grossIncome p == minIncome + inject_Z (Z.of_nat i) * step)
    /\ (exists p rest, l = p :: rest /\ GraphDataPoint.grossIncome p = minIncome)
    /\ (forall p, In p l ->
          GraphDataPoint.grossIncome p <= maxIncome
          /\ exists j : Z,
               (0 <= j)%Z /\ GraphDataPoint.grossIncome p == minIncome + inject_Z j * step)
    /\ (exists pre p,
          l = pre ++ [p]
          /\ GraphDataPoint.grossIncome p
             == minIncome + inject_Z (wholeSteps minIncome maxIncome step) * step)
    /\ ((exists p, In p l /\ GraphDataPoint.grossIncome p == maxIncome)
        <-> (exists j : Z, maxIncome - minIncome == inject_Z j * step)).
Proof.
  intros Hle Hstep.
  destruct (wholeSteps_bounds minIncome maxIncome step Hle Hstep) as [Hk0 [Hklo Hkhi]].
  set (k := wholeSteps minIncome maxIncome step) in *.
  set (point := graphPoint firstParentIncome children activityHoursPerFortnight
                  isSingleParent).
  assert (Hnat : inject_Z (Z.of_nat (Z.to_nat k)) = inject_Z k).
  { now rewrite Z2Nat.id. }
  assert (Hk1 : inject_Z (k + 1) == inject_Z k + 1).
  { now rewrite inject_Z_plus. }
  rewrite Hk1 in Hkhi.
  destruct (samplesFrom_last point step (Z.to_nat k) minIncome) as [pre [y [Hlast Hy]]].
  rewrite Hnat in Hy.
  exists (samplesFrom point step minIncome (S (Z.to_nat k))).
  split; [| split; [| split; [| split; [| split; [| split]]]]].
  - intros fuel Hfuel. unfold calculateGraphData. fold point.
    rewrite (graphLoop_run point maxIncome step Hstep (S (Z.to_nat k)) fuel minIncome []).
    + reflexivity.
    + exact Hfuel.
    + rewrite inject_nat_succ, Hnat. lra.
    + intros m Hm. injection Hm as <-. rewrite Hnat. exact Hklo.
  - apply samplesFrom_length.
  - intros i p Hnth. destruct (samplesFrom_nth _ _ _ _ _ _ Hnth) as [x [-> Hx]].
    change (GraphDataPoint.grossIncome (point x)) with x. split; [reflexivity | exact Hx].
  - exists (point minIncome), (samplesFrom point step (minIncome + step) (Z.to_nat k)).
    split; reflexivity.
  - intros p Hin. apply samplesFrom_In in Hin.
    destruct Hin as [j [x [Hj [-> Hx]]]].
    change (GraphDataPoint.grossIncome (point x)) with x.
    assert (Hjk : inject_Z (Z.of_nat j) <= inject_Z k).
    { rewrite <- Zle_Qle. lia. }
    split.
    + rewrite Hx. nra.
    + exists (Z.of_nat j). split; [lia | exact Hx].
  - exists pre, (point y). split; [exact Hlast |].
    change (GraphDataPoint.grossIncome (point y)) with y. exact Hy.
  - split.
    + intros [p [Hin Hp]]. apply samplesFrom_In in Hin.
      destruct Hin as [j [x [_ [-> Hx]]]].
      change (GraphDataPoint.grossIncome (point x)) with x in Hp.
      exists (Z.of_nat j). lra.
    + intros [j Hj].
      assert (Hr : (maxIncome - minIncome) / step == inject_Z j).
      { rewrite Hj. field. lra. }
      assert (Hkj : k = j).
      { unfold k, wholeSteps. rewrite Hr. apply Qfloor_Z. }
      exists (point y). split.
      * rewrite Hlast. apply in_or_app. right. now left.
      * change (GraphDataPoint.grossIncome (point y)) with y.
        rewrite Hy, Hkj. lra.
Qed.

Lemma income_sweep_samples_witness :
  exists l : list GraphDataPoint.t,
    (forall fuel : nat,
        (S (Z.to_nat (wholeSteps 50000 100000 10000)) < fuel)%nat ->
        calculateGraphData fuel 90000 [baseChild] 80 50000 100000 10000 false = Some l)
    /\ length l = S (Z.to_nat (wholeSteps 50000 100000 10000))
    /\ (forall i p, nth_error l i = Some p ->
          p = graphPoint 90000 [baseChild] 80 false (GraphDataPoint.grossIncome p)
          /\ GraphDataPoint.grossIncome p == 50000 + inject_Z (Z.of_nat i) * 10000)
    /\ (exists p rest, l = p :: rest /\ GraphDataPoint.grossIncome p = 50000)
    /\ (forall p, In p l ->
          GraphDataPoint.grossIncome p <= 100000
          /\ exists j : Z,
               (0 <= j)%Z /\ GraphDataPoint.grossIncome p == 50000 + inject_Z j * 10000)
    /\ (exists pre p,
          l = pre ++ [p]
          /\ GraphDataPoint.grossIncome p
             == 50000 + inject_Z (wholeSteps 50000 100000 10000) * 10000)
    /\ ((exists p, In p l /\ GraphDataPoint.grossIncome p == 100000)
        <-> (exists j : Z, 100000 - 50000 == inject_Z j * 10000)).
Proof.
  apply (income_sweep_samples 90000 [baseChild] 80 50000 100000 10000 false).
  - discriminate.
  - reflexivity.
Defined.

(** ** Break-even search over an income sweep *)

Lemma crossesDown_reflect (current next : GraphDataPoint.t) :
  reflect (crossesDown current next)
    (geb (GraphDataPoint.netIncome current) 0 && ltb (GraphDataPoint.netIncome next) 0).
Proof.
  unfold crossesDown, geb.
  destruct (leb_reflect 0 (GraphDataPoint.netIncome current));
    destruct (ltb_reflect (GraphDataPoint.netIncome next) 0);
    constructor; tauto.
Qed.

Lemma crossesUp_reflect (current next : GraphDataPoint.t) :
  reflect (crossesUp current next)
    (leb (GraphDataPoint.netIncome current) 0 && gtb (GraphDataPoint.netIncome next) 0).
Proof.
  unfold crossesUp, gtb.
  destruct (leb_reflect (GraphDataPoint.netIncome current) 0);
    destruct (ltb_reflect 0 (GraphDataPoint.netIncome next));
    constructor; tauto.
Qed.

Lemma findBreakEvenPoint_cross (current next : GraphDataPoint.t)
    (rest : list GraphDataPoint.t) :
  crosses current next ->
  findBreakEvenPoint (current :: next :: rest) = Some (breakEvenBetween current next).
Proof.
  intros Hc. simpl.
  destruct (crossesDown_reflect current next) as [_ | Hnd]; [reflexivity |].
  destruct (crossesUp_reflect current next) as [_ | Hnu]; [reflexivity |].
  destruct Hc; contradiction.
Qed.

Lemma findBreakEvenPoint_skip (current next : GraphDataPoint.t)
    (rest : list GraphDataPoint.t) :
  ~ crosses current next ->
  findBreakEvenPoint (current :: next :: rest) = findBreakEvenPoint (next :: rest).
Proof.
  intros Hc. simpl.
  destruct (crossesDown_reflect current next) as [Hd | _];
    [exfalso; apply Hc; now left |].
  destruct (crossesUp_reflect current next) as [Hu | _];
    [exfalso; apply Hc; now right |].
  reflexivity.
Qed.

Lemma crosses_dec (current next : GraphDataPoint.t) :
  {crosses current next} + {~ crosses current next}.
Proof.
  destruct (crossesDown_reflect current next) as [Hd | Hnd]; [left; now left |].
  destruct (crossesUp_reflect current next) as [Hu | Hnu]; [left; now right |].
  right. intros [H | H]; contradiction.
Qed.

(** Where net income crosses zero the interpolation divides by a positive
    number. *)
Lemma crosses_ratio_defined (current next : GraphDataPoint.t) :
  crosses current next ->
  0 < Math_abs (GraphDataPoint.netIncome current)
      + Math_abs (GraphDataPoint.netIncome next).
Proof.
  unfold crosses, crossesDown, crossesUp, Math_abs.
  pose proof (Qabs_nonneg (GraphDataPoint.netIncome current)) as Hc.
  pose proof (Qabs_nonneg (GraphDataPoint.netIncome next)) as Hn.
  intros [[_ H] | [_ H]].
  - rewrite (Qabs_neg (GraphDataPoint.netIncome next)) in * by lra. lra.
  - rewrite (Qabs_pos (GraphDataPoint.netIncome next)) in * by lra. lra.
Qed.

Lemma findBreakEvenPoint_none_iff (l : list GraphDataPoint.t) :
  findBreakEvenPoint l = None
  <-> Forall (fun ab => ~ crosses (fst ab) (snd ab)) (adjacentPairs l).
Proof.
  induction l as [| current l IH]; [split; [constructor | reflexivity] |].
  destruct l as [| next rest]; [split; [constructor | reflexivity] |].
  change (adjacentPairs (current :: next :: rest))
    with ((current, next) :: adjacentPairs (next :: rest)).
  destruct (crosses_dec current next) as [Hc | Hnc].
  - rewrite (findBreakEvenPoint_cross _ _ _ Hc). split; [discriminate |].
    intro H. inversion H; subst. contradiction.
  - rewrite (findBreakEvenPoint_skip _ _ _ Hnc), IH. split.
    + intro H. constructor; assumption.
    + intro H. now inversion H.
Qed.

Lemma findBreakEvenPoint_first_crossing (pre : list GraphDataPoint.t)
    (current next : GraphDataPoint.t) (post : list GraphDataPoint.t) :
  Forall (fun ab => ~ crosses (fst ab) (snd ab)) (adjacentPairs (pre ++ [current])) ->
  crosses current next ->
  findBreakEvenPoint (pre ++ current :: next :: post)
  = Some (breakEvenBetween current next).
Proof.
  intros Hpre Hc. induction pre as [| a pre IH]; cbn [app].
  - now apply findBreakEvenPoint_cross.
  - destruct pre as [| b pre]; cbn [app] in *.
    + inversion Hpre; subst.
      rewrite findBreakEvenPoint_skip by assumption.
      now apply findBreakEvenPoint_cross.
    + change (adjacentPairs (a :: b :: pre ++ [current]))
        with ((a, b) :: adjacentPairs (b :: pre ++ [current])) in Hpre.
      inversion Hpre; subst.
      rewrite findBreakEvenPoint_skip by assumption.
      now apply IH.
Qed.

Lemma same_signed_no_crossing (l : list GraphDataPoint.t) :
  Forall (fun p => 0 < GraphDataPoint.netIncome p) l
  \/ Forall (fun p => GraphDataPoint.netIncome p < 0) l ->
  Forall (fun ab => ~ crosses (fst ab) (snd ab)) (adjacentPairs l).
Proof.
  intro H. induction l as [| current l IH]; [constructor |].
  destruct l as [| next rest]; [constructor |].
  change (adjacentPairs (current :: next :: rest))
    with ((current, next) :: adjacentPairs (next :: rest)).
  constructor.
  - unfold crosses, crossesDown, crossesUp; simpl.
    destruct H as [H | H]; inversion H as [| ? ? Hc Ht]; subst;
      inversion Ht; subst; lra.
  - apply IH. destruct H as [H | H]; inversion H; subst; [now left | now right].
Qed.

(** C5: the scan returns the interpolation between the first adjacent pair
    whose net income crosses zero, in either direction, with
    [ratio = |current| / (|current| + |next|)] and a net income of 0; it
    returns null exactly when no adjacent pair crosses, so in particular for
    samples that are all positive or all negative; on the example samples
    the break-even income is 65000, strictly between 60000 and 70000. *)
Theorem break_even_point_scan :
  (forall pre current next post,
      Forall (fun ab => ~ crosses (fst ab) (snd ab)) (adjacentPairs (pre ++ [current])) ->
      crosses current next ->
      findBreakEvenPoint (pre ++ current :: next :: post)
      = Some
          {| BreakEvenPoint.income :=
               GraphDataPoint.grossIncome current
               + (GraphDataPoint.grossIncome next - GraphDataPoint.grossIncome current)
                 * (Qabs (GraphDataPoint.netIncome current)
                    / (Qabs (GraphDataPoint.netIncome current)
                       + Qabs (GraphDataPoint.netIncome next)));
             BreakEvenPoint.netIncome := 0 |}
      /\ 0 < Qabs (GraphDataPoint.netIncome current)
             + Qabs (GraphDataPoint.netIncome next))
  /\ (forall l,
        findBreakEvenPoint l = None
        <-> Forall (fun ab => ~ crosses (fst ab) (snd ab)) (adjacentPairs l))
  /\ (forall l,
        Forall (fun p => 0 < GraphDataPoint.netIncome p) l
        \/ Forall (fun p => GraphDataPoint.netIncome p < 0) l ->
        findBreakEvenPoint l = None)
  /\ (exists p,
        findBreakEvenPoint breakEvenExample = Some p
        /\ 60000 < BreakEvenPoint.income p /\ BreakEvenPoint.income p < 70000
        /\ BreakEvenPoint.income p == 65000
        /\ BreakEvenPoint.netIncome p = 0).
Proof.
  split; [| split; [| split]].
  - intros pre current next post Hpre Hc. split.
    + now apply findBreakEvenPoint_first_crossing.
    + now apply crosses_ratio_defined.
  - exact findBreakEvenPoint_none_iff.
  - intros l H. apply findBreakEvenPoint_none_iff. now apply same_signed_no_crossing.
  - eexists. split; [reflexivity |]. repeat split.
Qed.

(** A downward crossing, found through the theorem: after a sample that does
    not cross, the pair (70000, 5000), (80000, -15000) yields 72500. *)
Lemma break_even_point_scan_witness :
  findBreakEvenPoint
    ([ {| GraphDataPoint.grossIncome := 60000; GraphDataPoint.netIncome := 2000;
          GraphDataPoint.afterTax := 50000; GraphDataPoint.childcareCost := 48000 |} ]
     ++ {| GraphDataPoint.grossIncome := 70000; GraphDataPoint.netIncome := 5000;
           GraphDataPoint.afterTax := 60000; GraphDataPoint.childcareCost := 55000 |}
     :: {| GraphDataPoint.grossIncome := 80000; GraphDataPoint.netIncome := -15000;
           GraphDataPoint.afterTax := 70000; GraphDataPoint.childcareCost := 85000 |}
     :: [])
  = Some
      {| BreakEvenPoint.income := 70000 + (80000 - 70000) * (Qabs 5000 / (Qabs 5000 + Qabs (-15000)));
         BreakEvenPoint.netIncome := 0 |}
  /\ 0 < Qabs 5000 + Qabs (-15000).
Proof.
  apply (proj1 break_even_point_scan).
  - repeat constructor. unfold crosses, crossesDown, crossesUp; simpl. lra.
  - left. unfold crossesDown; simpl. lra.
Defined.

(** ** Break-even search over an hours sweep *)

Lemma risesThroughZero_reflect (current next : HoursGraphDataPoint.t) :
  reflect (risesThroughZero current next)
    (leb (HoursGraphDataPoint.netIncome current) 0
     && gtb (HoursGraphDataPoint.netIncome next) 0).
Proof.
  unfold risesThroughZero, gtb.
  destruct (leb_reflect (HoursGraphDataPoint.netIncome current) 0);
    destruct (ltb_reflect 0 (HoursGraphDataPoint.netIncome next));
    constructor; tauto.
Qed.

Lemma findBreakEvenHours_rise (current next : HoursGraphDataPoint.t)
    (rest : list HoursGraphDataPoint.t) :
  risesThroughZero current next ->
  findBreakEvenHours (current :: next :: rest)
  = if ltb (breakEvenHoursBetween current next) 0.5 then None
    else Some (breakEvenPointBetween current next).
Proof.
  intro H. simpl.
  destruct (risesThroughZero_reflect current next); [reflexivity | contradiction].
Qed.

Lemma findBreakEvenHours_skip (current next : HoursGraphDataPoint.t)
    (rest : list HoursGraphDataPoint.t) :
  ~ risesThroughZero current next ->
  findBreakEvenHours (current :: next :: rest) = findBreakEvenHours (next :: rest).
Proof.
  intro H. simpl.
  destruct (risesThroughZero_reflect current next); [contradiction | reflexivity].
Qed.

Lemma findBreakEvenHours_first_rise (pre : list HoursGraphDataPoint.t)
    (current next : HoursGraphDataPoint.t) (post : list HoursGraphDataPoint.t) :
  Forall (fun ab => ~ risesThroughZero (fst ab) (snd ab)) (adjacentPairs (pre ++ [current])) ->
  risesThroughZero current next ->
  findBreakEvenHours (pre ++ current :: next :: post)
  = if ltb (breakEvenHoursBetween current next) 0.5 then None
    else Some (breakEvenPointBetween current next).
Proof.
  intros Hpre Hc. induction pre as [| a pre IH]; cbn [app].
  - now apply findBreakEvenHours_rise.
  - destruct pre as [| b pre]; cbn [app] in *.
    + inversion Hpre; subst.
      rewrite findBreakEvenHours_skip by assumption.
      now apply findBreakEvenHours_rise.
    + change (adjacentPairs (a :: b :: pre ++ [current]))
        with ((a, b) :: adjacentPairs (b :: pre ++ [current])) in Hpre.
      inversion Hpre; subst.
      rewrite findBreakEvenHours_skip by assumption.
      now apply IH.
Qed.

Lemma findBreakEvenHours_no_rise (l : list HoursGraphDataPoint.t) :
  Forall (fun ab => ~ risesThroughZero (fst ab) (snd ab)) (adjacentPairs l) ->
  findBreakEvenHours l = None.
Proof.
  induction l as [| current l IH]; [reflexivity |].
  destruct l as [| next rest]; [reflexivity |].
  change (adjacentPairs (current :: next :: rest))
    with ((current, next) :: adjacentPairs (next :: rest)).
  intro H. inversion H; subst.
  rewrite findBreakEvenHours_skip by assumption. now apply IH.
Qed.

(** C9: when the first adjacent pair whose net income rises through zero
    interpolates to fewer than 0.5 hours, the result is null whatever
    samples follow, a later genuine crossing included; and a sequence
    without a rising pair, such as one whose net income only falls through
    zero, yields null as well. *)
Theorem break_even_hours_suppressed :
  (forall pre current next post,
      Forall (fun ab => ~ risesThroughZero (fst ab) (snd ab))
        (adjacentPairs (pre ++ [current])) ->
      risesThroughZero current next ->
      breakEvenHoursBetween current next < 0.5 ->
      findBreakEvenHours (pre ++ current :: next :: post) = None)
  /\ (findBreakEvenHours dipAfterStart = None
      /\ exists current next,
           In (current, next) (adjacentPairs dipAfterStart)
           /\ risesThroughZero current next
           /\ 0.5 <= breakEvenHoursBetween current next)
  /\ (forall l,
        Forall (fun ab => ~ risesThroughZero (fst ab) (snd ab)) (adjacentPairs l) ->
        findBreakEvenHours l = None)
  /\ (findBreakEvenHours fallingCurve = None
      /\ exists current next,
           In (current, next) (adjacentPairs fallingCurve)
           /\ fallsThroughZero current next).
Proof.
  split; [| split; [| split]].
  - intros pre current next post Hpre Hrise Hlow.
    rewrite findBreakEvenHours_first_rise by assumption.
    destruct (ltb_reflect (breakEvenHoursBetween current next) 0.5);
      [reflexivity | contradiction].
  - split; [reflexivity |].
    exists (hoursSample 8 (-2000)), (hoursSample 16 6000).
    split; [simpl; auto |].
    split; [split; [discriminate | reflexivity] | vm_compute; discriminate].
  - exact findBreakEvenHours_no_rise.
  - split; [reflexivity |].
    exists (hoursSample 10 500), (hoursSample 20 (-500)).
    split; [simpl; auto |]. split; reflexivity.
Qed.

Lemma break_even_hours_suppressed_witness :
  findBreakEvenHours
    ([] ++ hoursSample 0 0 :: hoursSample 0.5 300
        :: [hoursSample 8 (-2000); hoursSample 16 6000]) = None.
Proof.
  apply (proj1 break_even_hours_suppressed).
  - constructor.
  - split; [discriminate | reflexivity].
  - reflexivity.
Defined.

(** ** Point lookup on an income sweep *)

(** C7 at its failing input: a sequence of one sample has no adjacent pair,
    so the lookup answers null for every target, the sample's own income
    included; the one-sample sweep of the test suite shows it. *)
Theorem single_sample_lookup_is_null :
  (forall (p : GraphDataPoint.t) (targetIncome : Q),
      findPointForIncome [p] targetIncome = None)
  /\ (exists p,
        singleSampleSweep = Some [p]
        /\ GraphDataPoint.grossIncome p = 80000
        /\ findPointForIncome [p] 80000 = None).
Proof.
  split; [reflexivity |].
  unfold singleSampleSweep. eexists. split; [vm_compute; reflexivity |].
  split; reflexivity.
Qed.

(** *** Sequences of two or more samples

    With a second sample present the lookup behaves as the specification
    says: an exact sample where the target meets one, the interpolation
    strictly between two neighbours, null exactly outside the range. *)

Lemma brackets_reflect (targetIncome : Q) (current next : GraphDataPoint.t) :
  reflect (brackets targetIncome current next)
    (leb (GraphDataPoint.grossIncome current) targetIncome
     && geb (GraphDataPoint.grossIncome next) targetIncome).
Proof.
  unfold brackets, geb.
  destruct (leb_reflect (GraphDataPoint.grossIncome current) targetIncome);
    destruct (leb_reflect targetIncome (GraphDataPoint.grossIncome next));
    constructor; tauto.
Qed.

Lemma findPointLoop_skip (targetIncome : Q) (current next : GraphDataPoint.t)
    (rest : list GraphDataPoint.t) :
  ~ brackets targetIncome current next ->
  findPointLoop (current :: next :: rest) targetIncome
  = findPointLoop (next :: rest) targetIncome.
Proof.
  intro H. simpl.
  destruct (brackets_reflect targetIncome current next); [contradiction | reflexivity].
Qed.

Lemma findPointLoop_bracket (targetIncome : Q) (current next : GraphDataPoint.t)
    (rest : list GraphDataPoint.t) :
  brackets targetIncome current next ->
  findPointLoop (current :: next :: rest) targetIncome
  = if eqb (GraphDataPoint.grossIncome current) targetIncome then Some current
    else if eqb (GraphDataPoint.grossIncome next) targetIncome then Some next
    else Some (interpolateAt current next targetIncome).
Proof.
  intro H. simpl.
  destruct (brackets_reflect targetIncome current next); [reflexivity | contradiction].
Qed.

Lemma ascending_cons (current next : GraphDataPoint.t) (rest : list GraphDataPoint.t) :
  ascending (current :: next :: rest)
  <-> GraphDataPoint.grossIncome current <= GraphDataPoint.grossIncome next
      /\ ascending (next :: rest).
Proof.
  unfold ascending.
  change (adjacentPairs (current :: next :: rest))
    with ((current, next) :: adjacentPairs (next :: rest)).
  split.
  - intro H. inversion H; subst. now split.
  - intros [H1 H2]. now constructor.
Qed.

Lemma ascending_head_le (rest : list GraphDataPoint.t) :
  forall first s,
    ascending (first :: rest) -> In s (first :: rest) ->
    GraphDataPoint.grossIncome first <= GraphDataPoint.grossIncome s.
Proof.
  induction rest as [| next rest IH]; intros first s Hasc Hin.
  - destruct Hin as [<- | []]. lra.
  - apply ascending_cons in Hasc. destruct Hasc as [Hle Hasc].
    destruct Hin as [<- | Hin]; [lra |].
    pose proof (IH next s Hasc Hin). lra.
Qed.

Lemma lastFrom_In (rest : list GraphDataPoint.t) :
  forall first, In (lastFrom first rest) (first :: rest).
Proof.
  induction rest as [| next rest IH]; intro first; simpl.
  - now left.
  - right. apply IH.
Qed.

Lemma ascending_le_last (rest : list GraphDataPoint.t) :
  forall first s,
    ascending (first :: rest) -> In s (first :: rest) ->
    GraphDataPoint.grossIncome s <= GraphDataPoint.grossIncome (lastFrom first rest).
Proof.
  induction rest as [| next rest IH]; intros first s Hasc Hin.
  - destruct Hin as [<- | []]. simpl. lra.
  - pose proof Hasc as Hasc'. apply ascending_cons in Hasc'.
    destruct Hasc' as [Hle Htl]. simpl.
    destruct Hin as [<- | Hin].
    + pose proof (IH next next Htl (or_introl eq_refl)). lra.
    + now apply IH.
Qed.

(** A target that meets a sample's income: the sample found has that income
    and is one of the sequence. *)
Lemma findPointLoop_exact (targetIncome : Q) (rest : list GraphDataPoint.t) :
  forall first s,
    rest <> [] ->
    ascending (first :: rest) ->
    In s (first :: rest) ->
    GraphDataPoint.grossIncome s == targetIncome ->
    exists p,
      findPointLoop (first :: rest) targetIncome = Some p
      /\ In p (first :: rest)
      /\ GraphDataPoint.grossIncome p == targetIncome.
Proof.
  induction rest as [| next rest IH]; intros first s Hne Hasc Hin Hs; [contradiction |].
  pose proof (ascending_head_le _ _ _ Hasc Hin) as Hfirst.
  apply ascending_cons in Hasc. destruct Hasc as [Hle Htl].
  destruct (brackets_reflect targetIncome first next) as [Hb | Hnb].
  - rewrite (findPointLoop_bracket _ _ _ _ Hb).
    destruct (eqb_reflect (GraphDataPoint.grossIncome first) targetIncome) as [E1 | N1].
    { exists first. repeat split; [now left | exact E1]. }
    destruct (eqb_reflect (GraphDataPoint.grossIncome next) targetIncome) as [E2 | N2].
    { exists next. repeat split; [right; now left | exact E2]. }
    exfalso. destruct Hb as [Hb1 Hb2].
    destruct Hin as [<- | Hin]; [now apply N1 |].
    pose proof (ascending_head_le _ _ _ Htl Hin). apply N2. lra.
  - rewrite (findPointLoop_skip _ _ _ _ Hnb).
    assert (Hnext : GraphDataPoint.grossIncome next < targetIncome).
    { unfold brackets in Hnb. apply Qnot_le_lt. intro. apply Hnb. split; lra. }
    assert (Hin' : In s rest).
    { destruct Hin as [<- | [<- | Hin]]; [lra | lra | exact Hin]. }
    destruct (IH next s) as [p [Hp [Hpin Hpx]]].
    + intro E. rewrite E in Hin'. contradiction.
    + exact Htl.
    + now right.
    + exact Hs.
    + exists p. repeat split; [exact Hp | now right | exact Hpx].
Qed.

(** A target strictly between two neighbours is interpolated between them. *)
Lemma findPointLoop_between (targetIncome : Q) (pre : list GraphDataPoint.t)
    (current next : GraphDataPoint.t) (post : list GraphDataPoint.t) :
  ascending (pre ++ current :: next :: post) ->
  GraphDataPoint.grossIncome current < targetIncome ->
  targetIncome < GraphDataPoint.grossIncome next ->
  findPointLoop (pre ++ current :: next :: post) targetIncome
  = Some (interpolateAt current next targetIncome).
Proof.
  intros Hasc Hlo Hhi. induction pre as [| a pre IH]; cbn [app] in *.
  - rewrite findPointLoop_bracket by (split; lra).
    destruct (eqb_reflect (GraphDataPoint.grossIncome current) targetIncome); [lra |].
    destruct (eqb_reflect (GraphDataPoint.grossIncome next) targetIncome); [lra |].
    reflexivity.
  - assert (Hskip : forall b tl,
               pre ++ current :: next :: post = b :: tl ->
               findPointLoop (a :: b :: tl) targetIncome
               = findPointLoop (b :: tl) targetIncome).
    { intros b tl E. apply findPointLoop_skip. rewrite E in Hasc.
      apply ascending_cons in Hasc. destruct Hasc as [_ Htl].
      assert (Hin : In current (b :: tl)).
      { rewrite <- E. apply in_or_app. right. now left. }
      pose proof (ascending_head_le _ _ _ Htl Hin).
      unfold brackets. lra. }
    destruct (pre ++ current :: next :: post) as [| b tl] eqn:E.
    + destruct pre; discriminate E.
    + rewrite (Hskip b tl eq_refl). apply IH.
      apply ascending_cons in Hasc. tauto.
Qed.

(** Outside the sampled range no pair brackets the target. *)
Lemma findPointLoop_outside (targetIncome : Q) (rest : list GraphDataPoint.t) :
  forall first,
    ascending (first :: rest) ->
    targetIncome < GraphDataPoint.grossIncome first
    \/ GraphDataPoint.grossIncome (lastFrom first rest) < targetIncome ->
    findPointLoop (first :: rest) targetIncome = None.
Proof.
  induction rest as [| next rest IH]; intros first Hasc Hout; [reflexivity |].
  pose proof (ascending_le_last _ _ next Hasc (or_intror (or_introl eq_refl))) as Hlast.
  apply ascending_cons in Hasc. destruct Hasc as [Hle Htl].
  rewrite findPointLoop_skip.
  - apply IH; [exact Htl |]. simpl in Hout. destruct Hout; [left; lra | now right].
  - unfold brackets. simpl in Hout, Hlast. lra.
Qed.

(** Inside the sampled range some pair brackets the target; this needs no
    ordering of the samples. *)
Lemma findPointLoop_inside (targetIncome : Q) (rest : list GraphDataPoint.t) :
  forall first,
    rest <> [] ->
    GraphDataPoint.grossIncome first <= targetIncome ->
    targetIncome <= GraphDataPoint.grossIncome (lastFrom first rest) ->
    exists p,
      findPointLoop (first :: rest) targetIncome = Some p
      /\ GraphDataPoint.grossIncome p == targetIncome.
Proof.
  induction rest as [| next rest IH]; intros first Hne Hlo Hhi; [contradiction |].
  destruct (brackets_reflect targetIncome first next) as [Hb | Hnb].
  - rewrite (findPointLoop_bracket _ _ _ _ Hb).
    destruct (eqb_reflect (GraphDataPoint.grossIncome first) targetIncome) as [E1 | N1];
      [now exists first |].
    destruct (eqb_reflect (GraphDataPoint.grossIncome next) targetIncome) as [E2 | N2];
      [now exists next |].
    eexists. split; reflexivity.
  - rewrite (findPointLoop_skip _ _ _ _ Hnb).
    assert (Hnext : GraphDataPoint.grossIncome next < targetIncome).
    { unfold brackets in Hnb. apply Qnot_le_lt. intro. apply Hnb. split; lra. }
    apply IH.
    + intros ->. simpl in Hhi. lra.
    + lra.
    + exact Hhi.
Qed.

(** X18: on an ascending sequence of two or more samples the lookup returns
    a sample of the sequence when the target meets a sample's income, the
    interpolation of net income, after-tax income and childcare cost when
    the target lies strictly between two neighbours, and null exactly when
    the target is below the first or above the last sample. *)
Lemma findPointForIncome_two_or_more (targetIncome : Q)
    (first second : GraphDataPoint.t) (rest : list GraphDataPoint.t) :
  ascending (first :: second :: rest) ->
  (forall s,
      In s (first :: second :: rest) ->
      GraphDataPoint.grossIncome s == targetIncome ->
      exists p,
        findPointForIncome (first :: second :: rest) targetIncome = Some p
        /\ In p (first :: second :: rest)
        /\ GraphDataPoint.grossIncome p == targetIncome)
  /\ (forall pre current next post,
        first :: second :: rest = pre ++ current :: next :: post ->
        GraphDataPoint.grossIncome current < targetIncome ->
        targetIncome < GraphDataPoint.grossIncome next ->
        findPointForIncome (first :: second :: rest) targetIncome
        = Some (interpolateAt current next targetIncome))
  /\ (findPointForIncome (first :: second :: rest) targetIncome = None
      <-> targetIncome < GraphDataPoint.grossIncome first
          \/ GraphDataPoint.grossIncome (lastFrom first (second :: rest)) < targetIncome).
Proof.
  intro Hasc.
  change (findPointForIncome (first :: second :: rest) targetIncome)
    with (findPointLoop (first :: second :: rest) targetIncome).
  split; [| split].
  - intros s Hin Hs. now apply (findPointLoop_exact targetIncome (second :: rest) first s).
  - intros pre current next post E Hlo Hhi. rewrite E in *.
    now apply findPointLoop_between.
  - split.
    + intro Hnone.
      destruct (Qlt_le_dec targetIncome (GraphDataPoint.grossIncome first)) as [H1 | H1];
        [now left |].
      destruct (Qlt_le_dec (GraphDataPoint.grossIncome (lastFrom first (second :: rest)))
                  targetIncome) as [H2 | H2]; [now right |].
      destruct (findPointLoop_inside targetIncome (second :: rest) first) as [p [Hp _]];
        [discriminate | exact H1 | exact H2 |].
      rewrite Hp in Hnone. discriminate.
    + intro Hout. now apply findPointLoop_outside.
Qed.

(** * Further properties of the code *)

(** Decide the comparisons of the goal one at a time, dropping the cases the
    facts at hand exclude. *)
Ltac cmp_prune :=
  unfold gtb, geb in *;
  repeat (match goal with
          | |- context [leb ?a ?b] => destruct (leb_reflect a b)
          | |- context [ltb ?a ?b] => destruct (ltb_reflect a b)
          | |- context [eqb ?a ?b] => destruct (eqb_reflect a b)
          end; try (exfalso; lra)).

(** Name every minimum and maximum of the goal, keeping which argument it is. *)
Ltac minmax_cases :=
  unfold Math_min, Math_max in *;
  repeat (match goal with
          | |- context [Qmin ?a ?b] =>
              let H := fresh "Hmin" in
              destruct (Q.min_spec a b) as [[? H] | [? H]];
              revert H; generalize (Qmin a b); intros ? H
          | |- context [Qmax ?a ?b] =>
              let H := fresh "Hmax" in
              destruct (Q.max_spec a b) as [[? H] | [? H]];
              revert H; generalize (Qmax a b); intros ? H
          end; try (exfalso; lra)).

(** ** Tax *)

(** X1: income tax is zero exactly up to an income of 22575: the low income
    offset lifts the tax-free threshold of 18200 by 4375. *)
Theorem income_tax_effective_threshold (income : Q) :
  calculateIncomeTax income == 0 <-> income <= 22575.
Proof.
  unfold calculateIncomeTax, calculateLowIncomeTaxOffset.
  cmp_prune; minmax_cases; split; intros; lra.
Qed.

Lemma medicare_levy_bounds (income : Q) :
  0 <= income ->
  0 <= calculateMedicareLevy income
  /\ calculateMedicareLevy income <= income * 0.02
  /\ (30345 <= income -> calculateMedicareLevy income == income * 0.02).
Proof.
  intro H0. unfold calculateMedicareLevy, SINGLE_THRESHOLD, SINGLE_SHADE_IN_END.
  cmp_prune; repeat split; intros; try lra.
  - apply Qmult_le_0_compat; [lra |]. apply Qmult_le_0_compat; [| lra].
    apply Qle_shift_div_l; lra.
  - apply Qmult_le_compat_nonneg; [lra |]. split.
    + apply Qmult_le_0_compat; [| lra]. apply Qle_shift_div_l; lra.
    + assert ((income - 24276) / (30345 - 24276) <= 1).
      { apply Qle_shift_div_r; lra. }
      lra.
  - assert (E : income == 30345) by lra. rewrite E. reflexivity.
Qed.

Lemma income_tax_bounds (income : Q) :
  0 <= income ->
  0 <= calculateIncomeTax income /\ calculateIncomeTax income <= income * 0.45.
Proof.
  intro H0. unfold calculateIncomeTax, calculateLowIncomeTaxOffset.
  cmp_prune; minmax_cases; split; lra.
Qed.

Lemma after_tax_bounds (income : Q) :
  0 <= income ->
  income * 0.53 <= calculateAfterTaxIncome income
  /\ calculateAfterTaxIncome income <= income.
Proof.
  intro H0. unfold calculateAfterTaxIncome.
  destruct (income_tax_bounds income H0) as [Ht0 Ht1].
  destruct (medicare_levy_bounds income H0) as [Hl0 [Hl1 _]].
  split; lra.
Qed.

(** X4: the income tax itself is not monotone: the offset steps up from 300
    to 325 just above 45000, so every income in (45000, 45079] owes less tax
    than an income of exactly 45000. *)
Theorem income_tax_step_at_45000 (income : Q) :
  45000 < income -> income <= 45079 ->
  calculateIncomeTax income < calculateIncomeTax 45000.
Proof.
  intros Hlo Hhi.
  assert (E : calculateIncomeTax 45000 == 3988) by reflexivity.
  rewrite E. unfold calculateIncomeTax, calculateLowIncomeTaxOffset.
  cmp_prune; minmax_cases; lra.
Qed.

Lemma income_tax_slope (x y : Q) :
  x <= y -> calculateIncomeTax y - calculateIncomeTax x <= (y - x) * 0.45.
Proof.
  intro Hxy. unfold calculateIncomeTax, calculateLowIncomeTaxOffset.
  cmp_prune; minmax_cases; lra.
Qed.

(** The shade-in fraction of the levy, freed of its division. *)
Lemma shade_in_fraction (income : Q) :
  (income - 24276) / (30345 - 24276) * 6069 == income - 24276.
Proof. field. Qed.

Lemma medicare_levy_slope (x y : Q) :
  x <= y -> calculateMedicareLevy y - calculateMedicareLevy x <= (y - x) * 0.12.
Proof.
  intro Hxy. unfold calculateMedicareLevy, SINGLE_THRESHOLD, SINGLE_SHADE_IN_END.
  pose proof (shade_in_fraction x) as Hx. pose proof (shade_in_fraction y) as Hy.
  revert Hx Hy.
  generalize ((x - 24276) / (30345 - 24276)). generalize ((y - 24276) / (30345 - 24276)).
  intros ry rx Hx Hy.
  cmp_prune; try lra; nra.
Qed.

Lemma after_tax_slope (x y : Q) :
  x <= y ->
  (y - x) * 0.43 <= calculateAfterTaxIncome y - calculateAfterTaxIncome x.
Proof.
  intro Hxy. unfold calculateAfterTaxIncome.
  pose proof (income_tax_slope x y Hxy). pose proof (medicare_levy_slope x y Hxy). lra.
Qed.

(** ** Subsidy percent *)

Lemma steps_monotone (a b : Q) :
  a <= b -> Math_floor a <= Math_floor b.
Proof. intro H. unfold Math_floor. rewrite <- Zle_Qle. now apply Qfloor_resp_le. Qed.

Lemma steps_nonneg (a : Q) : 0 <= a -> 0 <= Math_floor a.
Proof. intro H. apply (steps_monotone 0 a H). Qed.

Lemma steps_at_most (a : Q) (n : Z) : a <= inject_Z n -> Math_floor a <= inject_Z n.
Proof.
  intro H. unfold Math_floor. rewrite <- Zle_Qle, <- (Qfloor_Z n). now apply Qfloor_resp_le.
Qed.

Lemma steps_is_integer (a : Q) : exists z : Z, Math_floor a == inject_Z z.
Proof. exists (Qfloor a). reflexivity. Qed.

Ltac unfold_subsidy_constants :=
  unfold BASE_INCOME, MAX_INCOME, INCOME_STEP, BASE_SUBSIDY_PERCENT,
    SECOND_CHILD_BASE_INCOME, SECOND_CHILD_FIRST_BRACKET_END,
    SECOND_CHILD_FLAT_80_END, SECOND_CHILD_SECOND_BRACKET_END,
    SECOND_CHILD_INCOME_STEP, SECOND_CHILD_MIN_SUBSIDY_PERCENT,
    SECOND_CHILD_SUBSIDY_PERCENT, SUBSIDY_DECREASE_PER_STEP in *.

Lemma subsidy_percent_range (income : Q) :
  (0 <= calculateSubsidyPercent income false
   /\ calculateSubsidyPercent income false <= 90)
  /\ (50 <= calculateSubsidyPercent income true
      /\ calculateSubsidyPercent income true <= 95).
Proof.
  unfold calculateSubsidyPercent. unfold_subsidy_constants.
  split.
  - cmp_prune; try (split; lra).
    assert (H : 0 <= Math_floor ((income - 85279) / 5000)).
    { apply steps_nonneg. apply Qle_shift_div_l; lra. }
    revert H. generalize (Math_floor ((income - 85279) / 5000)). intros f H.
    minmax_cases; split; lra.
  - cmp_prune; try (split; lra).
    + assert (H : 0 <= Math_floor ((income - 143273) / 3000)).
      { apply steps_nonneg. apply Qle_shift_div_l; lra. }
      revert H. generalize (Math_floor ((income - 143273) / 3000)). intros f H.
      minmax_cases; split; lra.
    + assert (H : 0 <= Math_floor ((income - 267563) / 3000)).
      { apply steps_nonneg. apply Qle_shift_div_l; lra. }
      revert H. generalize (Math_floor ((income - 267563) / 3000)). intros f H.
      minmax_cases; split; lra.
Qed.

Lemma inject_Z_sub (a b : Z) : inject_Z (a - b) == inject_Z a - inject_Z b.
Proof. unfold Z.sub. rewrite inject_Z_plus, inject_Z_opp. reflexivity. Qed.

Lemma subsidy_percent_is_integer (income : Q) (isSecondOrLater : bool) :
  exists z : Z, calculateSubsidyPercent income isSecondOrLater == inject_Z z.
Proof.
  unfold calculateSubsidyPercent. unfold_subsidy_constants.
  destruct isSecondOrLater; cmp_prune;
    try (now exists 95%Z); try (now exists 90%Z); try (now exists 80%Z);
    try (now exists 50%Z); try (now exists 0%Z);
    match goal with
    | |- context [Math_floor ?e] =>
        destruct (steps_is_integer e) as [z Hz]; revert Hz;
        generalize (Math_floor e); intros f Hz
    end;
    minmax_cases.
  all: first [ now exists 80%Z | now exists 50%Z | now exists 0%Z | idtac ].
  - exists (95 - z)%Z. rewrite inject_Z_sub. change (inject_Z 95) with 95. lra.
  - exists (80 - z)%Z. rewrite inject_Z_sub. change (inject_Z 80) with 80. lra.
  - exists (90 - z)%Z. rewrite inject_Z_sub. change (inject_Z 90) with 90. lra.
Qed.

Lemma Qdiv_le_compat (a b s : Q) : 0 < s -> a <= b -> a / s <= b / s.
Proof.
  intros Hs Hab. unfold Qdiv. apply Qmult_le_compat_r; [exact Hab |].
  apply Qlt_le_weak. now apply Qinv_lt_0_compat.
Qed.

Lemma steps_bounds (a : Q) : Math_floor a <= a /\ a < Math_floor a + 1.
Proof.
  unfold Math_floor. split; [apply Qfloor_le |].
  pose proof (Qlt_floor a) as H. rewrite inject_Z_plus in H. exact H.
Qed.

(** Use the facts that hold under a side condition the context settles. *)
Ltac lra_with_conditions :=
  try lra;
  repeat match goal with
         | H : ?P -> _ |- _ => specialize (H ltac:(lra))
         end;
  lra.

(** X6: in both tables the percent never rises with income. *)
Theorem subsidy_percent_never_rises (income1 income2 : Q) (isSecondOrLater : bool) :
  income1 <= income2 ->
  calculateSubsidyPercent income2 isSecondOrLater
  <= calculateSubsidyPercent income1 isSecondOrLater.
Proof.
  intro Hle. unfold calculateSubsidyPercent. unfold_subsidy_constants.
  destruct isSecondOrLater.
  - assert (HmA : Math_floor ((income1 - 143273) / 3000)
                  <= Math_floor ((income2 - 143273) / 3000)).
    { apply steps_monotone, Qdiv_le_compat; lra. }
    assert (HmB : Math_floor ((income1 - 267563) / 3000)
                  <= Math_floor ((income2 - 267563) / 3000)).
    { apply steps_monotone, Qdiv_le_compat; lra. }
    assert (HnA : 143273 <= income2 -> 0 <= Math_floor ((income2 - 143273) / 3000)).
    { intro. apply steps_nonneg. apply Qle_shift_div_l; lra. }
    assert (HnB : 267563 <= income2 -> 0 <= Math_floor ((income2 - 267563) / 3000)).
    { intro. apply steps_nonneg. apply Qle_shift_div_l; lra. }
    revert HmA HmB HnA HnB.
    generalize (Math_floor ((income1 - 143273) / 3000))
               (Math_floor ((income2 - 143273) / 3000))
               (Math_floor ((income1 - 267563) / 3000))
               (Math_floor ((income2 - 267563) / 3000)).
    intros a1 a2 b1 b2 HmA HmB HnA HnB.
    cmp_prune; minmax_cases; lra_with_conditions.
  - assert (Hm : Math_floor ((income1 - 85279) / 5000)
                 <= Math_floor ((income2 - 85279) / 5000)).
    { apply steps_monotone, Qdiv_le_compat; lra. }
    assert (Hn : 85279 <= income2 -> 0 <= Math_floor ((income2 - 85279) / 5000)).
    { intro. apply steps_nonneg. apply Qle_shift_div_l; lra. }
    revert Hm Hn.
    generalize (Math_floor ((income1 - 85279) / 5000))
               (Math_floor ((income2 - 85279) / 5000)).
    intros f1 f2 Hm Hn.
    cmp_prune; minmax_cases; lra_with_conditions.
Qed.

(** X7: at every income a second or later child gets at least the percent
    of a first child. *)
Theorem priority_percent_at_least_standard (income : Q) :
  calculateSubsidyPercent income false <= calculateSubsidyPercent income true.
Proof.
  unfold calculateSubsidyPercent. unfold_subsidy_constants.
  destruct (steps_bounds ((income - 85279) / 5000)) as [_ Hs].
  destruct (steps_bounds ((income - 143273) / 3000)) as [Ha _].
  destruct (steps_bounds ((income - 267563) / 3000)) as [Hb _].
  assert (Hn : 85279 <= income -> 0 <= Math_floor ((income - 85279) / 5000)).
  { intro. apply steps_nonneg. apply Qle_shift_div_l; lra. }
  assert (Es : (income - 85279) / 5000 * 5000 == income - 85279) by (field; lra).
  assert (Ea : (income - 143273) / 3000 * 3000 == income - 143273) by (field; lra).
  assert (Eb : (income - 267563) / 3000 * 3000 == income - 267563) by (field; lra).
  revert Hs Ha Hb Hn Es Ea Eb.
  generalize (Math_floor ((income - 85279) / 5000))
             (Math_floor ((income - 143273) / 3000))
             (Math_floor ((income - 267563) / 3000))
             ((income - 85279) / 5000) ((income - 143273) / 3000)
             ((income - 267563) / 3000).
  intros s a b es ea eb Hs Ha Hb Hn Es Ea Eb.
  cmp_prune; minmax_cases; lra_with_conditions.
Qed.

(** ** Per-child costs *)

Lemma subsidy_per_hour_bounds (child : Child.t) (income activityHours : Q) :
  0 <= Child.hourlyRate child ->
  0 <= ChildSubsidy.subsidyPerHour (calculateChildSubsidy child income activityHours)
  /\ ChildSubsidy.subsidyPerHour (calculateChildSubsidy child income activityHours)
     <= Child.hourlyRate child
  /\ ChildSubsidy.subsidyPerHour (calculateChildSubsidy child income activityHours)
     <= ChildSubsidy.hourlyRateCap (calculateChildSubsidy child income activityHours)
        * (ChildSubsidy.subsidyPercent (calculateChildSubsidy child income activityHours)
           / 100).
Proof.
  intro Hrate. unfold calculateChildSubsidy; cbn [ChildSubsidy.subsidyPerHour
    ChildSubsidy.hourlyRateCap ChildSubsidy.subsidyPercent].
  pose proof (subsidy_percent_range income) as [[Hs0 Hs1] [Hp0 Hp1]].
  assert (Hpc : 0 <= calculateSubsidyPercent income (Child.isSecondOrLater child) / 100
                /\ calculateSubsidyPercent income (Child.isSecondOrLater child) / 100 <= 1).
  { destruct (Child.isSecondOrLater child); split;
      first [apply Qle_shift_div_l; lra | apply Qle_shift_div_r; lra]. }
  revert Hpc.
  generalize (calculateSubsidyPercent income (Child.isSecondOrLater child) / 100).
  intros pc [Hpc0 Hpc1].
  assert (Hcap : 0 < match Child.age child with
                     | under_school => HOURLY_RATE_CAP_UNDER_SCHOOL_AGE
                     | school_age => HOURLY_RATE_CAP_SCHOOL_AGE
                     end).
  { destruct (Child.age child); reflexivity. }
  revert Hcap.
  generalize (match Child.age child with
              | under_school => HOURLY_RATE_CAP_UNDER_SCHOOL_AGE
              | school_age => HOURLY_RATE_CAP_SCHOOL_AGE
              end).
  intros cap Hcap.
  minmax_cases; repeat split; nra.
Qed.

Lemma cap_dominance (child : Child.t) (income activityHours : Q) :
  ChildSubsidy.hourlyRateCap (calculateChildSubsidy child income activityHours)
  <= Child.hourlyRate child ->
  ChildSubsidy.subsidyPerHour (calculateChildSubsidy child income activityHours)
  == ChildSubsidy.hourlyRateCap (calculateChildSubsidy child income activityHours)
     * (calculateSubsidyPercent income (Child.isSecondOrLater child) / 100).
Proof.
  unfold calculateChildSubsidy; cbn [ChildSubsidy.subsidyPerHour
    ChildSubsidy.hourlyRateCap ChildSubsidy.subsidyPercent].
  generalize (match Child.age child with
              | under_school => HOURLY_RATE_CAP_UNDER_SCHOOL_AGE
              | school_age => HOURLY_RATE_CAP_SCHOOL_AGE
              end).
  intros cap Hcap. unfold Math_min. rewrite (Q.min_r _ _ Hcap). reflexivity.
Qed.

(** X9: in both aggregation variants every child's subsidised and
    unsubsidised hours add up to its hours per fortnight, for any inputs. *)
Theorem hours_are_conserved (children : list Child.t) (income h ceiling : Q) :
  Forall (fun d => ChildDetail.subsidisedHours d + ChildDetail.unsubsidisedHours d
                   == ChildDetail.hoursPerDay d * ChildDetail.daysPerWeek d * 2)
    (TotalCosts.childDetails (calculateTotalCosts children income h))
  /\ Forall (fun d => ChildDetail.subsidisedHours d + ChildDetail.unsubsidisedHours d
                      == ChildDetail.hoursPerDay d * ChildDetail.daysPerWeek d * 2)
       (TotalCosts.childDetails (calculateTotalCostsWithWorkDays children income ceiling)).
Proof.
  split; apply Forall_forall; intros d Hd;
    unfold calculateTotalCosts, calculateTotalCostsWithWorkDays in Hd;
    cbn [TotalCosts.childDetails] in Hd; apply in_map_iff in Hd;
    destruct Hd as [child [<- _]];
    unfold childDetail, childDetailWithWorkDays, ChildDetail.hoursPerDay,
      ChildDetail.daysPerWeek, calculateChildSubsidy;
    cbn [ChildDetail.subsidisedHours ChildDetail.unsubsidisedHours ChildDetail.details
         ChildSubsidy.hoursPerDay ChildSubsidy.daysPerWeek
         ChildSubsidy.subsidisedHoursPerFortnight];
    generalize (Child.hoursPerDay child * Child.daysPerWeek child * 2); intro hpf;
    minmax_cases; lra.
Qed.

Lemma child_cost_bounds (child : Child.t) (income h : Q) :
  nonNegativeChild child ->
  0 <= ChildDetail.subsidisedHours (childDetail income h child)
  /\ ChildDetail.subsidisedHours (childDetail income h child) <= hoursPerFortnightOf child
  /\ ChildDetail.subsidisedHours (childDetail income h child)
     <= calculateSubsidisedHours h
  /\ 0 <= ChildDetail.subsidyAmount (childDetail income h child)
  /\ ChildDetail.subsidyAmount (childDetail income h child)
     <= ChildDetail.totalCost (childDetail income h child)
  /\ 0 <= ChildDetail.outOfPocket (childDetail income h child)
  /\ ChildDetail.outOfPocket (childDetail income h child)
     <= ChildDetail.totalCost (childDetail income h child).
Proof.
  intros [Hh [Hd Hr]].
  destruct (subsidy_per_hour_bounds child income h Hr) as [Hs0 [Hs1 _]].
  unfold childDetail, hoursPerFortnightOf.
  cbn [ChildDetail.subsidisedHours ChildDetail.subsidyAmount ChildDetail.totalCost
       ChildDetail.outOfPocket].
  change (ChildSubsidy.subsidisedHoursPerFortnight (calculateChildSubsidy child income h))
    with (calculateSubsidisedHours h).
  assert (Hc : 0 < calculateSubsidisedHours h).
  { unfold calculateSubsidisedHours. destruct (geb h ACTIVITY_THRESHOLD_FOR_MAX_HOURS);
      reflexivity. }
  assert (Hpf : 0 <= Child.hoursPerDay child * Child.daysPerWeek child * 2) by nra.
  revert Hs0 Hs1 Hc Hpf.
  generalize (ChildSubsidy.subsidyPerHour (calculateChildSubsidy child income h))
             (calculateSubsidisedHours h)
             (Child.hoursPerDay child * Child.daysPerWeek child * 2).
  intros sph ceiling hpf Hs0 Hs1 Hc Hpf.
  minmax_cases; repeat split; nra.
Qed.

(** ** Aggregate costs *)

Lemma fold_left_plus_sum {A : Type} (f : A -> Q) (l : list A) :
  forall acc, fold_left (fun a x => a + f x) l acc == acc + sumQ (map f l).
Proof.
  induction l as [| x l IH]; intro acc; simpl.
  - lra.
  - rewrite IH. lra.
Qed.

Lemma sumQ_nonneg (l : list Q) : Forall (fun q => 0 <= q) l -> 0 <= sumQ l.
Proof.
  induction 1 as [| q l Hq _ IH]; simpl; lra.
Qed.

Lemma sumQ_le {A : Type} (f g : A -> Q) (l : list A) :
  Forall (fun x => f x <= g x) l -> sumQ (map f l) <= sumQ (map g l).
Proof.
  induction 1 as [| x l Hx _ IH]; simpl; lra.
Qed.

Lemma sumQ_minus {A : Type} (f g : A -> Q) (l : list A) :
  sumQ (map (fun x => f x - g x) l) == sumQ (map f l) - sumQ (map g l).
Proof.
  induction l as [| x l IH]; simpl; [lra | rewrite IH; lra].
Qed.

(** X11: the three totals are the sums of the per-child amounts, and there
    is one detail record per child. *)
Theorem totals_are_sums (children : list Child.t) (income h : Q) :
  TotalCosts.totalChildcareSubsidy (calculateTotalCosts children income h)
  == sumQ (map ChildDetail.subsidyAmount
             (TotalCosts.childDetails (calculateTotalCosts children income h)))
  /\ TotalCosts.totalChildcareCost (calculateTotalCosts children income h)
     == sumQ (map ChildDetail.totalCost
                (TotalCosts.childDetails (calculateTotalCosts children income h)))
  /\ TotalCosts.totalChildcareOutOfPocket (calculateTotalCosts children income h)
     == sumQ (map ChildDetail.outOfPocket
                (TotalCosts.childDetails (calculateTotalCosts children income h)))
  /\ length (TotalCosts.childDetails (calculateTotalCosts children income h))
     = length children.
Proof.
  unfold calculateTotalCosts.
  cbn [TotalCosts.totalChildcareSubsidy TotalCosts.totalChildcareCost
       TotalCosts.totalChildcareOutOfPocket TotalCosts.childDetails].
  rewrite !fold_left_plus_sum, !map_map.
  repeat split; try lra.
  - change (fun x => ChildDetail.outOfPocket (childDetail income h x))
      with (fun x => ChildDetail.totalCost (childDetail income h x)
                     - ChildDetail.subsidyAmount (childDetail income h x)).
    rewrite (sumQ_minus (fun x => ChildDetail.totalCost (childDetail income h x))
               (fun x => ChildDetail.subsidyAmount (childDetail income h x))).
    lra.
  - apply length_map.
Qed.

Lemma total_subsidy_between (children : list Child.t) (income h : Q) :
  Forall nonNegativeChild children ->
  0 <= TotalCosts.totalChildcareSubsidy (calculateTotalCosts children income h)
  /\ TotalCosts.totalChildcareSubsidy (calculateTotalCosts children income h)
     <= TotalCosts.totalChildcareCost (calculateTotalCosts children income h).
Proof.
  intro Hall. unfold calculateTotalCosts.
  cbn [TotalCosts.totalChildcareSubsidy TotalCosts.totalChildcareCost].
  rewrite !fold_left_plus_sum, !map_map. split.
  - assert (0 <= sumQ (map (fun x => ChildDetail.subsidyAmount (childDetail income h x))
                         children)); [| lra].
    apply sumQ_nonneg. apply Forall_map.
    eapply Forall_impl; [| exact Hall]. intros c Hc.
    now destruct (child_cost_bounds c income h Hc) as [_ [_ [_ [H _]]]].
  - assert (sumQ (map (fun x => ChildDetail.subsidyAmount (childDetail income h x)) children)
            <= sumQ (map (fun x => ChildDetail.totalCost (childDetail income h x)) children));
      [| lra].
    apply sumQ_le. eapply Forall_impl; [| exact Hall]. intros c Hc.
    now destruct (child_cost_bounds c income h Hc) as [_ [_ [_ [_ [H _]]]]].
Qed.

Lemma total_out_of_pocket_nonneg (children : list Child.t) (income h : Q) :
  Forall nonNegativeChild children ->
  0 <= TotalCosts.totalChildcareOutOfPocket (calculateTotalCosts children income h).
Proof.
  intro Hall. destruct (total_subsidy_between children income h Hall) as [Hs0 Hs1].
  change (TotalCosts.totalChildcareOutOfPocket (calculateTotalCosts children income h))
    with (TotalCosts.totalChildcareCost (calculateTotalCosts children income h)
          - TotalCosts.totalChildcareSubsidy (calculateTotalCosts children income h)).
  lra.
Qed.

(** X10: when no child has negative hours, days or rate, the subsidy of
    every child and in total lies between 0 and the cost, so nobody's
    out-of-pocket amount is negative or above the full cost. *)
Theorem subsidy_never_exceeds_cost (children : list Child.t) (income h : Q) :
  Forall nonNegativeChild children ->
  0 <= TotalCosts.totalChildcareSubsidy (calculateTotalCosts children income h)
  /\ TotalCosts.totalChildcareSubsidy (calculateTotalCosts children income h)
     <= TotalCosts.totalChildcareCost (calculateTotalCosts children income h)
  /\ 0 <= TotalCosts.totalChildcareOutOfPocket (calculateTotalCosts children income h)
  /\ TotalCosts.totalChildcareOutOfPocket (calculateTotalCosts children income h)
     <= TotalCosts.totalChildcareCost (calculateTotalCosts children income h)
  /\ Forall (fun d => 0 <= ChildDetail.subsidyAmount d
                      /\ ChildDetail.subsidyAmount d <= ChildDetail.totalCost d
                      /\ 0 <= ChildDetail.outOfPocket d
                      /\ ChildDetail.outOfPocket d <= ChildDetail.totalCost d)
       (TotalCosts.childDetails (calculateTotalCosts children income h)).
Proof.
  intro Hall.
  destruct (total_subsidy_between children income h Hall) as [Hs0 Hs1].
  assert (Eo : TotalCosts.totalChildcareOutOfPocket (calculateTotalCosts children income h)
               = TotalCosts.totalChildcareCost (calculateTotalCosts children income h)
                 - TotalCosts.totalChildcareSubsidy (calculateTotalCosts children income h))
    by reflexivity.
  rewrite Eo. repeat split; try lra.
  unfold calculateTotalCosts. cbn [TotalCosts.childDetails].
  apply Forall_map. eapply Forall_impl; [| exact Hall]. intros c Hc.
  destruct (child_cost_bounds c income h Hc) as [_ [_ [_ [H1 [H2 [H3 H4]]]]]].
  repeat split; assumption.
Qed.

Lemma js_div_finite (a b : Q) : ~ b == 0 -> js_div a b = Fin (a / b).
Proof.
  intro Hb. unfold js_div. destruct (eqb_reflect b 0); [contradiction | reflexivity].
Qed.

(** X12: the per-day cost is always a finite number: it is 0 when the
    children's days per week sum to nothing (no children, or no days), and
    otherwise the out-of-pocket total divided by twice that sum. *)
Theorem childcare_per_day_is_guarded (children : list Child.t) (income h : Q) :
  isFinite (TotalCosts.childcarePerDay (calculateTotalCosts children income h)) = true
  /\ (sumQ (map Child.daysPerWeek children) <= 0 ->
      TotalCosts.childcarePerDay (calculateTotalCosts children income h) = Fin 0)
  /\ (0 < sumQ (map Child.daysPerWeek children) ->
      exists perDay,
        TotalCosts.childcarePerDay (calculateTotalCosts children income h) = Fin perDay
        /\ perDay * (2 * sumQ (map Child.daysPerWeek children))
           == TotalCosts.totalChildcareOutOfPocket (calculateTotalCosts children income h)).
Proof.
  assert (Ed : fold_left (fun sum child => sum + Child.daysPerWeek child * 2) children 0
               == 2 * sumQ (map Child.daysPerWeek children)).
  { rewrite (fold_left_plus_sum (fun child => Child.daysPerWeek child * 2)).
    induction children as [| c l IH]; simpl; [lra |]. simpl in IH. lra. }
  change (TotalCosts.childcarePerDay (calculateTotalCosts children income h))
    with (perDay (TotalCosts.totalChildcareOutOfPocket (calculateTotalCosts children income h))
            (fold_left (fun sum child => sum + Child.daysPerWeek child * 2) children 0)).
  revert Ed.
  generalize (fold_left (fun sum child => sum + Child.daysPerWeek child * 2) children 0)
             (TotalCosts.totalChildcareOutOfPocket (calculateTotalCosts children income h)).
  intros days outOfPocket Ed. unfold perDay, gtb.
  destruct (ltb_reflect 0 days) as [Hpos | Hnpos].
  - rewrite js_div_finite by lra. split; [reflexivity |]. split; [intro; lra |].
    intros _. eexists. split; [reflexivity |]. rewrite <- Ed. field. lra.
  - split; [reflexivity |]. split; [reflexivity |]. intro. lra.
Qed.

(** ** Scenario evaluation *)

Lemma mapi_from_children {B : Type} (cd : Child.t -> ChildDetail.t)
    (g : ChildDetail.t -> option Child.t -> B) (l : list Child.t) :
  forall pre : list Child.t,
    mapi_from (fun detail index => g detail (nth_error (pre ++ l) index))
      (length pre) (map cd l)
    = map (fun child => g (cd child) (Some child)) l.
Proof.
  induction l as [| c l IH]; intro pre; [reflexivity |].
  cbn [map mapi_from]. f_equal.
  - rewrite nth_error_app2 by lia. now rewrite Nat.sub_diag.
  - specialize (IH (pre ++ [c])).
    rewrite <- app_assoc, length_app, Nat.add_1_r in IH. exact IH.
Qed.

(** X15: the breakdown lists one record per child, in order: the lookup of
    the child by index never falls back, so each record carries its child's
    second-or-later flag, and its out-of-pocket amount is 26 times the
    fortnightly one. *)
Theorem breakdown_follows_children (scenario : SecondParentScenario.t) :
  map ChildBreakdown.isSecondOrLater
    (ChildcareCosts.childDetails
       (FinancialBreakdown.childcareCosts (calculateSecondParentScenario scenario)))
  = map Child.isSecondOrLater (SecondParentScenario.children scenario)
  /\ map ChildBreakdown.outOfPocket
       (ChildcareCosts.childDetails
          (FinancialBreakdown.childcareCosts (calculateSecondParentScenario scenario)))
     = map (fun d => ChildDetail.outOfPocket d * 26)
         (TotalCosts.childDetails
            (calculateTotalCosts (SecondParentScenario.children scenario)
               (SecondParentScenario.firstParentIncome scenario
                + SecondParentScenario.secondParentIncome scenario)
               (SecondParentScenario.activityHoursPerFortnight scenario))).
Proof.
  unfold calculateSecondParentScenario.
  cbn [FinancialBreakdown.childcareCosts ChildcareCosts.childDetails].
  unfold calculateTotalCosts. cbn [TotalCosts.childDetails].
  set (cd := childDetail _ _).
  pose proof (fun B g => @mapi_from_children B cd g
                (SecondParentScenario.children scenario) []) as H.
  cbn [app length] in H.
  split.
  - rewrite (H _ (fun detail child =>
        {| ChildBreakdown.subsidyPercent := ChildDetail.subsidyPercent detail;
           ChildBreakdown.subsidyAmount := ChildDetail.subsidyAmount detail * 26;
           ChildBreakdown.totalCost := ChildDetail.totalCost detail * 26;
           ChildBreakdown.outOfPocket := ChildDetail.outOfPocket detail * 26;
           ChildBreakdown.isSecondOrLater :=
             match child with
             | Some child => Child.isSecondOrLater child || false
             | None => false
             end;
           ChildBreakdown.subsidisedHours := ChildDetail.subsidisedHours detail;
           ChildBreakdown.unsubsidisedHours := ChildDetail.unsubsidisedHours detail;
           ChildBreakdown.hoursPerDay := ChildDetail.hoursPerDay detail;
           ChildBreakdown.daysPerWeek := ChildDetail.daysPerWeek detail |})).
    rewrite map_map. apply map_ext. intro c. cbn. apply orb_false_r.
  - rewrite (H _ (fun detail child =>
        {| ChildBreakdown.subsidyPercent := ChildDetail.subsidyPercent detail;
           ChildBreakdown.subsidyAmount := ChildDetail.subsidyAmount detail * 26;
           ChildBreakdown.totalCost := ChildDetail.totalCost detail * 26;
           ChildBreakdown.outOfPocket := ChildDetail.outOfPocket detail * 26;
           ChildBreakdown.isSecondOrLater :=
             match child with
             | Some child => Child.isSecondOrLater child || false
             | None => false
             end;
           ChildBreakdown.subsidisedHours := ChildDetail.subsidisedHours detail;
           ChildBreakdown.unsubsidisedHours := ChildDetail.unsubsidisedHours detail;
           ChildBreakdown.hoursPerDay := ChildDetail.hoursPerDay detail;
           ChildBreakdown.daysPerWeek := ChildDetail.daysPerWeek detail |})).
    rewrite !map_map. reflexivity.
Qed.

(** X13: for a positive second-parent income and children without negative
    hours, days or rate, net income after childcare is at most the after-tax
    income, which is at most the gross income, and the percentage of income
    lost is a finite, non-negative number: the loss over the income, times
    100. *)
Theorem scenario_income_ordering (scenario : SecondParentScenario.t) :
  0 < SecondParentScenario.secondParentIncome scenario ->
  Forall nonNegativeChild (SecondParentScenario.children scenario) ->
  FinancialBreakdown.netIncomeAfterChildcare (calculateSecondParentScenario scenario)
  <= FinancialBreakdown.secondParentAfterTax (calculateSecondParentScenario scenario)
  /\ FinancialBreakdown.secondParentAfterTax (calculateSecondParentScenario scenario)
     <= FinancialBreakdown.secondParentGrossIncome (calculateSecondParentScenario scenario)
  /\ exists lost : Q,
       FinancialBreakdown.percentageOfIncomeLost (calculateSecondParentScenario scenario)
       = Fin lost
       /\ 0 <= lost
       /\ lost * SecondParentScenario.secondParentIncome scenario
          == (SecondParentScenario.secondParentIncome scenario
              - FinancialBreakdown.netIncomeAfterChildcare
                  (calculateSecondParentScenario scenario)) * 100.
Proof.
  intros Hinc Hch.
  unfold calculateSecondParentScenario.
  cbn [FinancialBreakdown.netIncomeAfterChildcare FinancialBreakdown.secondParentAfterTax
       FinancialBreakdown.secondParentGrossIncome FinancialBreakdown.percentageOfIncomeLost].
  destruct (after_tax_bounds (SecondParentScenario.secondParentIncome scenario))
    as [_ Hat]; [lra |].
  pose proof (total_out_of_pocket_nonneg (SecondParentScenario.children scenario)
                (SecondParentScenario.firstParentIncome scenario
                 + SecondParentScenario.secondParentIncome scenario)
                (SecondParentScenario.activityHoursPerFortnight scenario) Hch) as Hoop.
  revert Hinc Hat Hoop.
  generalize (calculateAfterTaxIncome (SecondParentScenario.secondParentIncome scenario))
             (TotalCosts.totalChildcareOutOfPocket
                (calculateTotalCosts (SecondParentScenario.children scenario)
                   (SecondParentScenario.firstParentIncome scenario
                    + SecondParentScenario.secondParentIncome scenario)
                   (SecondParentScenario.activityHoursPerFortnight scenario)))
             (SecondParentScenario.secondParentIncome scenario).
  intros afterTax oop income Hinc Hat Hoop.
  split; [lra |]. split; [lra |].
  rewrite js_div_finite by lra. cbn [js_mul].
  eexists. split; [reflexivity |]. split.
  - apply Qmult_le_0_compat; [| lra]. apply Qle_shift_div_l; lra.
  - field. lra.
Qed.

(** X14: with positive hours for the rate (the hours worked when supplied,
    else the activity hours) the effective hourly rate is finite, and times
    the 26 fortnights of those hours it gives back the net income after
    childcare. *)
Theorem effective_hourly_rate_is_net_per_hour (scenario : SecondParentScenario.t) :
  0 < hoursForRate scenario ->
  exists rate : Q,
    FinancialBreakdown.effectiveHourlyRate (calculateSecondParentScenario scenario)
    = Fin rate
    /\ rate * (hoursForRate scenario * 26)
       == FinancialBreakdown.netIncomeAfterChildcare (calculateSecondParentScenario scenario).
Proof.
  intro Hh. unfold calculateSecondParentScenario.
  cbn [FinancialBreakdown.effectiveHourlyRate FinancialBreakdown.netIncomeAfterChildcare].
  fold (hoursForRate scenario). unfold gtb.
  destruct (ltb_reflect 0 (hoursForRate scenario * 26)) as [Hpos | Hn]; [| lra].
  rewrite js_div_finite by lra. eexists. split; [reflexivity |]. field. lra.
Qed.

(** ** Income sweep: degenerate ranges *)

Lemma graphLoop_never_ends (point : Q -> GraphDataPoint.t) (maxIncome step : Q) :
  step <= 0 ->
  forall (fuel : nat) (x : Q) (dataPoints : list GraphDataPoint.t),
    x <= maxIncome -> graphLoop fuel point maxIncome step x dataPoints = None.
Proof.
  intro Hstep. induction fuel as [| fuel IH]; intros x dataPoints Hx; [reflexivity |].
  simpl. destruct (leb_reflect x maxIncome); [| contradiction].
  apply IH. lra.
Qed.

(** X16: a sweep whose upper bound is below its lower bound returns no
    sample, whatever the step; a sweep over a proper range with a step that
    is zero or negative never leaves its loop. *)
Theorem income_sweep_degenerate
    (firstParentIncome : Q) (children : list Child.t) (activityHoursPerFortnight : Q)
    (minIncome maxIncome step : Q) (isSingleParent : bool) :
  (maxIncome < minIncome ->
   forall fuel,
     calculateGraphData (S fuel) firstParentIncome children activityHoursPerFortnight
       minIncome maxIncome step isSingleParent = Some [])
  /\ (minIncome <= maxIncome -> step <= 0 ->
      forall fuel,
        calculateGraphData fuel firstParentIncome children activityHoursPerFortnight
          minIncome maxIncome step isSingleParent = None).
Proof.
  split.
  - intros H fuel. unfold calculateGraphData. simpl.
    destruct (leb_reflect minIncome maxIncome); [lra | reflexivity].
  - intros Hle Hstep fuel. unfold calculateGraphData.
    now apply graphLoop_never_ends.
Qed.

(** ** Break-even point: what a returned point is *)

Lemma breakEvenBetween_on_chord (current next : GraphDataPoint.t) :
  crosses current next ->
  let ratio :=
    Qabs (GraphDataPoint.netIncome current)
    / (Qabs (GraphDataPoint.netIncome current) + Qabs (GraphDataPoint.netIncome next)) in
  0 <= ratio /\ ratio <= 1
  /\ GraphDataPoint.netIncome current
     + (GraphDataPoint.netIncome next - GraphDataPoint.netIncome current) * ratio == 0
  /\ (GraphDataPoint.grossIncome current <= GraphDataPoint.grossIncome next ->
      GraphDataPoint.grossIncome current
      <= BreakEvenPoint.income (breakEvenBetween current next)
      /\ BreakEvenPoint.income (breakEvenBetween current next)
         <= GraphDataPoint.grossIncome next).
Proof.
  intros Hc ratio.
  pose proof (crosses_ratio_defined current next Hc) as Hden.
  unfold Math_abs in Hden.
  assert (Hr : ratio * (Qabs (GraphDataPoint.netIncome current)
                        + Qabs (GraphDataPoint.netIncome next))
               == Qabs (GraphDataPoint.netIncome current)).
  { unfold ratio. field. lra. }
  unfold breakEvenBetween, Math_abs; cbn [BreakEvenPoint.income]. fold ratio.
  pose proof (Qabs_nonneg (GraphDataPoint.netIncome current)) as Hc0.
  pose proof (Qabs_nonneg (GraphDataPoint.netIncome next)) as Hn0.
  assert (Habs : (Qabs (GraphDataPoint.netIncome current) == GraphDataPoint.netIncome current
                  /\ Qabs (GraphDataPoint.netIncome next) == - GraphDataPoint.netIncome next)
                 \/ (Qabs (GraphDataPoint.netIncome current)
                     == - GraphDataPoint.netIncome current
                     /\ Qabs (GraphDataPoint.netIncome next)
                        == GraphDataPoint.netIncome next)).
  { destruct Hc as [[H1 H2] | [H1 H2]]; [left | right]; split;
      first [apply Qabs_pos; lra | apply Qabs_neg; lra]. }
  revert Hden Hr Hc0 Hn0 Habs. clearbody ratio.
  generalize (Qabs (GraphDataPoint.netIncome current))
             (Qabs (GraphDataPoint.netIncome next))
             (GraphDataPoint.netIncome current) (GraphDataPoint.netIncome next)
             (GraphDataPoint.grossIncome current) (GraphDataPoint.grossIncome next).
  intros ac an c n xc xn Hden Hr Hc0 Hn0 Habs.
  assert (H0 : 0 <= ratio) by nra.
  assert (H1 : ratio <= 1) by nra.
  repeat split; try assumption.
  - destruct Habs as [[E1 E2] | [E1 E2]]; nra.
  - nra.
  - nra.
Qed.

Lemma findBreakEvenPoint_sound (l : list GraphDataPoint.t) (p : BreakEvenPoint.t) :
  findBreakEvenPoint l = Some p ->
  exists current next,
    In (current, next) (adjacentPairs l)
    /\ crosses current next
    /\ p = breakEvenBetween current next.
Proof.
  induction l as [| current l IH]; [discriminate |].
  destruct l as [| next rest]; [discriminate |].
  change (adjacentPairs (current :: next :: rest))
    with ((current, next) :: adjacentPairs (next :: rest)).
  destruct (crosses_dec current next) as [Hc | Hnc].
  - rewrite (findBreakEvenPoint_cross _ _ _ Hc). intro E. injection E as <-.
    exists current, next. repeat split; [now left | exact Hc].
  - rewrite (findBreakEvenPoint_skip _ _ _ Hnc). intro E.
    destruct (IH E) as [c [n [Hin [Hc Hp]]]].
    exists c, n. repeat split; [now right | exact Hc | exact Hp].
Qed.

(** ** Days per week from hours *)

Lemma days_per_week_rounding (hoursPerWeek : Q) :
  (exists tenths : Z, calculateDaysPerWeekFromHours hoursPerWeek * 10 == inject_Z tenths)
  /\ hoursPerWeek / 7.6 - 0.05 <= calculateDaysPerWeekFromHours hoursPerWeek
  /\ calculateDaysPerWeekFromHours hoursPerWeek <= hoursPerWeek / 7.6 + 0.05.
Proof.
  unfold calculateDaysPerWeekFromHours, Math_round.
  pose proof (Qfloor_le (hoursPerWeek / 7.6 * 10 + (1 # 2))) as Hlo.
  pose proof (Qlt_floor (hoursPerWeek / 7.6 * 10 + (1 # 2))) as Hhi.
  rewrite inject_Z_plus in Hhi. change (inject_Z 1) with 1 in Hhi.
  split.
  - exists (Qfloor (hoursPerWeek / 7.6 * 10 + (1 # 2))). field.
  - revert Hlo Hhi.
    generalize (inject_Z (Qfloor (hoursPerWeek / 7.6 * 10 + (1 # 2)))).
    generalize (hoursPerWeek / 7.6).
    intros e f Hlo Hhi.
    assert (E : f / 10 * 10 == f) by field.
    revert E. generalize (f / 10). intros r E. split; lra.
Qed.

Lemma days_per_week_monotone (hours1 hours2 : Q) :
  hours1 <= hours2 ->
  calculateDaysPerWeekFromHours hours1 <= calculateDaysPerWeekFromHours hours2.
Proof.
  intro H. unfold calculateDaysPerWeekFromHours, Math_round.
  apply Qdiv_le_compat; [reflexivity |].
  rewrite <- Zle_Qle. apply Qfloor_resp_le.
  assert (hours1 / 7.6 <= hours2 / 7.6) by (apply Qdiv_le_compat; [reflexivity | exact H]).
  lra.
Qed.

(** ** Break-even hours: what a returned point is *)

Lemma breakEvenRatio_bounds (current next : HoursGraphDataPoint.t) :
  risesThroughZero current next ->
  0 <= breakEvenRatio current next /\ breakEvenRatio current next < 1
  /\ HoursGraphDataPoint.netIncome current
     + (HoursGraphDataPoint.netIncome next - HoursGraphDataPoint.netIncome current)
       * breakEvenRatio current next == 0.
Proof.
  intros [Hc Hn]. unfold breakEvenRatio, Math_abs.
  rewrite (Qabs_neg _ Hc).
  assert (Hr : - HoursGraphDataPoint.netIncome current
               / (- HoursGraphDataPoint.netIncome current + HoursGraphDataPoint.netIncome next)
               * (- HoursGraphDataPoint.netIncome current + HoursGraphDataPoint.netIncome next)
               == - HoursGraphDataPoint.netIncome current) by (field; lra).
  revert Hr.
  generalize (- HoursGraphDataPoint.netIncome current
              / (- HoursGraphDataPoint.netIncome current
                 + HoursGraphDataPoint.netIncome next)).
  revert Hc Hn.
  generalize (HoursGraphDataPoint.netIncome current) (HoursGraphDataPoint.netIncome next).
  intros c n Hc Hn r Hr.
  assert (0 <= r) by nra. assert (r < 1) by nra.
  repeat split; try assumption. nra.
Qed.

Lemma findBreakEvenHours_sound (l : list HoursGraphDataPoint.t) (p : HoursGraphDataPoint.t) :
  findBreakEvenHours l = Some p ->
  exists current next,
    In (current, next) (adjacentPairs l)
    /\ risesThroughZero current next
    /\ p = breakEvenPointBetween current next
    /\ 0.5 <= HoursGraphDataPoint.hoursPerWeek p
    /\ HoursGraphDataPoint.netIncome p = 0.
Proof.
  induction l as [| current l IH]; [discriminate |].
  destruct l as [| next rest]; [discriminate |].
  change (adjacentPairs (current :: next :: rest))
    with ((current, next) :: adjacentPairs (next :: rest)).
  destruct (risesThroughZero_reflect current next) as [Hc | Hnc].
  - rewrite (findBreakEvenHours_rise _ _ _ Hc).
    destruct (ltb_reflect (breakEvenHoursBetween current next) 0.5) as [Hlow | Hok];
      [discriminate |].
    intro E. injection E as <-.
    exists current, next. repeat split; [now left | apply Hc | apply Hc |].
    cbn [breakEvenPointBetween HoursGraphDataPoint.hoursPerWeek]. lra.
  - rewrite (findBreakEvenHours_skip _ _ _ Hnc). intro E.
    destruct (IH E) as [c [n [Hin H]]].
    exists c, n. split; [now right | exact H].
Qed.

(** ** Maximum of an hours sweep *)

Lemma gtb_reflect (a b : Q) : reflect (b < a) (gtb a b).
Proof. unfold gtb. apply ltb_reflect. Qed.

Lemma fold_max_spec (rest : list HoursGraphDataPoint.t) :
  forall first : HoursGraphDataPoint.t,
    let best :=
      fold_left
        (fun max current =>
           if gtb (HoursGraphDataPoint.netIncome current) (HoursGraphDataPoint.netIncome max)
           then current else max)
        rest first in
    HoursGraphDataPoint.netIncome first <= HoursGraphDataPoint.netIncome best
    /\ Forall (fun q => HoursGraphDataPoint.netIncome q <= HoursGraphDataPoint.netIncome best)
         rest
    /\ exists pre post,
         first :: rest = pre ++ best :: post
         /\ Forall (fun q => HoursGraphDataPoint.netIncome q
                             < HoursGraphDataPoint.netIncome best) pre.
Proof.
  induction rest as [| x rest IH]; intro first; cbn zeta.
  - simpl. repeat split; [lra | constructor |].
    exists [], []. split; [reflexivity | constructor].
  - cbn [fold_left].
    destruct (gtb_reflect (HoursGraphDataPoint.netIncome x)
                (HoursGraphDataPoint.netIncome first)) as [Hlt | Hge].
    + specialize (IH x). cbn zeta in IH. destruct IH as [H1 [H2 [pre [post [E Hpre]]]]].
      repeat split.
      * lra.
      * constructor; assumption.
      * exists (first :: pre), post. split; [now rewrite E |].
        constructor; [lra | exact Hpre].
    + specialize (IH first). cbn zeta in IH. destruct IH as [H1 [H2 [pre [post [E Hpre]]]]].
      repeat split.
      * exact H1.
      * constructor; [lra | exact H2].
      * destruct pre as [| a pre].
        -- injection E as E1 E2. exists [], (x :: post).
           split; [now rewrite <- E1, E2 | constructor].
        -- injection E as E1 E2. subst a.
           inversion Hpre as [| ? ? Ha Hpre']; subst.
           exists (first :: x :: pre), post.
           split; [cbn [app]; do 2 f_equal; exact E2 |].
           constructor; [exact Ha |]. constructor; [lra | exact Hpre'].
Qed.

(** ** Hours sweep *)

Lemma hoursLoop_run (point : Q -> HoursGraphDataPoint.t) (maxHoursForGraph : Q) :
  forall (n fuel : nat) (x : Q) (dataPoints : list HoursGraphDataPoint.t),
    (n < fuel)%nat ->
    maxHoursForGraph < x + inject_Z (Z.of_nat n) * 0.5 ->
    (forall m, n = S m -> x + inject_Z (Z.of_nat m) * 0.5 <= maxHoursForGraph) ->
    hoursLoop fuel point maxHoursForGraph x dataPoints
    = Some (dataPoints ++ hoursSamplesFrom point x n).
Proof.
  induction n as [| n IH]; intros fuel x dataPoints Hfuel Hpast Hlast.
  - destruct fuel as [| fuel]; [lia |]. simpl.
    destruct (leb_reflect x maxHoursForGraph) as [Hle | _].
    + change (inject_Z (Z.of_nat 0)) with 0 in Hpast. lra.
    + now rewrite app_nil_r.
  - destruct fuel as [| fuel]; [lia |]. simpl.
    pose proof (Hlast n eq_refl) as Hn.
    pose proof (inject_nat_nonneg n) as Hn0.
    destruct (leb_reflect x maxHoursForGraph) as [_ | Hgt].
    + rewrite (IH fuel (x + 0.5) (dataPoints ++ [point x])).
      * now rewrite <- app_assoc.
      * lia.
      * rewrite inject_nat_succ in Hpast. lra.
      * intros m ->. rewrite inject_nat_succ in Hn. lra.
    + exfalso. apply Hgt. lra.
Qed.

Lemma hoursSamplesFrom_length (point : Q -> HoursGraphDataPoint.t) (n : nat) :
  forall x, length (hoursSamplesFrom point x n) = n.
Proof. induction n as [| n IH]; intro x; simpl; [reflexivity | now rewrite IH]. Qed.

Lemma hoursSamplesFrom_nth (point : Q -> HoursGraphDataPoint.t) (n : nat) :
  forall (x : Q) (i : nat) (p : HoursGraphDataPoint.t),
    nth_error (hoursSamplesFrom point x n) i = Some p ->
    exists y, p = point y /\ y == x + inject_Z (Z.of_nat i) * 0.5.
Proof.
  induction n as [| n IH]; intros x i p H.
  - destruct i; discriminate H.
  - destruct i as [| i]; simpl in H.
    + injection H as <-. exists x. split; [reflexivity |].
      change (inject_Z (Z.of_nat 0)) with 0. lra.
    + destruct (IH _ _ _ H) as [y [Hp Hy]]. exists y. split; [exact Hp |].
      rewrite inject_nat_succ. lra.
Qed.

Lemma hours_sweep_runs (point : Q -> HoursGraphDataPoint.t) (maxHoursForGraph : Q) :
  forall fuel,
    (hoursSampleCount maxHoursForGraph < fuel)%nat ->
    hoursLoop fuel point maxHoursForGraph 0 []
    = Some (hoursSamplesFrom point 0 (hoursSampleCount maxHoursForGraph)).
Proof.
  intros fuel Hfuel. unfold hoursSampleCount in *.
  destruct (ltb_reflect maxHoursForGraph 0) as [Hneg | Hpos].
  - rewrite (hoursLoop_run point maxHoursForGraph 0 fuel 0 []).
    + reflexivity.
    + exact Hfuel.
    + change (inject_Z (Z.of_nat 0)) with 0. lra.
    + discriminate.
  - remember (maxHoursForGraph / 0.5) as r eqn:Er.
    assert (Hr : r * 0.5 == maxHoursForGraph) by (rewrite Er; field).
    assert (Hr0 : 0 <= r) by lra.
    pose proof (Qfloor_le r) as Hlo. pose proof (Qlt_floor r) as Hhi.
    rewrite inject_Z_plus in Hhi. change (inject_Z 1) with 1 in Hhi.
    assert (Hk : (0 <= Qfloor r)%Z).
    { change 0%Z with (Qfloor 0). now apply Qfloor_resp_le. }
    assert (Hnat : inject_Z (Z.of_nat (Z.to_nat (Qfloor r))) = inject_Z (Qfloor r)).
    { now rewrite Z2Nat.id. }
    rewrite (hoursLoop_run point maxHoursForGraph (S (Z.to_nat (Qfloor r))) fuel 0 []).
    + reflexivity.
    + exact Hfuel.
    + rewrite inject_nat_succ, Hnat. lra.
    + intros m Hm. injection Hm as <-. rewrite Hnat. lra.
Qed.

Lemma sumQ_zero {A : Type} (f : A -> Q) (l : list A) :
  Forall (fun x => f x == 0) l -> sumQ (map f l) == 0.
Proof. induction 1 as [| x l Hx _ IH]; simpl; lra. Qed.

(** With no days of care a child costs nothing, whatever the ceiling. *)
Lemma work_days_costs_zero_days (children : list Child.t) (income ceiling days : Q) :
  days == 0 -> 0 <= ceiling ->
  TotalCosts.totalChildcareOutOfPocket
    (calculateTotalCostsWithWorkDays
       (map (fun child =>
               {| Child.age := Child.age child;
                  Child.hoursPerDay := Child.hoursPerDay child;
                  Child.daysPerWeek := days;
                  Child.hourlyRate := Child.hourlyRate child;
                  Child.isSecondOrLater := Child.isSecondOrLater child |})
          children)
       income ceiling) == 0.
Proof.
  intros Hd Hc. unfold calculateTotalCostsWithWorkDays.
  cbn [TotalCosts.totalChildcareOutOfPocket].
  rewrite !fold_left_plus_sum, !map_map.
  rewrite (sumQ_zero (fun x => ChildDetail.totalCost _)).
  - rewrite (sumQ_zero (fun x => ChildDetail.subsidyAmount _)); [lra |].
    apply Forall_forall. intros c _.
    unfold childDetailWithWorkDays; cbn [ChildDetail.subsidyAmount Child.hoursPerDay
      Child.daysPerWeek].
    assert (E : Child.hoursPerDay c * days * 2 == 0) by (rewrite Hd; lra).
    revert E. generalize (Child.hoursPerDay c * days * 2). intros hpf E.
    generalize (ChildSubsidy.subsidyPerHour
                  (calculateChildSubsidy
                     {| Child.age := Child.age c; Child.hoursPerDay := Child.hoursPerDay c;
                        Child.daysPerWeek := days; Child.hourlyRate := Child.hourlyRate c;
                        Child.isSecondOrLater := Child.isSecondOrLater c |} income 0)).
    intro sph. minmax_cases;
      match goal with
      | |- ?m * _ == 0 => assert (Em : m == 0) by lra; rewrite Em; lra
      end.
  - apply Forall_forall. intros c _.
    unfold childDetailWithWorkDays; cbn [ChildDetail.totalCost Child.hoursPerDay
      Child.daysPerWeek Child.hourlyRate].
    rewrite Hd. lra.
Qed.

Lemma hours_point_at_zero (hourlyRate firstParentIncome : Q) (children : list Child.t)
    (familyType : FamilyType) :
  let p := hoursGraphPoint hourlyRate firstParentIncome children familyType 0 in
  HoursGraphDataPoint.hoursPerWeek p = 0
  /\ HoursGraphDataPoint.daysPerWeek p == 0
  /\ HoursGraphDataPoint.grossIncome p == 0
  /\ HoursGraphDataPoint.afterTax p == 0
  /\ HoursGraphDataPoint.childcareCost p == 0
  /\ HoursGraphDataPoint.netIncome p == 0.
Proof.
  cbn zeta. unfold hoursGraphPoint.
  cbn [HoursGraphDataPoint.hoursPerWeek HoursGraphDataPoint.daysPerWeek
       HoursGraphDataPoint.grossIncome HoursGraphDataPoint.afterTax
       HoursGraphDataPoint.childcareCost HoursGraphDataPoint.netIncome].
  assert (Ed : calculateDaysPerWeekFromHours 0 == 0) by reflexivity.
  assert (Eg : hourlyRate * 0 * 52 == 0) by lra.
  assert (Ea : calculateAfterTaxIncome (hourlyRate * 0 * 52) == 0).
  { destruct (after_tax_bounds (hourlyRate * 0 * 52)); lra. }
  assert (Ec : TotalCosts.totalChildcareOutOfPocket
                 (calculateTotalCostsWithWorkDays
                    (map (fun child =>
                            {| Child.age := Child.age child;
                               Child.hoursPerDay := Child.hoursPerDay child;
                               Child.daysPerWeek := calculateDaysPerWeekFromHours 0;
                               Child.hourlyRate := Child.hourlyRate child;
                               Child.isSecondOrLater := Child.isSecondOrLater child |})
                       children)
                    match familyType with
                    | two_parent => firstParentIncome + hourlyRate * 0 * 52
                    | single_parent => hourlyRate * 0 * 52
                    end
                    (Math_min
                       (Math_max (calculateDaysPerWeekFromHours 0 * 22) MIN_SUBSIDISED_HOURS)
                       MAX_SUBSIDISED_HOURS)) == 0).
  { apply work_days_costs_zero_days; [exact Ed | discriminate]. }
  repeat split; try assumption; try reflexivity.
  - rewrite Ec. lra.
  - rewrite Ea, Ec. lra.
Qed.

(** A first sample at no hours and no net income hides every break-even
    once the second sample is in profit. *)
Lemma findBreakEvenHours_starts_at_zero (first second : HoursGraphDataPoint.t)
    (rest : list HoursGraphDataPoint.t) :
  HoursGraphDataPoint.hoursPerWeek first == 0 ->
  HoursGraphDataPoint.netIncome first == 0 ->
  0 < HoursGraphDataPoint.netIncome second ->
  findBreakEvenHours (first :: second :: rest) = None.
Proof.
  intros Hh Hn Hs.
  rewrite findBreakEvenHours_rise by (split; lra).
  destruct (ltb_reflect (breakEvenHoursBetween first second) 0.5) as [_ | Hge];
    [reflexivity |].
  exfalso. apply Hge. unfold breakEvenHoursBetween, breakEvenRatio, Math_abs.
  rewrite Hn, Hh. change (Qabs 0) with 0.
  assert (E : 0 / (0 + HoursGraphDataPoint.netIncome second) == 0) by (field; lra).
  rewrite E. lra.
Qed.

(** ** Intersection with the minimum-wage line *)

Lemma intersectionLoop_sound (f : Q -> Q) (l : list HoursGraphDataPoint.t)
    (p : MinimumWageIntersection.t) :
  intersectionLoop f l = Some p ->
  exists current next t,
    In (current, next) (adjacentPairs l)
    /\ sidesDiffer f current next
    /\ 0.1 < MinimumWageIntersection.hoursPerWeek p
    /\ MinimumWageIntersection.hoursPerWeek p <= 50
    /\ MinimumWageIntersection.hoursPerWeek p
       = HoursGraphDataPoint.hoursPerWeek current
         + t * (HoursGraphDataPoint.hoursPerWeek next
                - HoursGraphDataPoint.hoursPerWeek current)
    /\ MinimumWageIntersection.netIncome p
       = HoursGraphDataPoint.netIncome current
         + t * (HoursGraphDataPoint.netIncome next - HoursGraphDataPoint.netIncome current)
    /\ MinimumWageIntersection.netIncome p
       == f (HoursGraphDataPoint.hoursPerWeek current)
          + t * (f (HoursGraphDataPoint.hoursPerWeek next)
                 - f (HoursGraphDataPoint.hoursPerWeek current))
    /\ MinimumWageIntersection.daysPerWeek p
       = calculateDaysPerWeekFromHours (MinimumWageIntersection.hoursPerWeek p).
Proof.
  induction l as [| current l IH]; [discriminate |].
  destruct l as [| next rest]; [discriminate |].
  change (adjacentPairs (current :: next :: rest))
    with ((current, next) :: adjacentPairs (next :: rest)).
  assert (Hrec : intersectionLoop f (next :: rest) = Some p ->
                 exists c n t,
                   In (c, n) ((current, next) :: adjacentPairs (next :: rest))
                   /\ sidesDiffer f c n
                   /\ 0.1 < MinimumWageIntersection.hoursPerWeek p
                   /\ MinimumWageIntersection.hoursPerWeek p <= 50
                   /\ MinimumWageIntersection.hoursPerWeek p
                      = HoursGraphDataPoint.hoursPerWeek c
                        + t * (HoursGraphDataPoint.hoursPerWeek n
                               - HoursGraphDataPoint.hoursPerWeek c)
                   /\ MinimumWageIntersection.netIncome p
                      = HoursGraphDataPoint.netIncome c
                        + t * (HoursGraphDataPoint.netIncome n
                               - HoursGraphDataPoint.netIncome c)
                   /\ MinimumWageIntersection.netIncome p
                      == f (HoursGraphDataPoint.hoursPerWeek c)
                         + t * (f (HoursGraphDataPoint.hoursPerWeek n)
                                - f (HoursGraphDataPoint.hoursPerWeek c))
                   /\ MinimumWageIntersection.daysPerWeek p
                      = calculateDaysPerWeekFromHours
                          (MinimumWageIntersection.hoursPerWeek p)).
  { intro E. destruct (IH E) as [c [n [t [Hin H]]]].
    exists c, n, t. split; [now right | exact H]. }
  cbn [intersectionLoop]. cbn zeta.
  destruct (Bool.eqb _ _) eqn:Hside; cbn [negb]; [exact Hrec |].
  match goal with
  | |- context [gtb (Math_abs ?d) 0.001] =>
      destruct (gtb_reflect (Math_abs d) 0.001) as [Hden | _]; [| exact Hrec]
  end.
  match goal with
  | |- context [gtb ?h 0.1 && leb ?h 50] =>
      destruct (gtb_reflect h 0.1) as [Hlo | _]; cbn [andb]; [| exact Hrec];
      destruct (leb_reflect h 50) as [Hhi | _]; [| exact Hrec]
  end.
  intro E. injection E as <-.
  eexists current, next, _. split; [now left |].
  split; [unfold sidesDiffer; intro Heq; rewrite Heq, Bool.eqb_reflx in Hside;
          discriminate |].
  cbn [MinimumWageIntersection.hoursPerWeek MinimumWageIntersection.netIncome
       MinimumWageIntersection.daysPerWeek].
  repeat split; try assumption.
  unfold Math_abs in Hden. field.
  intro E0. rewrite E0 in Hden. discriminate Hden.
Qed.

Lemma findMinimumWageIntersection_short (l : list HoursGraphDataPoint.t) (f : Q -> Q) :
  (length l <= 2)%nat -> findMinimumWageIntersection l f = None.
Proof.
  destruct l as [| a [| b [| c l]]]; simpl; intro H; try reflexivity. lia.
Qed.

(** ** Point lookup on an hours sweep *)

Lemma findPointForHoursLoop_sound (targetHours : Q) (l : list HoursGraphDataPoint.t)
    (p : HoursGraphDataPoint.t) :
  findPointForHoursLoop l targetHours = Some p ->
  HoursGraphDataPoint.hoursPerWeek p == targetHours
  /\ exists current next,
       In (current, next) (adjacentPairs l)
       /\ HoursGraphDataPoint.hoursPerWeek current <= targetHours
       /\ targetHours <= HoursGraphDataPoint.hoursPerWeek next
       /\ (p = current \/ p = next \/ p = interpolateHoursAt current next targetHours).
Proof.
  induction l as [| current l IH]; [discriminate |].
  destruct l as [| next rest]; [discriminate |].
  change (adjacentPairs (current :: next :: rest))
    with ((current, next) :: adjacentPairs (next :: rest)).
  cbn [findPointForHoursLoop]. unfold geb.
  destruct (leb_reflect (HoursGraphDataPoint.hoursPerWeek current) targetHours) as [H1 | _];
    cbn [andb].
  - destruct (leb_reflect targetHours (HoursGraphDataPoint.hoursPerWeek next)) as [H2 | _].
    + destruct (eqb_reflect (HoursGraphDataPoint.hoursPerWeek current) targetHours)
        as [E1 | _].
      { intro E. injection E as <-. split; [exact E1 |].
        exists current, next. repeat split; [now left | assumption | assumption | now left]. }
      destruct (eqb_reflect (HoursGraphDataPoint.hoursPerWeek next) targetHours)
        as [E2 | _].
      { intro E. injection E as <-. split; [exact E2 |].
        exists current, next.
        repeat split; [now left | assumption | assumption | right; now left]. }
      intro E. injection E as <-. split; [reflexivity |].
      exists current, next.
      repeat split; [now left | assumption | assumption | right; now right].
    + intro E. destruct (IH E) as [Hp [c [n [Hin H]]]].
      split; [exact Hp |]. exists c, n. split; [now right | exact H].
  - intro E. destruct (IH E) as [Hp [c [n [Hin H]]]].
    split; [exact Hp |]. exists c, n. split; [now right | exact H].
Qed.

Lemma findPointForHoursLoop_between (targetHours : Q) (mid : list HoursGraphDataPoint.t) :
  forall (low high : HoursGraphDataPoint.t) (post : list HoursGraphDataPoint.t),
    HoursGraphDataPoint.hoursPerWeek low <= targetHours ->
    targetHours <= HoursGraphDataPoint.hoursPerWeek high ->
    exists p, findPointForHoursLoop (low :: mid ++ high :: post) targetHours = Some p.
Proof.
  induction mid as [| m mid IH]; intros low high post Hlo Hhi; cbn [app].
  - cbn [findPointForHoursLoop]. unfold geb.
    destruct (leb_reflect (HoursGraphDataPoint.hoursPerWeek low) targetHours);
      [| contradiction].
    destruct (leb_reflect targetHours (HoursGraphDataPoint.hoursPerWeek high));
      [| contradiction].
    cbn [andb]. destruct (eqb _ _); [eauto |]. destruct (eqb _ _); eauto.
  - cbn [findPointForHoursLoop]. unfold geb.
    destruct (leb_reflect (HoursGraphDataPoint.hoursPerWeek low) targetHours);
      [| contradiction].
    cbn [andb].
    destruct (leb_reflect targetHours (HoursGraphDataPoint.hoursPerWeek m)) as [Hm | Hm].
    + destruct (eqb _ _); [eauto |]. destruct (eqb _ _); eauto.
    + apply IH; [lra | exact Hhi].
Qed.

Lemma findPointForHoursLoop_prefix (targetHours : Q) (pre : list HoursGraphDataPoint.t) :
  forall l,
    (exists p, findPointForHoursLoop l targetHours = Some p) ->
    exists p, findPointForHoursLoop (pre ++ l) targetHours = Some p.
Proof.
  induction pre as [| x pre IH]; intros l Hl; cbn [app]; [exact Hl |].
  destruct (IH l Hl) as [p Hp].
  destruct (pre ++ l) as [| y tl]; [discriminate Hp |].
  cbn [findPointForHoursLoop].
  destruct (leb _ _ && geb _ _); [| eauto].
  destruct (eqb _ _); [eauto |]. destruct (eqb _ _); eauto.
Qed.

(** ** Minimum-wage equivalent point *)

Lemma fold_min_spec (l : list GraphDataPoint.t) :
  forall init : Q,
    let m := fold_left (fun min d => Math_min min (GraphDataPoint.netIncome d)) l init in
    m <= init
    /\ Forall (fun d => m <= GraphDataPoint.netIncome d) l
    /\ (m == init \/ Exists (fun d => m == GraphDataPoint.netIncome d) l).
Proof.
  induction l as [| x l IH]; intro init; cbn zeta.
  - simpl. repeat split; [lra | constructor | now left].
  - cbn [fold_left]. specialize (IH (Math_min init (GraphDataPoint.netIncome x))).
    cbn zeta in IH. destruct IH as [H1 [H2 H3]].
    unfold Math_min in *.
    pose proof (Q.le_min_l init (GraphDataPoint.netIncome x)) as Hl.
    pose proof (Q.le_min_r init (GraphDataPoint.netIncome x)) as Hr.
    repeat split.
    + lra.
    + constructor; [lra | exact H2].
    + destruct H3 as [H3 | H3]; [| right; now constructor 2].
      destruct (Q.min_spec init (GraphDataPoint.netIncome x)) as [[_ E] | [_ E]].
      * left. lra.
      * right. constructor 1. lra.
Qed.

Lemma fold_max_net_spec (l : list GraphDataPoint.t) :
  forall init : Q,
    let m := fold_left (fun max d => Math_max max (GraphDataPoint.netIncome d)) l init in
    init <= m
    /\ Forall (fun d => GraphDataPoint.netIncome d <= m) l
    /\ (m == init \/ Exists (fun d => m == GraphDataPoint.netIncome d) l).
Proof.
  induction l as [| x l IH]; intro init; cbn zeta.
  - simpl. repeat split; [lra | constructor | now left].
  - cbn [fold_left]. specialize (IH (Math_max init (GraphDataPoint.netIncome x))).
    cbn zeta in IH. destruct IH as [H1 [H2 H3]].
    unfold Math_max in *.
    pose proof (Q.le_max_l init (GraphDataPoint.netIncome x)) as Hl.
    pose proof (Q.le_max_r init (GraphDataPoint.netIncome x)) as Hr.
    repeat split.
    + lra.
    + constructor; [lra | exact H2].
    + destruct H3 as [H3 | H3]; [| right; now constructor 2].
      destruct (Q.max_spec init (GraphDataPoint.netIncome x)) as [[_ E] | [_ E]].
      * right. constructor 1. lra.
      * left. lra.
Qed.

(** The sample a [reduce] keeps when it replaces its pick only by a
    strictly better one: an element of the sequence that none beats. *)
Lemma reduce_lowest_spec (rest : list GraphDataPoint.t) :
  forall first : GraphDataPoint.t,
    let low :=
      reduce1
        (fun prev curr =>
           if ltb (GraphDataPoint.netIncome curr) (GraphDataPoint.netIncome prev)
           then curr else prev)
        first rest in
    In low (first :: rest)
    /\ Forall (fun d => GraphDataPoint.netIncome low <= GraphDataPoint.netIncome d)
         (first :: rest).
Proof.
  unfold reduce1.
  induction rest as [| x rest IH]; intro first; cbn zeta.
  - simpl. split; [now left | constructor; [lra | constructor]].
  - cbn [fold_left].
    destruct (ltb_reflect (GraphDataPoint.netIncome x) (GraphDataPoint.netIncome first))
      as [Hlt | Hge].
    + destruct (IH x) as [Hin Hall]. split; [now right |].
      inversion Hall as [| ? ? Hx Hrest]; subst.
      constructor; [lra |]. constructor; assumption.
    + destruct (IH first) as [Hin Hall]. split.
      * destruct Hin as [<- | Hin]; [now left | right; now right].
      * inversion Hall as [| ? ? Hf Hrest]; subst.
        constructor; [exact Hf |]. constructor; [lra | exact Hrest].
Qed.

Lemma reduce_highest_spec (rest : list GraphDataPoint.t) :
  forall first : GraphDataPoint.t,
    let high :=
      reduce1
        (fun prev curr =>
           if gtb (GraphDataPoint.netIncome curr) (GraphDataPoint.netIncome prev)
           then curr else prev)
        first rest in
    In high (first :: rest)
    /\ Forall (fun d => GraphDataPoint.netIncome d <= GraphDataPoint.netIncome high)
         (first :: rest).
Proof.
  unfold reduce1.
  induction rest as [| x rest IH]; intro first; cbn zeta.
  - simpl. split; [now left | constructor; [lra | constructor]].
  - cbn [fold_left].
    destruct (gtb_reflect (GraphDataPoint.netIncome x) (GraphDataPoint.netIncome first))
      as [Hlt | Hge].
    + destruct (IH x) as [Hin Hall]. split; [now right |].
      inversion Hall as [| ? ? Hx Hrest]; subst.
      constructor; [lra |]. constructor; assumption.
    + destruct (IH first) as [Hin Hall]. split.
      * destruct Hin as [<- | Hin]; [now left | right; now right].
      * inversion Hall as [| ? ? Hf Hrest]; subst.
        constructor; [exact Hf |]. constructor; [lra | exact Hrest].
Qed.

Lemma minimumWageCrossing_skip (minimumWage : Q) (current next : GraphDataPoint.t)
    (rest : list GraphDataPoint.t) :
  leb (GraphDataPoint.netIncome current) minimumWage
  && geb (GraphDataPoint.netIncome next) minimumWage = false ->
  geb (GraphDataPoint.netIncome current) minimumWage
  && leb (GraphDataPoint.netIncome next) minimumWage = false ->
  minimumWageCrossing minimumWage (current :: next :: rest)
  = minimumWageCrossing minimumWage (next :: rest).
Proof. intros H1 H2. cbn [minimumWageCrossing]. now rewrite H1, H2. Qed.

Lemma minimumWageCrossing_exists (minimumWage : Q) (l : list GraphDataPoint.t) :
  (2 <= length l)%nat ->
  (exists a, In a l /\ GraphDataPoint.netIncome a <= minimumWage) ->
  (exists b, In b l /\ minimumWage <= GraphDataPoint.netIncome b) ->
  exists p,
    minimumWageCrossing minimumWage l = Some p
    /\ EquivalentPoint.netIncome p = minimumWage.
Proof.
  induction l as [| current l IH]; intros Hlen Ha Hb; [simpl in Hlen; lia |].
  destruct l as [| next rest]; [simpl in Hlen; lia |].
  destruct (leb (GraphDataPoint.netIncome current) minimumWage
            && geb (GraphDataPoint.netIncome next) minimumWage) eqn:Hup.
  { cbn [minimumWageCrossing]. rewrite Hup. eexists; split; reflexivity. }
  destruct (geb (GraphDataPoint.netIncome current) minimumWage
            && leb (GraphDataPoint.netIncome next) minimumWage) eqn:Hdown.
  { cbn [minimumWageCrossing]. rewrite Hup, Hdown. eexists; split; reflexivity. }
  rewrite (minimumWageCrossing_skip _ _ _ _ Hup Hdown).
  unfold geb in Hup, Hdown.
  destruct (leb_reflect (GraphDataPoint.netIncome current) minimumWage) as [C1 | C1];
    destruct (leb_reflect minimumWage (GraphDataPoint.netIncome next)) as [N1 | N1];
    try discriminate Hup;
    destruct (leb_reflect minimumWage (GraphDataPoint.netIncome current)) as [C2 | C2];
    destruct (leb_reflect (GraphDataPoint.netIncome next) minimumWage) as [N2 | N2];
    try discriminate Hdown; try (exfalso; lra).
  - (* both below the minimum wage *)
    destruct Hb as [b [Hinb Hb]].
    assert (Hrest : In b rest).
    { destruct Hinb as [<- | [<- | Hin]]; [lra | lra | exact Hin]. }
    apply IH.
    + destruct rest; [contradiction | simpl; lia].
    + exists next. split; [now left | lra].
    + exists b. split; [now right | exact Hb].
  - (* both above the minimum wage *)
    destruct Ha as [a [Hina Ha]].
    assert (Hrest : In a rest).
    { destruct Hina as [<- | [<- | Hin]]; [lra | lra | exact Hin]. }
    apply IH.
    + destruct rest; [contradiction | simpl; lia].
    + exists a. split; [now right | exact Ha].
    + exists next. split; [now left | lra].
Qed.

Lemma minimum_wage_point_cases (first : GraphDataPoint.t) (rest : list GraphDataPoint.t)
    (hoursPerFortnight : option Q) :
  (Forall (fun d => minimumWageAfterTaxFor hoursPerFortnight < GraphDataPoint.netIncome d)
     (first :: rest) ->
   exists low,
     findMinimumWageEquivalentPoint (first :: rest) hoursPerFortnight
     = Some {| EquivalentPoint.income := Fin (GraphDataPoint.grossIncome low);
               EquivalentPoint.netIncome := GraphDataPoint.netIncome low |}
     /\ In low (first :: rest)
     /\ Forall (fun d => GraphDataPoint.netIncome low <= GraphDataPoint.netIncome d)
          (first :: rest))
  /\ (Forall (fun d => GraphDataPoint.netIncome d < minimumWageAfterTaxFor hoursPerFortnight)
        (first :: rest) ->
      exists high,
        findMinimumWageEquivalentPoint (first :: rest) hoursPerFortnight
        = Some {| EquivalentPoint.income := Fin (GraphDataPoint.grossIncome high);
                  EquivalentPoint.netIncome := GraphDataPoint.netIncome high |}
        /\ In high (first :: rest)
        /\ Forall (fun d => GraphDataPoint.netIncome d <= GraphDataPoint.netIncome high)
             (first :: rest))
  /\ (rest <> [] ->
      (exists a, In a (first :: rest)
                 /\ GraphDataPoint.netIncome a <= minimumWageAfterTaxFor hoursPerFortnight) ->
      (exists b, In b (first :: rest)
                 /\ minimumWageAfterTaxFor hoursPerFortnight <= GraphDataPoint.netIncome b) ->
      exists p,
        findMinimumWageEquivalentPoint (first :: rest) hoursPerFortnight = Some p
        /\ EquivalentPoint.netIncome p = minimumWageAfterTaxFor hoursPerFortnight).
Proof.
  unfold findMinimumWageEquivalentPoint. fold (minimumWageAfterTaxFor hoursPerFortnight).
  set (mw := minimumWageAfterTaxFor hoursPerFortnight).
  destruct (fold_min_spec (first :: rest) (GraphDataPoint.netIncome first))
    as [Hmin1 [Hmin2 Hmin3]].
  destruct (fold_max_net_spec (first :: rest) (GraphDataPoint.netIncome first))
    as [Hmax1 [Hmax2 Hmax3]].
  revert Hmin1 Hmin2 Hmin3 Hmax1 Hmax2 Hmax3.
  generalize (fold_left (fun min d => Math_min min (GraphDataPoint.netIncome d))
                (first :: rest) (GraphDataPoint.netIncome first))
             (fold_left (fun max d => Math_max max (GraphDataPoint.netIncome d))
                (first :: rest) (GraphDataPoint.netIncome first)).
  intros minNet maxNet Hmin1 Hmin2 Hmin3 Hmax1 Hmax2 Hmax3.
  assert (Hminin : exists d, In d (first :: rest) /\ minNet == GraphDataPoint.netIncome d).
  { destruct Hmin3 as [E | E]; [exists first; split; [now left | exact E] |].
    apply Exists_exists in E. exact E. }
  assert (Hmaxin : exists d, In d (first :: rest) /\ maxNet == GraphDataPoint.netIncome d).
  { destruct Hmax3 as [E | E]; [exists first; split; [now left | exact E] |].
    apply Exists_exists in E. exact E. }
  split; [| split].
  - intro Hall. destruct Hminin as [d [Hd Ed]].
    rewrite Forall_forall in Hall. pose proof (Hall d Hd) as Hlt.
    destruct (ltb_reflect mw minNet) as [_ | Hn]; [| lra].
    destruct (reduce_lowest_spec rest first) as [Hin Hlow].
    eexists. split; [reflexivity |]. split; assumption.
  - intro Hall. destruct Hmaxin as [d [Hd Ed]]. destruct Hminin as [d' [Hd' Ed']].
    rewrite Forall_forall in Hall.
    pose proof (Hall d Hd) as Hlt. pose proof (Hall d' Hd') as Hlt'.
    destruct (ltb_reflect mw minNet) as [Hn | _]; [lra |].
    destruct (gtb_reflect mw maxNet) as [_ | Hn]; [| lra].
    destruct (reduce_highest_spec rest first) as [Hin Hhigh].
    eexists. split; [reflexivity |]. split; assumption.
  - intros Hne [a [Hina Ha]] [b [Hinb Hb]].
    rewrite Forall_forall in Hmin2, Hmax2.
    pose proof (Hmin2 a Hina). pose proof (Hmax2 b Hinb).
    destruct (ltb_reflect mw minNet) as [Hn | _]; [lra |].
    destruct (gtb_reflect mw maxNet) as [Hn | _]; [lra |].
    destruct (minimumWageCrossing_exists mw (first :: rest)) as [p [Hp Hnet]].
    + destruct rest; [contradiction | simpl; lia].
    + eauto.
    + eauto.
    + rewrite Hp. exists p. split; [reflexivity | exact Hnet].
Qed.

(** X27: the crossing search divides by the difference of the two net
    incomes without a guard: when the first two samples both have exactly
    the minimum wage as net income, the returned income is NaN. *)
Theorem minimum_wage_equivalent_flat_start (first second : GraphDataPoint.t)
    (rest : list GraphDataPoint.t) (hoursPerFortnight : option Q) :
  GraphDataPoint.netIncome first == minimumWageAfterTaxFor hoursPerFortnight ->
  GraphDataPoint.netIncome second == minimumWageAfterTaxFor hoursPerFortnight ->
  findMinimumWageEquivalentPoint (first :: second :: rest) hoursPerFortnight
  = Some {| EquivalentPoint.income := NaN;
            EquivalentPoint.netIncome := minimumWageAfterTaxFor hoursPerFortnight |}.
Proof.
  intros E1 E2.
  unfold findMinimumWageEquivalentPoint. fold (minimumWageAfterTaxFor hoursPerFortnight).
  set (mw := minimumWageAfterTaxFor hoursPerFortnight) in *.
  destruct (fold_min_spec (first :: second :: rest) (GraphDataPoint.netIncome first))
    as [Hmin1 _].
  destruct (fold_max_net_spec (first :: second :: rest) (GraphDataPoint.netIncome first))
    as [Hmax1 _].
  revert Hmin1 Hmax1.
  generalize (fold_left (fun min d => Math_min min (GraphDataPoint.netIncome d))
                (first :: second :: rest) (GraphDataPoint.netIncome first))
             (fold_left (fun max d => Math_max max (GraphDataPoint.netIncome d))
                (first :: second :: rest) (GraphDataPoint.netIncome first)).
  intros minNet maxNet Hmin1 Hmax1.
  destruct (ltb_reflect mw minNet) as [Hn | _]; [lra |].
  destruct (gtb_reflect mw maxNet) as [Hn | _]; [lra |].
  cbn [minimumWageCrossing]. unfold geb.
  destruct (leb_reflect (GraphDataPoint.netIncome first) mw) as [_ | Hn]; [| lra].
  destruct (leb_reflect mw (GraphDataPoint.netIncome second)) as [_ | Hn]; [| lra].
  cbn [andb]. unfold js_div.
  destruct (eqb_reflect (GraphDataPoint.netIncome second - GraphDataPoint.netIncome first) 0)
    as [_ | Hn]; [| exfalso; apply Hn; lra].
  destruct (eqb_reflect (mw - GraphDataPoint.netIncome first) 0)
    as [_ | Hn]; [| exfalso; apply Hn; lra].
  reflexivity.
Qed.

(** * Further properties, as stated

    Each theorem below collects lemmas of the sections above into one
    statement about a function of the library. *)

Ltac closed_cmp := first [reflexivity | discriminate | vm_compute; first [reflexivity | discriminate]].

(** ** taxCalculations.ts *)

(** X2: for a non-negative income the tax lies between 0 and 45% of it, the
    Medicare levy between 0 and 2% (exactly 2% from 30345 on), and the
    after-tax income between 53% of the income and the income. *)
Theorem after_tax_income_bounds (income : Q) :
  0 <= income ->
  (0 <= calculateIncomeTax income /\ calculateIncomeTax income <= income * 0.45)
  /\ (0 <= calculateMedicareLevy income /\ calculateMedicareLevy income <= income * 0.02)
  /\ (30345 <= income -> calculateMedicareLevy income == income * 0.02)
  /\ (income * 0.53 <= calculateAfterTaxIncome income
      /\ calculateAfterTaxIncome income <= income).
Proof.
  intro H.
  pose proof (income_tax_bounds income H). pose proof (medicare_levy_bounds income H).
  pose proof (after_tax_bounds income H). tauto.
Qed.

Lemma after_tax_income_bounds_witness :
  (0 <= calculateIncomeTax 80000 /\ calculateIncomeTax 80000 <= 80000 * 0.45)
  /\ (0 <= calculateMedicareLevy 80000 /\ calculateMedicareLevy 80000 <= 80000 * 0.02)
  /\ (30345 <= 80000 -> calculateMedicareLevy 80000 == 80000 * 0.02)
  /\ (80000 * 0.53 <= calculateAfterTaxIncome 80000
      /\ calculateAfterTaxIncome 80000 <= 80000).
Proof. apply (after_tax_income_bounds 80000). discriminate. Defined.

(** X3: of every extra dollar of income at least 43 cents remain after tax
    and levy, so the after-tax income never falls when the income rises. *)
Theorem after_tax_income_increasing (x y : Q) :
  x <= y ->
  (y - x) * 0.43 <= calculateAfterTaxIncome y - calculateAfterTaxIncome x
  /\ calculateAfterTaxIncome x <= calculateAfterTaxIncome y.
Proof.
  intro H. pose proof (after_tax_slope x y H). split; [assumption | lra].
Qed.

Lemma after_tax_income_increasing_witness :
  (45001 - 45000) * 0.43 <= calculateAfterTaxIncome 45001 - calculateAfterTaxIncome 45000
  /\ calculateAfterTaxIncome 45000 <= calculateAfterTaxIncome 45001.
Proof. apply (after_tax_income_increasing 45000 45001). discriminate. Defined.

Lemma income_tax_step_at_45000_witness :
  calculateIncomeTax 45001 < calculateIncomeTax 45000.
Proof. apply (income_tax_step_at_45000 45001); closed_cmp. Defined.

(** ** subsidyCalculations.ts *)

(** X5: for every income the standard percent is a whole number between 0
    and 90 and the priority percent a whole number between 50 and 95. *)
Theorem subsidy_percent_in_range (income : Q) :
  (0 <= calculateSubsidyPercent income false
   /\ calculateSubsidyPercent income false <= 90)
  /\ (50 <= calculateSubsidyPercent income true
      /\ calculateSubsidyPercent income true <= 95)
  /\ (forall isSecondOrLater,
        exists z : Z, calculateSubsidyPercent income isSecondOrLater == inject_Z z).
Proof.
  pose proof (subsidy_percent_range income) as [H1 H2].
  repeat split; try tauto. intro b. apply subsidy_percent_is_integer.
Qed.

Lemma subsidy_percent_never_rises_witness :
  calculateSubsidyPercent 190000 true <= calculateSubsidyPercent 150000 true.
Proof. apply (subsidy_percent_never_rises 150000 190000 true). discriminate. Defined.

(** X8: for a child whose hourly rate is not negative, the subsidy per hour
    lies between 0 and the rate charged and never exceeds the capped rate
    times the percent; when the rate is at or above the cap it is exactly
    the cap times the percent, whatever the rate. *)
Theorem subsidy_per_hour_capped (child : Child.t) (income activityHours : Q) :
  0 <= Child.hourlyRate child ->
  0 <= ChildSubsidy.subsidyPerHour (calculateChildSubsidy child income activityHours)
  /\ ChildSubsidy.subsidyPerHour (calculateChildSubsidy child income activityHours)
     <= Child.hourlyRate child
  /\ ChildSubsidy.subsidyPerHour (calculateChildSubsidy child income activityHours)
     <= ChildSubsidy.hourlyRateCap (calculateChildSubsidy child income activityHours)
        * (ChildSubsidy.subsidyPercent (calculateChildSubsidy child income activityHours)
           / 100)
  /\ (ChildSubsidy.hourlyRateCap (calculateChildSubsidy child income activityHours)
      <= Child.hourlyRate child ->
      ChildSubsidy.subsidyPerHour (calculateChildSubsidy child income activityHours)
      == ChildSubsidy.hourlyRateCap (calculateChildSubsidy child income activityHours)
         * (calculateSubsidyPercent income (Child.isSecondOrLater child) / 100)).
Proof.
  intro H. destruct (subsidy_per_hour_bounds child income activityHours H) as [H0 [H1 H2]].
  repeat split; try assumption. apply cap_dominance.
Qed.

Lemma subsidy_per_hour_capped_witness :
  0 <= ChildSubsidy.subsidyPerHour (calculateChildSubsidy baseChild 100000 80)
  /\ ChildSubsidy.subsidyPerHour (calculateChildSubsidy baseChild 100000 80)
     <= Child.hourlyRate baseChild
  /\ ChildSubsidy.subsidyPerHour (calculateChildSubsidy baseChild 100000 80)
     <= ChildSubsidy.hourlyRateCap (calculateChildSubsidy baseChild 100000 80)
        * (ChildSubsidy.subsidyPercent (calculateChildSubsidy baseChild 100000 80) / 100)
  /\ (ChildSubsidy.hourlyRateCap (calculateChildSubsidy baseChild 100000 80)
      <= Child.hourlyRate baseChild ->
      ChildSubsidy.subsidyPerHour (calculateChildSubsidy baseChild 100000 80)
      == ChildSubsidy.hourlyRateCap (calculateChildSubsidy baseChild 100000 80)
         * (calculateSubsidyPercent 100000 (Child.isSecondOrLater baseChild) / 100)).
Proof. apply (subsidy_per_hour_capped baseChild 100000 80). discriminate. Defined.

Lemma subsidy_never_exceeds_cost_witness :
  0 <= TotalCosts.totalChildcareSubsidy (calculateTotalCosts [baseChild] 100000 80)
  /\ TotalCosts.totalChildcareSubsidy (calculateTotalCosts [baseChild] 100000 80)
     <= TotalCosts.totalChildcareCost (calculateTotalCosts [baseChild] 100000 80)
  /\ 0 <= TotalCosts.totalChildcareOutOfPocket (calculateTotalCosts [baseChild] 100000 80)
  /\ TotalCosts.totalChildcareOutOfPocket (calculateTotalCosts [baseChild] 100000 80)
     <= TotalCosts.totalChildcareCost (calculateTotalCosts [baseChild] 100000 80)
  /\ Forall (fun d => 0 <= ChildDetail.subsidyAmount d
                      /\ ChildDetail.subsidyAmount d <= ChildDetail.totalCost d
                      /\ 0 <= ChildDetail.outOfPocket d
                      /\ ChildDetail.outOfPocket d <= ChildDetail.totalCost d)
       (TotalCosts.childDetails (calculateTotalCosts [baseChild] 100000 80)).
Proof.
  apply (subsidy_never_exceeds_cost [baseChild] 100000 80).
  repeat constructor; discriminate.
Defined.

Lemma childcare_per_day_is_guarded_witness :
  TotalCosts.childcarePerDay
    (calculateTotalCosts
       [ {| Child.age := under_school; Child.hoursPerDay := 10; Child.daysPerWeek := 0;
            Child.hourlyRate := 18; Child.isSecondOrLater := false |} ] 100000 80)
  = Fin 0
  /\ exists perDay,
       TotalCosts.childcarePerDay (calculateTotalCosts [baseChild] 100000 80) = Fin perDay
       /\ perDay * (2 * sumQ (map Child.daysPerWeek [baseChild]))
          == TotalCosts.totalChildcareOutOfPocket (calculateTotalCosts [baseChild] 100000 80).
Proof.
  split.
  - apply (proj1 (proj2 (childcare_per_day_is_guarded _ 100000 80))). discriminate.
  - apply (proj2 (proj2 (childcare_per_day_is_guarded [baseChild] 100000 80))).
    reflexivity.
Defined.

(** ** advocacyCalculator.ts *)

Lemma scenario_income_ordering_witness :
  FinancialBreakdown.netIncomeAfterChildcare (calculateSecondParentScenario baseScenario)
  <= FinancialBreakdown.secondParentAfterTax (calculateSecondParentScenario baseScenario)
  /\ FinancialBreakdown.secondParentAfterTax (calculateSecondParentScenario baseScenario)
     <= FinancialBreakdown.secondParentGrossIncome
          (calculateSecondParentScenario baseScenario)
  /\ exists lost : Q,
       FinancialBreakdown.percentageOfIncomeLost (calculateSecondParentScenario baseScenario)
       = Fin lost
       /\ 0 <= lost
       /\ lost * SecondParentScenario.secondParentIncome baseScenario
          == (SecondParentScenario.secondParentIncome baseScenario
              - FinancialBreakdown.netIncomeAfterChildcare
                  (calculateSecondParentScenario baseScenario)) * 100.
Proof.
  apply (scenario_income_ordering baseScenario).
  - reflexivity.
  - repeat constructor; discriminate.
Defined.

Lemma effective_hourly_rate_is_net_per_hour_witness :
  exists rate : Q,
    FinancialBreakdown.effectiveHourlyRate (calculateSecondParentScenario baseScenario)
    = Fin rate
    /\ rate * (hoursForRate baseScenario * 26)
       == FinancialBreakdown.netIncomeAfterChildcare
            (calculateSecondParentScenario baseScenario).
Proof. apply (effective_hourly_rate_is_net_per_hour baseScenario). reflexivity. Defined.

(** ** graphData.ts *)

Lemma income_sweep_degenerate_witness :
  calculateGraphData 1 90000 [baseChild] 80 100000 50000 5000 false = Some []
  /\ calculateGraphData 1000 90000 [baseChild] 80 0 50000 0 false = None.
Proof.
  split.
  - apply (proj1 (income_sweep_degenerate 90000 [baseChild] 80 100000 50000 5000 false)).
    reflexivity.
  - apply (proj2 (income_sweep_degenerate 90000 [baseChild] 80 0 50000 0 false));
      discriminate.
Defined.

(** X17: a break-even point that is returned comes from an adjacent pair
    whose net income crosses zero; its net income is 0, the straight line
    between the two samples is zero at its interpolation ratio, which lies
    in [0, 1], and when the pair is in ascending order its income lies
    between the two samples' incomes. *)
Theorem break_even_point_is_on_the_chord (l : list GraphDataPoint.t) (p : BreakEvenPoint.t) :
  findBreakEvenPoint l = Some p ->
  exists current next ratio,
    In (current, next) (adjacentPairs l)
    /\ crosses current next
    /\ BreakEvenPoint.netIncome p = 0
    /\ BreakEvenPoint.income p
       = GraphDataPoint.grossIncome current
         + (GraphDataPoint.grossIncome next - GraphDataPoint.grossIncome current) * ratio
    /\ 0 <= ratio /\ ratio <= 1
    /\ GraphDataPoint.netIncome current
       + (GraphDataPoint.netIncome next - GraphDataPoint.netIncome current) * ratio == 0
    /\ (GraphDataPoint.grossIncome current <= GraphDataPoint.grossIncome next ->
        GraphDataPoint.grossIncome current <= BreakEvenPoint.income p
        /\ BreakEvenPoint.income p <= GraphDataPoint.grossIncome next).
Proof.
  intro H. destruct (findBreakEvenPoint_sound l p H) as [c [n [Hin [Hc ->]]]].
  destruct (breakEvenBetween_on_chord c n Hc) as [H0 [H1 [Hz Hb]]].
  exists c, n, (Qabs (GraphDataPoint.netIncome c)
                / (Qabs (GraphDataPoint.netIncome c) + Qabs (GraphDataPoint.netIncome n))).
  repeat split; try assumption; apply Hb; assumption.
Qed.

Lemma break_even_point_is_on_the_chord_witness :
  exists p,
    findBreakEvenPoint breakEvenExample = Some p
    /\ exists current next ratio,
         In (current, next) (adjacentPairs breakEvenExample)
         /\ crosses current next
         /\ BreakEvenPoint.netIncome p = 0
         /\ BreakEvenPoint.income p
            = GraphDataPoint.grossIncome current
              + (GraphDataPoint.grossIncome next - GraphDataPoint.grossIncome current) * ratio
         /\ 0 <= ratio /\ ratio <= 1
         /\ GraphDataPoint.netIncome current
            + (GraphDataPoint.netIncome next - GraphDataPoint.netIncome current) * ratio == 0
         /\ (GraphDataPoint.grossIncome current <= GraphDataPoint.grossIncome next ->
             GraphDataPoint.grossIncome current <= BreakEvenPoint.income p
             /\ BreakEvenPoint.income p <= GraphDataPoint.grossIncome next).
Proof.
  eexists. split; [reflexivity |].
  apply (break_even_point_is_on_the_chord breakEvenExample). reflexivity.
Defined.

Lemma findPointForIncome_two_or_more_witness :
  (forall s,
      In s [graphSample 50000 (-10000); graphSample 60000 (-5000); graphSample 70000 5000] ->
      GraphDataPoint.grossIncome s == 65000 ->
      exists p,
        findPointForIncome
          [graphSample 50000 (-10000); graphSample 60000 (-5000); graphSample 70000 5000]
          65000 = Some p
        /\ In p [graphSample 50000 (-10000); graphSample 60000 (-5000);
                 graphSample 70000 5000]
        /\ GraphDataPoint.grossIncome p == 65000)
  /\ (forall pre current next post,
        [graphSample 50000 (-10000); graphSample 60000 (-5000); graphSample 70000 5000]
        = pre ++ current :: next :: post ->
        GraphDataPoint.grossIncome current < 65000 ->
        65000 < GraphDataPoint.grossIncome next ->
        findPointForIncome
          [graphSample 50000 (-10000); graphSample 60000 (-5000); graphSample 70000 5000]
          65000
        = Some (interpolateAt current next 65000))
  /\ (findPointForIncome
        [graphSample 50000 (-10000); graphSample 60000 (-5000); graphSample 70000 5000]
        65000 = None
      <-> 65000 < GraphDataPoint.grossIncome (graphSample 50000 (-10000))
          \/ GraphDataPoint.grossIncome
               (lastFrom (graphSample 50000 (-10000))
                  [graphSample 60000 (-5000); graphSample 70000 5000]) < 65000).
Proof.
  apply (findPointForIncome_two_or_more 65000 (graphSample 50000 (-10000))
           (graphSample 60000 (-5000)) [graphSample 70000 5000]).
  repeat constructor; discriminate.
Defined.

(** ** hoursGraphData.ts *)

(** X19: the days per week derived from hours are a whole number of tenths,
    at most a twentieth away from hours / 7.6, and never fall when the
    hours rise. *)
Theorem days_per_week_from_hours (hoursPerWeek : Q) :
  (exists tenths : Z, calculateDaysPerWeekFromHours hoursPerWeek * 10 == inject_Z tenths)
  /\ hoursPerWeek / 7.6 - 0.05 <= calculateDaysPerWeekFromHours hoursPerWeek
  /\ calculateDaysPerWeekFromHours hoursPerWeek <= hoursPerWeek / 7.6 + 0.05
  /\ (forall more, hoursPerWeek <= more ->
        calculateDaysPerWeekFromHours hoursPerWeek <= calculateDaysPerWeekFromHours more).
Proof.
  destruct (days_per_week_rounding hoursPerWeek) as [H1 [H2 H3]].
  repeat split; try assumption. intros more. apply days_per_week_monotone.
Qed.

(** X20: a break-even point of an hours sweep that is returned comes from an
    adjacent pair whose net income rises through zero; it lies at 0.5 hours
    or more, has net income 0, and every field is interpolated with one
    ratio in [0, 1) at which the line between the two net incomes is zero. *)
Theorem break_even_hours_is_on_the_chord (l : list HoursGraphDataPoint.t)
    (p : HoursGraphDataPoint.t) :
  findBreakEvenHours l = Some p ->
  exists current next,
    In (current, next) (adjacentPairs l)
    /\ risesThroughZero current next
    /\ p = breakEvenPointBetween current next
    /\ 0.5 <= HoursGraphDataPoint.hoursPerWeek p
    /\ HoursGraphDataPoint.netIncome p = 0
    /\ 0 <= breakEvenRatio current next /\ breakEvenRatio current next < 1
    /\ HoursGraphDataPoint.netIncome current
       + (HoursGraphDataPoint.netIncome next - HoursGraphDataPoint.netIncome current)
         * breakEvenRatio current next == 0.
Proof.
  intro H. destruct (findBreakEvenHours_sound l p H) as [c [n [Hin [Hr [Hp [Hh Hn]]]]]].
  destruct (breakEvenRatio_bounds c n Hr) as [H0 [H1 Hz]].
  exists c, n. repeat split; try assumption; apply Hr.
Qed.

Lemma break_even_hours_is_on_the_chord_witness :
  exists p,
    findBreakEvenHours [hoursSample 8 (-2000); hoursSample 16 6000] = Some p
    /\ exists current next,
         In (current, next) (adjacentPairs [hoursSample 8 (-2000); hoursSample 16 6000])
         /\ risesThroughZero current next
         /\ p = breakEvenPointBetween current next
         /\ 0.5 <= HoursGraphDataPoint.hoursPerWeek p
         /\ HoursGraphDataPoint.netIncome p = 0
         /\ 0 <= breakEvenRatio current next /\ breakEvenRatio current next < 1
         /\ HoursGraphDataPoint.netIncome current
            + (HoursGraphDataPoint.netIncome next - HoursGraphDataPoint.netIncome current)
              * breakEvenRatio current next == 0.
Proof.
  eexists. split; [reflexivity |].
  apply (break_even_hours_is_on_the_chord [hoursSample 8 (-2000); hoursSample 16 6000]).
  reflexivity.
Defined.

(** X21: the maximum lookup returns null only for an empty sequence;
    otherwise it returns a sample of the sequence whose net income none
    exceeds, and the earliest such: every sample before it has strictly
    less. *)
Theorem max_income_point (l : list HoursGraphDataPoint.t) :
  (l = [] -> findMaxIncomePoint l = None)
  /\ (l <> [] ->
      exists best pre post,
        findMaxIncomePoint l = Some best
        /\ l = pre ++ best :: post
        /\ Forall (fun q => HoursGraphDataPoint.netIncome q
                            <= HoursGraphDataPoint.netIncome best) l
        /\ Forall (fun q => HoursGraphDataPoint.netIncome q
                            < HoursGraphDataPoint.netIncome best) pre).
Proof.
  split; [intros ->; reflexivity |].
  destruct l as [| first rest]; [contradiction |]. intros _.
  destruct (fold_max_spec rest first) as [H1 [H2 [pre [post [E Hpre]]]]].
  eexists _, pre, post. split; [reflexivity |].
  repeat split; [exact E | constructor; assumption | exact Hpre].
Qed.

Lemma max_income_point_witness :
  exists best pre post,
    findMaxIncomePoint dipAfterStart = Some best
    /\ dipAfterStart = pre ++ best :: post
    /\ Forall (fun q => HoursGraphDataPoint.netIncome q
                        <= HoursGraphDataPoint.netIncome best) dipAfterStart
    /\ Forall (fun q => HoursGraphDataPoint.netIncome q
                        < HoursGraphDataPoint.netIncome best) pre.
Proof. apply (proj2 (max_income_point dipAfterStart)). discriminate. Defined.

Lemma hoursLoop_head (point : Q -> HoursGraphDataPoint.t) (maxHoursForGraph : Q) :
  forall (fuel : nat) (x : Q) (dataPoints l : list HoursGraphDataPoint.t),
    hoursLoop fuel point maxHoursForGraph x dataPoints = Some l ->
    exists pushed,
      l = dataPoints ++ pushed
      /\ (forall p rest, pushed = p :: rest -> p = point x).
Proof.
  induction fuel as [| fuel IH]; intros x dataPoints l H; [discriminate |].
  simpl in H. destruct (leb x maxHoursForGraph).
  - destruct (IH _ _ _ H) as [pushed [E _]].
    exists (point x :: pushed). split.
    + now rewrite E, <- app_assoc.
    + intros p rest Hp. now injection Hp as <-.
  - injection H as <-. exists []. split; [now rewrite app_nil_r | discriminate].
Qed.

(** X22: the hours sweep always terminates: with fuel beyond its sample
    count it returns that many samples, the i-th at i half-hours, none when
    the maximum is negative and 77 (0 to 38 hours) when the maximum is
    absent or zero; its first sample, at no hours, has no days, no gross or
    after-tax income, no childcare cost and a net income of 0. *)
Theorem hours_sweep_samples
    (fullTimeIncome fullTimeHoursPerWeek firstParentIncome : Q) (children : list Child.t)
    (firstParentHoursPerWeek : Q) (familyType : FamilyType) (maxHours : option Q) :
  exists l : list HoursGraphDataPoint.t,
    (forall fuel,
        (hoursSampleCount (maxHoursForGraphOf maxHours) < fuel)%nat ->
        calculateHoursGraphData fuel fullTimeIncome fullTimeHoursPerWeek firstParentIncome
          children firstParentHoursPerWeek familyType maxHours = Some l)
    /\ length l = hoursSampleCount (maxHoursForGraphOf maxHours)
    /\ (forall i p, nth_error l i = Some p ->
          HoursGraphDataPoint.hoursPerWeek p == inject_Z (Z.of_nat i) * 0.5)
    /\ (forall p rest, l = p :: rest ->
          HoursGraphDataPoint.hoursPerWeek p = 0
          /\ HoursGraphDataPoint.daysPerWeek p == 0
          /\ HoursGraphDataPoint.grossIncome p == 0
          /\ HoursGraphDataPoint.afterTax p == 0
          /\ HoursGraphDataPoint.childcareCost p == 0
          /\ HoursGraphDataPoint.netIncome p == 0)
    /\ hoursSampleCount (maxHoursForGraphOf None) = 77%nat
    /\ hoursSampleCount (maxHoursForGraphOf (Some 0)) = 77%nat.
Proof.
  unfold calculateHoursGraphData.
  set (point := hoursGraphPoint _ firstParentIncome children familyType).
  exists (hoursSamplesFrom point 0 (hoursSampleCount (maxHoursForGraphOf maxHours))).
  split; [| split; [| split; [| split; [| split]]]].
  - intros fuel Hfuel. now apply hours_sweep_runs.
  - apply hoursSamplesFrom_length.
  - intros i p H. destruct (hoursSamplesFrom_nth _ _ _ _ _ H) as [y [-> Hy]].
    change (HoursGraphDataPoint.hoursPerWeek (point y)) with y. lra.
  - intros p rest E.
    destruct (hoursSampleCount (maxHoursForGraphOf maxHours)); [discriminate E |].
    cbn [hoursSamplesFrom] in E. injection E as <- _.
    apply hours_point_at_zero.
  - reflexivity.
  - reflexivity.
Qed.

(** X23: because the sweep's first sample has no hours and a net income of
    0, the break-even search on a sweep answers null whenever the second
    sample is already in profit, whatever the curve does later. *)
Theorem hours_sweep_hides_break_even
    (fuel : nat) (fullTimeIncome fullTimeHoursPerWeek firstParentIncome : Q)
    (children : list Child.t) (firstParentHoursPerWeek : Q) (familyType : FamilyType)
    (maxHours : option Q) (first second : HoursGraphDataPoint.t)
    (rest : list HoursGraphDataPoint.t) :
  calculateHoursGraphData fuel fullTimeIncome fullTimeHoursPerWeek firstParentIncome
    children firstParentHoursPerWeek familyType maxHours = Some (first :: second :: rest) ->
  0 < HoursGraphDataPoint.netIncome second ->
  findBreakEvenHours (first :: second :: rest) = None.
Proof.
  unfold calculateHoursGraphData. intros Hsweep Hsecond.
  destruct (hoursLoop_head _ _ _ _ _ _ Hsweep) as [pushed [E Hhead]].
  cbn [app] in E. specialize (Hhead first (second :: rest) (eq_sym E)).
  pose proof (hours_point_at_zero
                (if gtb fullTimeHoursPerWeek 0
                 then fullTimeIncome / (fullTimeHoursPerWeek * 52) else 0)
                firstParentIncome children familyType) as Hzero.
  cbn zeta in Hzero. rewrite <- Hhead in Hzero.
  destruct Hzero as [Hh [_ [_ [_ [_ Hn]]]]].
  apply findBreakEvenHours_starts_at_zero; [rewrite Hh; reflexivity | exact Hn | exact Hsecond].
Qed.

Lemma hours_sweep_hides_break_even_witness :
  exists l,
    shortHoursSweep = Some l
    /\ length l = 3%nat
    /\ findBreakEvenHours l = None.
Proof.
  unfold shortHoursSweep. eexists. split; [vm_compute; reflexivity |].
  split; [reflexivity |].
  apply (hours_sweep_hides_break_even 10 94103 38 104496 [baseChild] 38 two_parent (Some 1));
    vm_compute; reflexivity.
Defined.

(** X24: an intersection with the minimum-wage line that is returned lies
    between two neighbours, neither of them the first sample, that are on
    different sides of the line; its hours are above 0.1 and at most 50, and
    at its parameter the line between the two net incomes meets the line
    between the two minimum wages.  The first sample plays no part, and a
    sequence of fewer than three samples has no intersection. *)
Theorem minimum_wage_intersection (l : list HoursGraphDataPoint.t) (f : Q -> Q) :
  (forall p,
      findMinimumWageIntersection l f = Some p ->
      exists current next t,
        In (current, next) (adjacentPairs (tl l))
        /\ sidesDiffer f current next
        /\ 0.1 < MinimumWageIntersection.hoursPerWeek p
        /\ MinimumWageIntersection.hoursPerWeek p <= 50
        /\ MinimumWageIntersection.hoursPerWeek p
           = HoursGraphDataPoint.hoursPerWeek current
             + t * (HoursGraphDataPoint.hoursPerWeek next
                    - HoursGraphDataPoint.hoursPerWeek current)
        /\ MinimumWageIntersection.netIncome p
           = HoursGraphDataPoint.netIncome current
             + t * (HoursGraphDataPoint.netIncome next
                    - HoursGraphDataPoint.netIncome current)
        /\ MinimumWageIntersection.netIncome p
           == f (HoursGraphDataPoint.hoursPerWeek current)
              + t * (f (HoursGraphDataPoint.hoursPerWeek next)
                     - f (HoursGraphDataPoint.hoursPerWeek current))
        /\ MinimumWageIntersection.daysPerWeek p
           = calculateDaysPerWeekFromHours (MinimumWageIntersection.hoursPerWeek p))
  /\ (forall other rest,
        l = other :: rest ->
        forall first, findMinimumWageIntersection (first :: rest) f
                      = findMinimumWageIntersection l f)
  /\ ((length l <= 2)%nat -> findMinimumWageIntersection l f = None).
Proof.
  split; [| split].
  - intros p H. destruct l as [| first rest]; [discriminate |].
    apply (intersectionLoop_sound f rest p H).
  - intros other rest -> first. reflexivity.
  - apply findMinimumWageIntersection_short.
Qed.

Lemma minimum_wage_intersection_witness :
  exists p,
    findMinimumWageIntersection crossingCurve flatReference = Some p
    /\ exists current next t,
         In (current, next) (adjacentPairs (tl crossingCurve))
         /\ sidesDiffer flatReference current next
         /\ 0.1 < MinimumWageIntersection.hoursPerWeek p
         /\ MinimumWageIntersection.hoursPerWeek p <= 50
         /\ MinimumWageIntersection.hoursPerWeek p
            = HoursGraphDataPoint.hoursPerWeek current
              + t * (HoursGraphDataPoint.hoursPerWeek next
                     - HoursGraphDataPoint.hoursPerWeek current)
         /\ MinimumWageIntersection.netIncome p
            = HoursGraphDataPoint.netIncome current
              + t * (HoursGraphDataPoint.netIncome next
                     - HoursGraphDataPoint.netIncome current)
         /\ MinimumWageIntersection.netIncome p
            == flatReference (HoursGraphDataPoint.hoursPerWeek current)
               + t * (flatReference (HoursGraphDataPoint.hoursPerWeek next)
                      - flatReference (HoursGraphDataPoint.hoursPerWeek current))
         /\ MinimumWageIntersection.daysPerWeek p
            = calculateDaysPerWeekFromHours (MinimumWageIntersection.hoursPerWeek p).
Proof.
  eexists. split; [vm_compute; reflexivity |].
  apply (proj1 (minimum_wage_intersection crossingCurve flatReference)).
  vm_compute; reflexivity.
Defined.

(** X25: the lookup on an hours sweep returns, when it returns a point, one
    at the target hours: a sample or the interpolation between two
    neighbours that bracket the target.  It finds a point whenever some
    sample at or below the target comes before one at or above it, and
    answers null for a single sample. *)
Theorem point_lookup_for_hours (targetHours : Q) :
  (forall l p,
      findPointForHours l targetHours = Some p ->
      HoursGraphDataPoint.hoursPerWeek p == targetHours
      /\ exists current next,
           In (current, next) (adjacentPairs l)
           /\ HoursGraphDataPoint.hoursPerWeek current <= targetHours
           /\ targetHours <= HoursGraphDataPoint.hoursPerWeek next
           /\ (p = current \/ p = next
               \/ p = interpolateHoursAt current next targetHours))
  /\ (forall pre low mid high post,
        HoursGraphDataPoint.hoursPerWeek low <= targetHours ->
        targetHours <= HoursGraphDataPoint.hoursPerWeek high ->
        exists p,
          findPointForHours (pre ++ low :: mid ++ high :: post) targetHours = Some p)
  /\ (forall only, findPointForHours [only] targetHours = None).
Proof.
  split; [| split].
  - intros l p H. unfold findPointForHours in H.
    destruct (Nat.eqb (length l) 0); [discriminate |].
    now apply findPointForHoursLoop_sound.
  - intros pre low mid high post Hlo Hhi. unfold findPointForHours.
    destruct (Nat.eqb (length (pre ++ low :: mid ++ high :: post)) 0) eqn:E.
    + apply Nat.eqb_eq in E. rewrite length_app in E. simpl in E. lia.
    + apply findPointForHoursLoop_prefix.
      now apply findPointForHoursLoop_between.
  - reflexivity.
Qed.

Lemma point_lookup_for_hours_witness :
  exists p,
    findPointForHours ([hoursSample 0 0] ++ hoursSample 10 5000 :: [] ++ hoursSample 20 15000 :: [])
      12 = Some p.
Proof.
  apply (proj1 (proj2 (point_lookup_for_hours 12))); discriminate.
Defined.

(** ** graphData.ts: the minimum-wage equivalent *)

(** X26: the minimum-wage equivalent is null only for an empty sequence.
    When the minimum wage is below every sample's net income the result is
    a sample of least net income, when it is above every one a sample of
    greatest net income; when, among two or more samples, one is at or
    below the minimum wage and one at or above it, the result has exactly
    the minimum wage as its net income. *)
Theorem minimum_wage_equivalent_point (l : list GraphDataPoint.t)
    (hoursPerFortnight : option Q) :
  (l = [] -> findMinimumWageEquivalentPoint l hoursPerFortnight = None)
  /\ (l <> [] -> exists p, findMinimumWageEquivalentPoint l hoursPerFortnight = Some p)
  /\ (l <> [] ->
      Forall (fun d => minimumWageAfterTaxFor hoursPerFortnight < GraphDataPoint.netIncome d)
        l ->
      exists low,
        findMinimumWageEquivalentPoint l hoursPerFortnight
        = Some {| EquivalentPoint.income := Fin (GraphDataPoint.grossIncome low);
                  EquivalentPoint.netIncome := GraphDataPoint.netIncome low |}
        /\ In low l
        /\ Forall (fun d => GraphDataPoint.netIncome low <= GraphDataPoint.netIncome d) l)
  /\ (l <> [] ->
      Forall (fun d => GraphDataPoint.netIncome d < minimumWageAfterTaxFor hoursPerFortnight)
        l ->
      exists high,
        findMinimumWageEquivalentPoint l hoursPerFortnight
        = Some {| EquivalentPoint.income := Fin (GraphDataPoint.grossIncome high);
                  EquivalentPoint.netIncome := GraphDataPoint.netIncome high |}
        /\ In high l
        /\ Forall (fun d => GraphDataPoint.netIncome d <= GraphDataPoint.netIncome high) l)
  /\ ((2 <= length l)%nat ->
      (exists a, In a l
                 /\ GraphDataPoint.netIncome a <= minimumWageAfterTaxFor hoursPerFortnight) ->
      (exists b, In b l
                 /\ minimumWageAfterTaxFor hoursPerFortnight <= GraphDataPoint.netIncome b) ->
      exists p,
        findMinimumWageEquivalentPoint l hoursPerFortnight = Some p
        /\ EquivalentPoint.netIncome p = minimumWageAfterTaxFor hoursPerFortnight).
Proof.
  destruct l as [| first rest].
  - split; [reflexivity |]. repeat split; try contradiction. simpl. lia.
  - destruct (minimum_wage_point_cases first rest hoursPerFortnight) as [Hlow [Hhigh Hin]].
    split; [discriminate |]. split; [| split; [| split]].
    + intros _. unfold findMinimumWageEquivalentPoint.
      destruct (ltb _ _); [eauto |]. destruct (gtb _ _); [eauto |].
      destruct (minimumWageCrossing _ _); eauto.
    + intros _. exact Hlow.
    + intros _. exact Hhigh.
    + intro Hlen. apply Hin. destruct rest; [simpl in Hlen; lia | discriminate].
Qed.

Lemma minimum_wage_equivalent_point_witness :
  exists p,
    findMinimumWageEquivalentPoint
      [graphSample 50000 10000; graphSample 100000 60000] None = Some p
    /\ EquivalentPoint.netIncome p = minimumWageAfterTaxFor None.
Proof.
  apply (proj2 (proj2 (proj2 (proj2
           (minimum_wage_equivalent_point
              [graphSample 50000 10000; graphSample 100000 60000] None))))).
  - simpl. lia.
  - exists (graphSample 50000 10000). split; [now left | vm_compute; discriminate].
  - exists (graphSample 100000 60000). split; [right; now left | vm_compute; discriminate].
Defined.

Lemma minimum_wage_equivalent_flat_start_witness :
  findMinimumWageEquivalentPoint
    [graphSample 50000 (minimumWageAfterTaxFor None);
     graphSample 60000 (minimumWageAfterTaxFor None)] None
  = Some {| EquivalentPoint.income := NaN;
            EquivalentPoint.netIncome := minimumWageAfterTaxFor None |}.
Proof.
  apply (minimum_wage_equivalent_flat_start
           (graphSample 50000 (minimumWageAfterTaxFor None))
           (graphSample 60000 (minimumWageAfterTaxFor None)) [] None); reflexivity.
Defined.
